(** * The libdc1394 video capture engine of Psychtoolbox-3

    A shallow embedding of
    [PsychSourceGL/Source/Common/Screen/PsychVideoCaptureSupportLibDC1394.c]
    and the properties of its mode selection, capture session life cycle,
    frame retrieval and recording paths.

    Conventions of the embedding:
    - C [int] and [unsigned int] values are integers in [Z]; every place
      where the C code wraps around or reinterprets the sign is written
      with [uint32] and [int32].
    - C [float] and [double] values are IEEE-754 binary32 and binary64
      numbers ([spec_float] with the operations of [SpecFloat]), rounded to
      nearest even at every operation, as the C code evaluates them.
    - A function that can leave through [PsychErrorExitMsg] is a
      computation in the monad [M]; the capture record keeps every
      assignment made before the exit.
    - Calls into libdc1394, the movie writer and the thread library are
      answered by an [Environment]. *)

From Stdlib Require Import ZArith List Bool Lia String Ascii Sorted.
From Stdlib Require Import Floats.SpecFloat.
Import ListNotations.
Local Open Scope string_scope.
Local Open Scope Z_scope.

(** ** C integer arithmetic *)

Module C.

(** [unsigned int]: values are kept modulo 2^32. *)
Definition uint32 (x : Z) : Z := x mod 2 ^ 32.

(** [int]: conversion of an integer to the 32 bit two's complement range. *)
Definition int32 (x : Z) : Z := (x + 2 ^ 31) mod 2 ^ 32 - 2 ^ 31.

(** [psych_uint16]: values are kept modulo 2^16. *)
Definition uint16 (x : Z) : Z := x mod 2 ^ 16.

(** The C truth value of an [int] used as a condition. *)
Definition truthy (x : Z) : bool := negb (x =? 0).

(** [x & mask] used as a condition. *)
Definition has_flag (x mask : Z) : bool := truthy (Z.land x mask).

Definition of_bool (b : bool) : Z := if b then 1 else 0.

End C.

(** ** C floating point arithmetic *)

Module Flt.

(** [float] is binary32, [double] is binary64.  Both are carried by
    [spec_float]; the operations below fix precision and exponent range. *)
Definition float := spec_float.
Definition double := spec_float.

Definition fprec : Z := 24.
Definition femax : Z := 128.
Definition dprec : Z := 53.
Definition demax : Z := 1024.

(** Integer to floating point conversions. *)
Definition float_of_int (n : Z) : float := binary_normalize fprec femax n 0 false.
Definition double_of_int (n : Z) : double := binary_normalize dprec demax n 0 false.

(** [float] to [double] (exact) and [double] to [float] (rounding). *)
Definition double_of_float (x : float) : double :=
  match x with
  | S754_finite s m e => binary_round dprec demax s m e
  | _ => x
  end.

Definition float_of_double (x : double) : float :=
  match x with
  | S754_finite s m e => binary_round fprec femax s m e
  | _ => x
  end.

(** [(int) x]: truncation toward zero.  The conversion is undefined in C
    when the truncated value is not representable in an [int]. *)
Definition truncate (x : spec_float) : option Z :=
  match x with
  | S754_zero _ => Some 0
  | S754_finite s m e =>
      Some (cond_Zopp s (match e with
                         | Zneg p => Z.shiftr (Zpos m) (Zpos p)
                         | _ => Z.shiftl (Zpos m) e
                         end))
  | _ => None
  end.

Definition int_of (x : spec_float) : option Z :=
  match truncate x with
  | Some n => if (- 2 ^ 31 <=? n) && (n <? 2 ^ 31) then Some n else None
  | None => None
  end.

(** Arithmetic in [double]. *)
Definition dadd : double -> double -> double := SFadd dprec demax.
Definition dsub : double -> double -> double := SFsub dprec demax.
Definition dmul : double -> double -> double := SFmul dprec demax.
Definition ddiv : double -> double -> double := SFdiv dprec demax.

(** Arithmetic in [float]. *)
Definition fmul : float -> float -> float := SFmul fprec femax.
Definition fdiv : float -> float -> float := SFdiv fprec femax.

Definition fabs : double -> double := SFabs.

(** Comparisons; every comparison with a NaN is false, except [!=]. *)
Definition lt (x y : spec_float) : bool := SFltb x y.
Definition le (x y : spec_float) : bool := SFleb x y.
Definition gt (x y : spec_float) : bool := SFltb y x.
Definition ge (x y : spec_float) : bool := SFleb y x.
Definition eq (x y : spec_float) : bool := SFeqb x y.
Definition ne (x y : spec_float) : bool := negb (SFeqb x y).

(** Constants of the source. *)
Definition d0_5 : double := ddiv (double_of_int 1) (double_of_int 2).
Definition d1_0 : double := double_of_int 1.
Definition DBL_MAX : double := SFmax_float dprec demax.

(** A decimal [float] literal [n / 10^k], correctly rounded. *)
Definition float_literal (n : Z) (k : Z) : float :=
  fdiv (float_of_int n) (float_of_int (10 ^ k)).

(** A decimal [double] literal [n / 10^k], correctly rounded. *)
Definition double_literal (n : Z) (k : Z) : double :=
  ddiv (double_of_int n) (double_of_int (10 ^ k)).

End Flt.

(** ** The part of the libdc1394 interface the engine uses *)

Module DC1394.

(** [dc1394color_coding_t] *)
Inductive color_coding_t : Set :=
| COLOR_CODING_MONO8
| COLOR_CODING_YUV411
| COLOR_CODING_YUV422
| COLOR_CODING_YUV444
| COLOR_CODING_RGB8
| COLOR_CODING_MONO16
| COLOR_CODING_RGB16
| COLOR_CODING_MONO16S
| COLOR_CODING_RGB16S
| COLOR_CODING_RAW8
| COLOR_CODING_RAW16.

Scheme Equality for color_coding_t.

(** [dc1394_is_color] *)
Definition is_color (c : color_coding_t) : bool :=
  match c with
  | COLOR_CODING_MONO8 | COLOR_CODING_MONO16 | COLOR_CODING_MONO16S
  | COLOR_CODING_RAW8 | COLOR_CODING_RAW16 => false
  | _ => true
  end.

(** [dc1394_get_color_coding_data_depth]: bits per channel. *)
Definition color_coding_data_depth (c : color_coding_t) : Z :=
  match c with
  | COLOR_CODING_MONO8 | COLOR_CODING_YUV411 | COLOR_CODING_YUV422
  | COLOR_CODING_YUV444 | COLOR_CODING_RGB8 | COLOR_CODING_RAW8 => 8
  | _ => 16
  end.

(** [dc1394framerate_t] *)
Inductive framerate_t : Set :=
| FRAMERATE_1_875
| FRAMERATE_3_75
| FRAMERATE_7_5
| FRAMERATE_15
| FRAMERATE_30
| FRAMERATE_60
| FRAMERATE_120
| FRAMERATE_240.

Scheme Equality for framerate_t.

Definition FRAMERATE_MIN : framerate_t := FRAMERATE_1_875.

(** [dc1394_framerate_as_float] *)
Definition framerate_as_float (r : framerate_t) : Flt.float :=
  match r with
  | FRAMERATE_1_875 => Flt.float_literal 1875 3
  | FRAMERATE_3_75 => Flt.float_literal 375 2
  | FRAMERATE_7_5 => Flt.float_literal 75 1
  | FRAMERATE_15 => Flt.float_of_int 15
  | FRAMERATE_30 => Flt.float_of_int 30
  | FRAMERATE_60 => Flt.float_of_int 60
  | FRAMERATE_120 => Flt.float_of_int 120
  | FRAMERATE_240 => Flt.float_of_int 240
  end.

(** [dc1394speed_t] *)
Inductive speed_t : Set :=
| ISO_SPEED_100
| ISO_SPEED_200
| ISO_SPEED_400
| ISO_SPEED_800
| ISO_SPEED_1600
| ISO_SPEED_3200.

(** [dc1394video_mode_t] is an enumeration of consecutive integers. *)
Definition video_mode_t := Z.
Definition VIDEO_MODE_MIN : video_mode_t := 64.
Definition VIDEO_MODE_FORMAT7_MIN : video_mode_t := 88.
Definition VIDEO_MODE_FORMAT7_MAX : video_mode_t := 95.

(** [dc1394bayer_method_t] and [dc1394color_filter_t] ranges. *)
Definition BAYER_METHOD_MIN : Z := 0.
Definition BAYER_METHOD_NEAREST : Z := 0.
Definition COLOR_FILTER_MIN : Z := 512.
Definition COLOR_FILTER_MAX : Z := 515.

End DC1394.

(** ** The capture device record *)

(** [PsychRectType]: left, top, right, bottom.  Capture rectangles are
    pixel rectangles; their coordinates are kept as integers. *)
Record PsychRectType : Type := PsychMakeRect {
  kPsychLeft : Z;
  kPsychTop : Z;
  kPsychRight : Z;
  kPsychBottom : Z
}.

Definition PsychGetWidthFromRect (r : PsychRectType) : Z := kPsychRight r - kPsychLeft r.
Definition PsychGetHeightFromRect (r : PsychRectType) : Z := kPsychBottom r - kPsychTop r.

(** [dc1394video_frame_t]: the fields the engine reads.  [image] holds one
    entry per sample, 8 or 16 bits wide depending on the colour coding. *)
Record video_frame_t : Type := mkFrame {
  image : list Z;
  color_filter : Z;
  color_coding : option DC1394.color_coding_t;
  frames_behind : Z;
  timestamp : Z
}.

(** [psych_thread]: a created thread with the scheduling class and
    priority tweak requested through [PsychSetThreadPriority], if any. *)
Record psych_thread : Type := mkThread {
  thread_priority : option (Z * Z)
}.

(** Sync modes and sync roles for multi-camera synchronization. *)
Definition kPsychIsSyncMaster : Z := 1.
Definition kPsychIsSyncSlave : Z := 2.
Definition kPsychIsSoftSynced : Z := 4.
Definition kPsychIsBusSynced : Z := 8.
Definition kPsychIsHwSynced : Z := 16.

(** [PsychVidcapRecordType].  The fields that only hold clock readings
    ([current_pts], [pulled_pts], [avg_decompresstime], [avg_gfxtime]) and
    the mutex and condition objects are not part of the embedding. *)
Record PsychVidcapRecordType : Type := mkVidcapRecord {
  valid : Z;  (* [valid]: zero means the slot is free *)
  capturehandle : Z;
  recorderThread : option psych_thread;  (* handle of the background recorder thread, [None] is the null handle *)
  frameAvail : Z;
  camera : option Z;  (* the opened camera object, [None] is [NULL] *)
  frame : option video_frame_t;  (* most recently dequeued DMA frame *)
  convframe : option video_frame_t;  (* scratch frame of the colour conversion *)
  current_frame : option (list Z);
  pulled_frame : option (list Z);
  syncmode : Z;
  dropframes : Z;
  dc_imageformat : DC1394.video_mode_t;
  dc_framerate : option DC1394.framerate_t;  (* [None] is the zeroed field *)
  colormode : option DC1394.color_coding_t;  (* [None] is the zeroed field *)
  debayer_method : Z;
  color_filter_override : Z;
  dataconversionmode : Z;
  reqlayers : Z;
  actuallayers : Z;
  bitdepth : Z;
  num_dmabuffers : Z;
  nrframes : Z;
  framecounter : Z;
  fps : Flt.double;
  width : Z;
  height : Z;
  current_dropped : Z;
  pulled_dropped : Z;
  nr_droppedframes : Z;
  frame_ready : Z;
  grabber_active : Z;
  roirect : PsychRectType;
  nrgfxframes : Z;
  recording_active : bool;
  targetmoviefilename : option string;
  codecSpec : option string;
  moviehandle : Z;
  recordingflags : Z;
  specialFlags : Z
}.

Definition set_valid (v : Z) (r : PsychVidcapRecordType) : PsychVidcapRecordType :=
  mkVidcapRecord v (capturehandle r) (recorderThread r) (frameAvail r)
    (camera r) (frame r) (convframe r) (current_frame r) (pulled_frame r)
    (syncmode r) (dropframes r) (dc_imageformat r) (dc_framerate r)
    (colormode r) (debayer_method r) (color_filter_override r)
    (dataconversionmode r) (reqlayers r) (actuallayers r) (bitdepth r)
    (num_dmabuffers r) (nrframes r) (framecounter r) (fps r) (width r)
    (height r) (current_dropped r) (pulled_dropped r) (nr_droppedframes r)
    (frame_ready r) (grabber_active r) (roirect r) (nrgfxframes r)
    (recording_active r) (targetmoviefilename r) (codecSpec r) (moviehandle r)
    (recordingflags r) (specialFlags r).

Definition set_capturehandle (v : Z) (r : PsychVidcapRecordType) : PsychVidcapRecordType :=
  mkVidcapRecord (valid r) v (recorderThread r) (frameAvail r) (camera r)
    (frame r) (convframe r) (current_frame r) (pulled_frame r) (syncmode r)
    (dropframes r) (dc_imageformat r) (dc_framerate r) (colormode r)
    (debayer_method r) (color_filter_override r) (dataconversionmode r)
    (reqlayers r) (actuallayers r) (bitdepth r) (num_dmabuffers r)
    (nrframes r) (framecounter r) (fps r) (width r) (height r)
    (current_dropped r) (pulled_dropped r) (nr_droppedframes r)
    (frame_ready r) (grabber_active r) (roirect r) (nrgfxframes r)
    (recording_active r) (targetmoviefilename r) (codecSpec r) (moviehandle r)
    (recordingflags r) (specialFlags r).

Definition set_recorderThread (v : option psych_thread) (r : PsychVidcapRecordType) : PsychVidcapRecordType :=
  mkVidcapRecord (valid r) (capturehandle r) v (frameAvail r) (camera r)
    (frame r) (convframe r) (current_frame r) (pulled_frame r) (syncmode r)
    (dropframes r) (dc_imageformat r) (dc_framerate r) (colormode r)
    (debayer_method r) (color_filter_override r) (dataconversionmode r)
    (reqlayers r) (actuallayers r) (bitdepth r) (num_dmabuffers r)
    (nrframes r) (framecounter r) (fps r) (width r) (height r)
    (current_dropped r) (pulled_dropped r) (nr_droppedframes r)
    (frame_ready r) (grabber_active r) (roirect r) (nrgfxframes r)
    (recording_active r) (targetmoviefilename r) (codecSpec r) (moviehandle r)
    (recordingflags r) (specialFlags r).

Definition set_frameAvail (v : Z) (r : PsychVidcapRecordType) : PsychVidcapRecordType :=
  mkVidcapRecord (valid r) (capturehandle r) (recorderThread r) v (camera r)
    (frame r) (convframe r) (current_frame r) (pulled_frame r) (syncmode r)
    (dropframes r) (dc_imageformat r) (dc_framerate r) (colormode r)
    (debayer_method r) (color_filter_override r) (dataconversionmode r)
    (reqlayers r) (actuallayers r) (bitdepth r) (num_dmabuffers r)
    (nrframes r) (framecounter r) (fps r) (width r) (height r)
    (current_dropped r) (pulled_dropped r) (nr_droppedframes r)
    (frame_ready r) (grabber_active r) (roirect r) (nrgfxframes r)
    (recording_active r) (targetmoviefilename r) (codecSpec r) (moviehandle r)
    (recordingflags r) (specialFlags r).

Definition set_camera (v : option Z) (r : PsychVidcapRecordType) : PsychVidcapRecordType :=
  mkVidcapRecord (valid r) (capturehandle r) (recorderThread r) (frameAvail r)
    v (frame r) (convframe r) (current_frame r) (pulled_frame r) (syncmode r)
    (dropframes r) (dc_imageformat r) (dc_framerate r) (colormode r)
    (debayer_method r) (color_filter_override r) (dataconversionmode r)
    (reqlayers r) (actuallayers r) (bitdepth r) (num_dmabuffers r)
    (nrframes r) (framecounter r) (fps r) (width r) (height r)
    (current_dropped r) (pulled_dropped r) (nr_droppedframes r)
    (frame_ready r) (grabber_active r) (roirect r) (nrgfxframes r)
    (recording_active r) (targetmoviefilename r) (codecSpec r) (moviehandle r)
    (recordingflags r) (specialFlags r).

Definition set_frame (v : option video_frame_t) (r : PsychVidcapRecordType) : PsychVidcapRecordType :=
  mkVidcapRecord (valid r) (capturehandle r) (recorderThread r) (frameAvail r)
    (camera r) v (convframe r) (current_frame r) (pulled_frame r) (syncmode r)
    (dropframes r) (dc_imageformat r) (dc_framerate r) (colormode r)
    (debayer_method r) (color_filter_override r) (dataconversionmode r)
    (reqlayers r) (actuallayers r) (bitdepth r) (num_dmabuffers r)
    (nrframes r) (framecounter r) (fps r) (width r) (height r)
    (current_dropped r) (pulled_dropped r) (nr_droppedframes r)
    (frame_ready r) (grabber_active r) (roirect r) (nrgfxframes r)
    (recording_active r) (targetmoviefilename r) (codecSpec r) (moviehandle r)
    (recordingflags r) (specialFlags r).

Definition set_convframe (v : option video_frame_t) (r : PsychVidcapRecordType) : PsychVidcapRecordType :=
  mkVidcapRecord (valid r) (capturehandle r) (recorderThread r) (frameAvail r)
    (camera r) (frame r) v (current_frame r) (pulled_frame r) (syncmode r)
    (dropframes r) (dc_imageformat r) (dc_framerate r) (colormode r)
    (debayer_method r) (color_filter_override r) (dataconversionmode r)
    (reqlayers r) (actuallayers r) (bitdepth r) (num_dmabuffers r)
    (nrframes r) (framecounter r) (fps r) (width r) (height r)
    (current_dropped r) (pulled_dropped r) (nr_droppedframes r)
    (frame_ready r) (grabber_active r) (roirect r) (nrgfxframes r)
    (recording_active r) (targetmoviefilename r) (codecSpec r) (moviehandle r)
    (recordingflags r) (specialFlags r).

Definition set_current_frame (v : option (list Z)) (r : PsychVidcapRecordType) : PsychVidcapRecordType :=
  mkVidcapRecord (valid r) (capturehandle r) (recorderThread r) (frameAvail r)
    (camera r) (frame r) (convframe r) v (pulled_frame r) (syncmode r)
    (dropframes r) (dc_imageformat r) (dc_framerate r) (colormode r)
    (debayer_method r) (color_filter_override r) (dataconversionmode r)
    (reqlayers r) (actuallayers r) (bitdepth r) (num_dmabuffers r)
    (nrframes r) (framecounter r) (fps r) (width r) (height r)
    (current_dropped r) (pulled_dropped r) (nr_droppedframes r)
    (frame_ready r) (grabber_active r) (roirect r) (nrgfxframes r)
    (recording_active r) (targetmoviefilename r) (codecSpec r) (moviehandle r)
    (recordingflags r) (specialFlags r).

Definition set_pulled_frame (v : option (list Z)) (r : PsychVidcapRecordType) : PsychVidcapRecordType :=
  mkVidcapRecord (valid r) (capturehandle r) (recorderThread r) (frameAvail r)
    (camera r) (frame r) (convframe r) (current_frame r) v (syncmode r)
    (dropframes r) (dc_imageformat r) (dc_framerate r) (colormode r)
    (debayer_method r) (color_filter_override r) (dataconversionmode r)
    (reqlayers r) (actuallayers r) (bitdepth r) (num_dmabuffers r)
    (nrframes r) (framecounter r) (fps r) (width r) (height r)
    (current_dropped r) (pulled_dropped r) (nr_droppedframes r)
    (frame_ready r) (grabber_active r) (roirect r) (nrgfxframes r)
    (recording_active r) (targetmoviefilename r) (codecSpec r) (moviehandle r)
    (recordingflags r) (specialFlags r).

Definition set_syncmode (v : Z) (r : PsychVidcapRecordType) : PsychVidcapRecordType :=
  mkVidcapRecord (valid r) (capturehandle r) (recorderThread r) (frameAvail r)
    (camera r) (frame r) (convframe r) (current_frame r) (pulled_frame r) v
    (dropframes r) (dc_imageformat r) (dc_framerate r) (colormode r)
    (debayer_method r) (color_filter_override r) (dataconversionmode r)
    (reqlayers r) (actuallayers r) (bitdepth r) (num_dmabuffers r)
    (nrframes r) (framecounter r) (fps r) (width r) (height r)
    (current_dropped r) (pulled_dropped r) (nr_droppedframes r)
    (frame_ready r) (grabber_active r) (roirect r) (nrgfxframes r)
    (recording_active r) (targetmoviefilename r) (codecSpec r) (moviehandle r)
    (recordingflags r) (specialFlags r).

Definition set_dropframes (v : Z) (r : PsychVidcapRecordType) : PsychVidcapRecordType :=
  mkVidcapRecord (valid r) (capturehandle r) (recorderThread r) (frameAvail r)
    (camera r) (frame r) (convframe r) (current_frame r) (pulled_frame r)
    (syncmode r) v (dc_imageformat r) (dc_framerate r) (colormode r)
    (debayer_method r) (color_filter_override r) (dataconversionmode r)
    (reqlayers r) (actuallayers r) (bitdepth r) (num_dmabuffers r)
    (nrframes r) (framecounter r) (fps r) (width r) (height r)
    (current_dropped r) (pulled_dropped r) (nr_droppedframes r)
    (frame_ready r) (grabber_active r) (roirect r) (nrgfxframes r)
    (recording_active r) (targetmoviefilename r) (codecSpec r) (moviehandle r)
    (recordingflags r) (specialFlags r).

Definition set_dc_imageformat (v : DC1394.video_mode_t) (r : PsychVidcapRecordType) : PsychVidcapRecordType :=
  mkVidcapRecord (valid r) (capturehandle r) (recorderThread r) (frameAvail r)
    (camera r) (frame r) (convframe r) (current_frame r) (pulled_frame r)
    (syncmode r) (dropframes r) v (dc_framerate r) (colormode r)
    (debayer_method r) (color_filter_override r) (dataconversionmode r)
    (reqlayers r) (actuallayers r) (bitdepth r) (num_dmabuffers r)
    (nrframes r) (framecounter r) (fps r) (width r) (height r)
    (current_dropped r) (pulled_dropped r) (nr_droppedframes r)
    (frame_ready r) (grabber_active r) (roirect r) (nrgfxframes r)
    (recording_active r) (targetmoviefilename r) (codecSpec r) (moviehandle r)
    (recordingflags r) (specialFlags r).

Definition set_dc_framerate (v : option DC1394.framerate_t) (r : PsychVidcapRecordType) : PsychVidcapRecordType :=
  mkVidcapRecord (valid r) (capturehandle r) (recorderThread r) (frameAvail r)
    (camera r) (frame r) (convframe r) (current_frame r) (pulled_frame r)
    (syncmode r) (dropframes r) (dc_imageformat r) v (colormode r)
    (debayer_method r) (color_filter_override r) (dataconversionmode r)
    (reqlayers r) (actuallayers r) (bitdepth r) (num_dmabuffers r)
    (nrframes r) (framecounter r) (fps r) (width r) (height r)
    (current_dropped r) (pulled_dropped r) (nr_droppedframes r)
    (frame_ready r) (grabber_active r) (roirect r) (nrgfxframes r)
    (recording_active r) (targetmoviefilename r) (codecSpec r) (moviehandle r)
    (recordingflags r) (specialFlags r).

Definition set_colormode (v : option DC1394.color_coding_t) (r : PsychVidcapRecordType) : PsychVidcapRecordType :=
  mkVidcapRecord (valid r) (capturehandle r) (recorderThread r) (frameAvail r)
    (camera r) (frame r) (convframe r) (current_frame r) (pulled_frame r)
    (syncmode r) (dropframes r) (dc_imageformat r) (dc_framerate r) v
    (debayer_method r) (color_filter_override r) (dataconversionmode r)
    (reqlayers r) (actuallayers r) (bitdepth r) (num_dmabuffers r)
    (nrframes r) (framecounter r) (fps r) (width r) (height r)
    (current_dropped r) (pulled_dropped r) (nr_droppedframes r)
    (frame_ready r) (grabber_active r) (roirect r) (nrgfxframes r)
    (recording_active r) (targetmoviefilename r) (codecSpec r) (moviehandle r)
    (recordingflags r) (specialFlags r).

Definition set_debayer_method (v : Z) (r : PsychVidcapRecordType) : PsychVidcapRecordType :=
  mkVidcapRecord (valid r) (capturehandle r) (recorderThread r) (frameAvail r)
    (camera r) (frame r) (convframe r) (current_frame r) (pulled_frame r)
    (syncmode r) (dropframes r) (dc_imageformat r) (dc_framerate r)
    (colormode r) v (color_filter_override r) (dataconversionmode r)
    (reqlayers r) (actuallayers r) (bitdepth r) (num_dmabuffers r)
    (nrframes r) (framecounter r) (fps r) (width r) (height r)
    (current_dropped r) (pulled_dropped r) (nr_droppedframes r)
    (frame_ready r) (grabber_active r) (roirect r) (nrgfxframes r)
    (recording_active r) (targetmoviefilename r) (codecSpec r) (moviehandle r)
    (recordingflags r) (specialFlags r).

Definition set_reqlayers (v : Z) (r : PsychVidcapRecordType) : PsychVidcapRecordType :=
  mkVidcapRecord (valid r) (capturehandle r) (recorderThread r) (frameAvail r)
    (camera r) (frame r) (convframe r) (current_frame r) (pulled_frame r)
    (syncmode r) (dropframes r) (dc_imageformat r) (dc_framerate r)
    (colormode r) (debayer_method r) (color_filter_override r)
    (dataconversionmode r) v (actuallayers r) (bitdepth r) (num_dmabuffers r)
    (nrframes r) (framecounter r) (fps r) (width r) (height r)
    (current_dropped r) (pulled_dropped r) (nr_droppedframes r)
    (frame_ready r) (grabber_active r) (roirect r) (nrgfxframes r)
    (recording_active r) (targetmoviefilename r) (codecSpec r) (moviehandle r)
    (recordingflags r) (specialFlags r).

Definition set_actuallayers (v : Z) (r : PsychVidcapRecordType) : PsychVidcapRecordType :=
  mkVidcapRecord (valid r) (capturehandle r) (recorderThread r) (frameAvail r)
    (camera r) (frame r) (convframe r) (current_frame r) (pulled_frame r)
    (syncmode r) (dropframes r) (dc_imageformat r) (dc_framerate r)
    (colormode r) (debayer_method r) (color_filter_override r)
    (dataconversionmode r) (reqlayers r) v (bitdepth r) (num_dmabuffers r)
    (nrframes r) (framecounter r) (fps r) (width r) (height r)
    (current_dropped r) (pulled_dropped r) (nr_droppedframes r)
    (frame_ready r) (grabber_active r) (roirect r) (nrgfxframes r)
    (recording_active r) (targetmoviefilename r) (codecSpec r) (moviehandle r)
    (recordingflags r) (specialFlags r).

Definition set_bitdepth (v : Z) (r : PsychVidcapRecordType) : PsychVidcapRecordType :=
  mkVidcapRecord (valid r) (capturehandle r) (recorderThread r) (frameAvail r)
    (camera r) (frame r) (convframe r) (current_frame r) (pulled_frame r)
    (syncmode r) (dropframes r) (dc_imageformat r) (dc_framerate r)
    (colormode r) (debayer_method r) (color_filter_override r)
    (dataconversionmode r) (reqlayers r) (actuallayers r) v (num_dmabuffers r)
    (nrframes r) (framecounter r) (fps r) (width r) (height r)
    (current_dropped r) (pulled_dropped r) (nr_droppedframes r)
    (frame_ready r) (grabber_active r) (roirect r) (nrgfxframes r)
    (recording_active r) (targetmoviefilename r) (codecSpec r) (moviehandle r)
    (recordingflags r) (specialFlags r).

Definition set_num_dmabuffers (v : Z) (r : PsychVidcapRecordType) : PsychVidcapRecordType :=
  mkVidcapRecord (valid r) (capturehandle r) (recorderThread r) (frameAvail r)
    (camera r) (frame r) (convframe r) (current_frame r) (pulled_frame r)
    (syncmode r) (dropframes r) (dc_imageformat r) (dc_framerate r)
    (colormode r) (debayer_method r) (color_filter_override r)
    (dataconversionmode r) (reqlayers r) (actuallayers r) (bitdepth r) v
    (nrframes r) (framecounter r) (fps r) (width r) (height r)
    (current_dropped r) (pulled_dropped r) (nr_droppedframes r)
    (frame_ready r) (grabber_active r) (roirect r) (nrgfxframes r)
    (recording_active r) (targetmoviefilename r) (codecSpec r) (moviehandle r)
    (recordingflags r) (specialFlags r).

Definition set_nrframes (v : Z) (r : PsychVidcapRecordType) : PsychVidcapRecordType :=
  mkVidcapRecord (valid r) (capturehandle r) (recorderThread r) (frameAvail r)
    (camera r) (frame r) (convframe r) (current_frame r) (pulled_frame r)
    (syncmode r) (dropframes r) (dc_imageformat r) (dc_framerate r)
    (colormode r) (debayer_method r) (color_filter_override r)
    (dataconversionmode r) (reqlayers r) (actuallayers r) (bitdepth r)
    (num_dmabuffers r) v (framecounter r) (fps r) (width r) (height r)
    (current_dropped r) (pulled_dropped r) (nr_droppedframes r)
    (frame_ready r) (grabber_active r) (roirect r) (nrgfxframes r)
    (recording_active r) (targetmoviefilename r) (codecSpec r) (moviehandle r)
    (recordingflags r) (specialFlags r).

Definition set_framecounter (v : Z) (r : PsychVidcapRecordType) : PsychVidcapRecordType :=
  mkVidcapRecord (valid r) (capturehandle r) (recorderThread r) (frameAvail r)
    (camera r) (frame r) (convframe r) (current_frame r) (pulled_frame r)
    (syncmode r) (dropframes r) (dc_imageformat r) (dc_framerate r)
    (colormode r) (debayer_method r) (color_filter_override r)
    (dataconversionmode r) (reqlayers r) (actuallayers r) (bitdepth r)
    (num_dmabuffers r) (nrframes r) v (fps r) (width r) (height r)
    (current_dropped r) (pulled_dropped r) (nr_droppedframes r)
    (frame_ready r) (grabber_active r) (roirect r) (nrgfxframes r)
    (recording_active r) (targetmoviefilename r) (codecSpec r) (moviehandle r)
    (recordingflags r) (specialFlags r).

Definition set_fps (v : Flt.double) (r : PsychVidcapRecordType) : PsychVidcapRecordType :=
  mkVidcapRecord (valid r) (capturehandle r) (recorderThread r) (frameAvail r)
    (camera r) (frame r) (convframe r) (current_frame r) (pulled_frame r)
    (syncmode r) (dropframes r) (dc_imageformat r) (dc_framerate r)
    (colormode r) (debayer_method r) (color_filter_override r)
    (dataconversionmode r) (reqlayers r) (actuallayers r) (bitdepth r)
    (num_dmabuffers r) (nrframes r) (framecounter r) v (width r) (height r)
    (current_dropped r) (pulled_dropped r) (nr_droppedframes r)
    (frame_ready r) (grabber_active r) (roirect r) (nrgfxframes r)
    (recording_active r) (targetmoviefilename r) (codecSpec r) (moviehandle r)
    (recordingflags r) (specialFlags r).

Definition set_width (v : Z) (r : PsychVidcapRecordType) : PsychVidcapRecordType :=
  mkVidcapRecord (valid r) (capturehandle r) (recorderThread r) (frameAvail r)
    (camera r) (frame r) (convframe r) (current_frame r) (pulled_frame r)
    (syncmode r) (dropframes r) (dc_imageformat r) (dc_framerate r)
    (colormode r) (debayer_method r) (color_filter_override r)
    (dataconversionmode r) (reqlayers r) (actuallayers r) (bitdepth r)
    (num_dmabuffers r) (nrframes r) (framecounter r) (fps r) v (height r)
    (current_dropped r) (pulled_dropped r) (nr_droppedframes r)
    (frame_ready r) (grabber_active r) (roirect r) (nrgfxframes r)
    (recording_active r) (targetmoviefilename r) (codecSpec r) (moviehandle r)
    (recordingflags r) (specialFlags r).

Definition set_height (v : Z) (r : PsychVidcapRecordType) : PsychVidcapRecordType :=
  mkVidcapRecord (valid r) (capturehandle r) (recorderThread r) (frameAvail r)
    (camera r) (frame r) (convframe r) (current_frame r) (pulled_frame r)
    (syncmode r) (dropframes r) (dc_imageformat r) (dc_framerate r)
    (colormode r) (debayer_method r) (color_filter_override r)
    (dataconversionmode r) (reqlayers r) (actuallayers r) (bitdepth r)
    (num_dmabuffers r) (nrframes r) (framecounter r) (fps r) (width r) v
    (current_dropped r) (pulled_dropped r) (nr_droppedframes r)
    (frame_ready r) (grabber_active r) (roirect r) (nrgfxframes r)
    (recording_active r) (targetmoviefilename r) (codecSpec r) (moviehandle r)
    (recordingflags r) (specialFlags r).

Definition set_current_dropped (v : Z) (r : PsychVidcapRecordType) : PsychVidcapRecordType :=
  mkVidcapRecord (valid r) (capturehandle r) (recorderThread r) (frameAvail r)
    (camera r) (frame r) (convframe r) (current_frame r) (pulled_frame r)
    (syncmode r) (dropframes r) (dc_imageformat r) (dc_framerate r)
    (colormode r) (debayer_method r) (color_filter_override r)
    (dataconversionmode r) (reqlayers r) (actuallayers r) (bitdepth r)
    (num_dmabuffers r) (nrframes r) (framecounter r) (fps r) (width r)
    (height r) v (pulled_dropped r) (nr_droppedframes r) (frame_ready r)
    (grabber_active r) (roirect r) (nrgfxframes r) (recording_active r)
    (targetmoviefilename r) (codecSpec r) (moviehandle r) (recordingflags r)
    (specialFlags r).

Definition set_pulled_dropped (v : Z) (r : PsychVidcapRecordType) : PsychVidcapRecordType :=
  mkVidcapRecord (valid r) (capturehandle r) (recorderThread r) (frameAvail r)
    (camera r) (frame r) (convframe r) (current_frame r) (pulled_frame r)
    (syncmode r) (dropframes r) (dc_imageformat r) (dc_framerate r)
    (colormode r) (debayer_method r) (color_filter_override r)
    (dataconversionmode r) (reqlayers r) (actuallayers r) (bitdepth r)
    (num_dmabuffers r) (nrframes r) (framecounter r) (fps r) (width r)
    (height r) (current_dropped r) v (nr_droppedframes r) (frame_ready r)
    (grabber_active r) (roirect r) (nrgfxframes r) (recording_active r)
    (targetmoviefilename r) (codecSpec r) (moviehandle r) (recordingflags r)
    (specialFlags r).

Definition set_nr_droppedframes (v : Z) (r : PsychVidcapRecordType) : PsychVidcapRecordType :=
  mkVidcapRecord (valid r) (capturehandle r) (recorderThread r) (frameAvail r)
    (camera r) (frame r) (convframe r) (current_frame r) (pulled_frame r)
    (syncmode r) (dropframes r) (dc_imageformat r) (dc_framerate r)
    (colormode r) (debayer_method r) (color_filter_override r)
    (dataconversionmode r) (reqlayers r) (actuallayers r) (bitdepth r)
    (num_dmabuffers r) (nrframes r) (framecounter r) (fps r) (width r)
    (height r) (current_dropped r) (pulled_dropped r) v (frame_ready r)
    (grabber_active r) (roirect r) (nrgfxframes r) (recording_active r)
    (targetmoviefilename r) (codecSpec r) (moviehandle r) (recordingflags r)
    (specialFlags r).

Definition set_frame_ready (v : Z) (r : PsychVidcapRecordType) : PsychVidcapRecordType :=
  mkVidcapRecord (valid r) (capturehandle r) (recorderThread r) (frameAvail r)
    (camera r) (frame r) (convframe r) (current_frame r) (pulled_frame r)
    (syncmode r) (dropframes r) (dc_imageformat r) (dc_framerate r)
    (colormode r) (debayer_method r) (color_filter_override r)
    (dataconversionmode r) (reqlayers r) (actuallayers r) (bitdepth r)
    (num_dmabuffers r) (nrframes r) (framecounter r) (fps r) (width r)
    (height r) (current_dropped r) (pulled_dropped r) (nr_droppedframes r) v
    (grabber_active r) (roirect r) (nrgfxframes r) (recording_active r)
    (targetmoviefilename r) (codecSpec r) (moviehandle r) (recordingflags r)
    (specialFlags r).

Definition set_grabber_active (v : Z) (r : PsychVidcapRecordType) : PsychVidcapRecordType :=
  mkVidcapRecord (valid r) (capturehandle r) (recorderThread r) (frameAvail r)
    (camera r) (frame r) (convframe r) (current_frame r) (pulled_frame r)
    (syncmode r) (dropframes r) (dc_imageformat r) (dc_framerate r)
    (colormode r) (debayer_method r) (color_filter_override r)
    (dataconversionmode r) (reqlayers r) (actuallayers r) (bitdepth r)
    (num_dmabuffers r) (nrframes r) (framecounter r) (fps r) (width r)
    (height r) (current_dropped r) (pulled_dropped r) (nr_droppedframes r)
    (frame_ready r) v (roirect r) (nrgfxframes r) (recording_active r)
    (targetmoviefilename r) (codecSpec r) (moviehandle r) (recordingflags r)
    (specialFlags r).

Definition set_roirect (v : PsychRectType) (r : PsychVidcapRecordType) : PsychVidcapRecordType :=
  mkVidcapRecord (valid r) (capturehandle r) (recorderThread r) (frameAvail r)
    (camera r) (frame r) (convframe r) (current_frame r) (pulled_frame r)
    (syncmode r) (dropframes r) (dc_imageformat r) (dc_framerate r)
    (colormode r) (debayer_method r) (color_filter_override r)
    (dataconversionmode r) (reqlayers r) (actuallayers r) (bitdepth r)
    (num_dmabuffers r) (nrframes r) (framecounter r) (fps r) (width r)
    (height r) (current_dropped r) (pulled_dropped r) (nr_droppedframes r)
    (frame_ready r) (grabber_active r) v (nrgfxframes r) (recording_active r)
    (targetmoviefilename r) (codecSpec r) (moviehandle r) (recordingflags r)
    (specialFlags r).

Definition set_nrgfxframes (v : Z) (r : PsychVidcapRecordType) : PsychVidcapRecordType :=
  mkVidcapRecord (valid r) (capturehandle r) (recorderThread r) (frameAvail r)
    (camera r) (frame r) (convframe r) (current_frame r) (pulled_frame r)
    (syncmode r) (dropframes r) (dc_imageformat r) (dc_framerate r)
    (colormode r) (debayer_method r) (color_filter_override r)
    (dataconversionmode r) (reqlayers r) (actuallayers r) (bitdepth r)
    (num_dmabuffers r) (nrframes r) (framecounter r) (fps r) (width r)
    (height r) (current_dropped r) (pulled_dropped r) (nr_droppedframes r)
    (frame_ready r) (grabber_active r) (roirect r) v (recording_active r)
    (targetmoviefilename r) (codecSpec r) (moviehandle r) (recordingflags r)
    (specialFlags r).

Definition set_recording_active (v : bool) (r : PsychVidcapRecordType) : PsychVidcapRecordType :=
  mkVidcapRecord (valid r) (capturehandle r) (recorderThread r) (frameAvail r)
    (camera r) (frame r) (convframe r) (current_frame r) (pulled_frame r)
    (syncmode r) (dropframes r) (dc_imageformat r) (dc_framerate r)
    (colormode r) (debayer_method r) (color_filter_override r)
    (dataconversionmode r) (reqlayers r) (actuallayers r) (bitdepth r)
    (num_dmabuffers r) (nrframes r) (framecounter r) (fps r) (width r)
    (height r) (current_dropped r) (pulled_dropped r) (nr_droppedframes r)
    (frame_ready r) (grabber_active r) (roirect r) (nrgfxframes r) v
    (targetmoviefilename r) (codecSpec r) (moviehandle r) (recordingflags r)
    (specialFlags r).

Definition set_targetmoviefilename (v : option string) (r : PsychVidcapRecordType) : PsychVidcapRecordType :=
  mkVidcapRecord (valid r) (capturehandle r) (recorderThread r) (frameAvail r)
    (camera r) (frame r) (convframe r) (current_frame r) (pulled_frame r)
    (syncmode r) (dropframes r) (dc_imageformat r) (dc_framerate r)
    (colormode r) (debayer_method r) (color_filter_override r)
    (dataconversionmode r) (reqlayers r) (actuallayers r) (bitdepth r)
    (num_dmabuffers r) (nrframes r) (framecounter r) (fps r) (width r)
    (height r) (current_dropped r) (pulled_dropped r) (nr_droppedframes r)
    (frame_ready r) (grabber_active r) (roirect r) (nrgfxframes r)
    (recording_active r) v (codecSpec r) (moviehandle r) (recordingflags r)
    (specialFlags r).

Definition set_codecSpec (v : option string) (r : PsychVidcapRecordType) : PsychVidcapRecordType :=
  mkVidcapRecord (valid r) (capturehandle r) (recorderThread r) (frameAvail r)
    (camera r) (frame r) (convframe r) (current_frame r) (pulled_frame r)
    (syncmode r) (dropframes r) (dc_imageformat r) (dc_framerate r)
    (colormode r) (debayer_method r) (color_filter_override r)
    (dataconversionmode r) (reqlayers r) (actuallayers r) (bitdepth r)
    (num_dmabuffers r) (nrframes r) (framecounter r) (fps r) (width r)
    (height r) (current_dropped r) (pulled_dropped r) (nr_droppedframes r)
    (frame_ready r) (grabber_active r) (roirect r) (nrgfxframes r)
    (recording_active r) (targetmoviefilename r) v (moviehandle r)
    (recordingflags r) (specialFlags r).

Definition set_moviehandle (v : Z) (r : PsychVidcapRecordType) : PsychVidcapRecordType :=
  mkVidcapRecord (valid r) (capturehandle r) (recorderThread r) (frameAvail r)
    (camera r) (frame r) (convframe r) (current_frame r) (pulled_frame r)
    (syncmode r) (dropframes r) (dc_imageformat r) (dc_framerate r)
    (colormode r) (debayer_method r) (color_filter_override r)
    (dataconversionmode r) (reqlayers r) (actuallayers r) (bitdepth r)
    (num_dmabuffers r) (nrframes r) (framecounter r) (fps r) (width r)
    (height r) (current_dropped r) (pulled_dropped r) (nr_droppedframes r)
    (frame_ready r) (grabber_active r) (roirect r) (nrgfxframes r)
    (recording_active r) (targetmoviefilename r) (codecSpec r) v
    (recordingflags r) (specialFlags r).

Definition set_recordingflags (v : Z) (r : PsychVidcapRecordType) : PsychVidcapRecordType :=
  mkVidcapRecord (valid r) (capturehandle r) (recorderThread r) (frameAvail r)
    (camera r) (frame r) (convframe r) (current_frame r) (pulled_frame r)
    (syncmode r) (dropframes r) (dc_imageformat r) (dc_framerate r)
    (colormode r) (debayer_method r) (color_filter_override r)
    (dataconversionmode r) (reqlayers r) (actuallayers r) (bitdepth r)
    (num_dmabuffers r) (nrframes r) (framecounter r) (fps r) (width r)
    (height r) (current_dropped r) (pulled_dropped r) (nr_droppedframes r)
    (frame_ready r) (grabber_active r) (roirect r) (nrgfxframes r)
    (recording_active r) (targetmoviefilename r) (codecSpec r) (moviehandle r)
    v (specialFlags r).

(** The record after [memset(capdev, 0, sizeof(PsychVidcapRecordType))]. *)
Definition zeroed_record : PsychVidcapRecordType :=
  mkVidcapRecord 0 0 None 0 None None None None None 0 0 0 None None 0 0 0 0
    0 0 0 0 0 (S754_zero false) 0 0 0 0 0 0 0 (PsychMakeRect 0 0 0 0) 0 false
    None None 0 0 0.

(** ** Calls into libdc1394 *)

Inductive capture_policy : Set := CAPTURE_POLICY_WAIT | CAPTURE_POLICY_POLL.

(** The calls whose failure the engine checks, with their arguments. *)
Inductive dc_call : Type :=
| camera_enumerate
| camera_set_power (on : bool)
| camera_reset
| video_get_iso_speed
| video_set_iso_speed (s : option DC1394.speed_t)
| video_set_mode (m : DC1394.video_mode_t)
| video_set_framerate (r : option DC1394.framerate_t)
| format7_get_max_image_size (m : DC1394.video_mode_t)
| format7_set_image_position (m : DC1394.video_mode_t) (x y : Z)
| format7_set_image_size (m : DC1394.video_mode_t) (w h : Z)
| format7_get_packet_parameters (m : DC1394.video_mode_t)
| format7_get_data_depth (m : DC1394.video_mode_t)
| format7_set_roi (m : DC1394.video_mode_t) (c : option DC1394.color_coding_t)
    (packetsize left top w h : Z)
| capture_setup (num_dma_buffers : Z)
| capture_stop
| camera_set_broadcast (on : bool)
| external_trigger_set_power (on : bool)
| video_set_transmission (capturehandle : Z) (on : bool)
| video_get_data_depth
| capture_dequeue (p : capture_policy)
| capture_enqueue
| debayer_frames
| convert_frames.

Record World : Type := mkWorld {
  capdev : PsychVidcapRecordType;  (* the record of the capture device under consideration *)
  firsttime : bool;  (* library not yet initialised *)
  libdc : bool;  (* master handle of libdc1394 is non-null *)
  numCaptureRecords : Z;
  hw : list dc_call;  (* libdc1394 calls issued so far, oldest first *)
  console : list string;  (* warnings printed so far, oldest first *)
  ring : list video_frame_t;  (* DMA ring: frames captured and not yet dequeued, oldest first *)
  movie : list (list Z)  (* frames added to the movie writer, oldest first *)
}.

Definition with_capdev (v : PsychVidcapRecordType) (w : World) : World :=
  mkWorld v (firsttime w) (libdc w) (numCaptureRecords w) (hw w) (console w)
    (ring w) (movie w).

Definition with_firsttime (v : bool) (w : World) : World :=
  mkWorld (capdev w) v (libdc w) (numCaptureRecords w) (hw w) (console w)
    (ring w) (movie w).

Definition with_libdc (v : bool) (w : World) : World :=
  mkWorld (capdev w) (firsttime w) v (numCaptureRecords w) (hw w) (console w)
    (ring w) (movie w).

Definition with_numCaptureRecords (v : Z) (w : World) : World :=
  mkWorld (capdev w) (firsttime w) (libdc w) v (hw w) (console w) (ring w)
    (movie w).

Definition with_hw (v : list dc_call) (w : World) : World :=
  mkWorld (capdev w) (firsttime w) (libdc w) (numCaptureRecords w) v
    (console w) (ring w) (movie w).

Definition with_console (v : list string) (w : World) : World :=
  mkWorld (capdev w) (firsttime w) (libdc w) (numCaptureRecords w) (hw w) v
    (ring w) (movie w).

Definition with_ring (v : list video_frame_t) (w : World) : World :=
  mkWorld (capdev w) (firsttime w) (libdc w) (numCaptureRecords w) (hw w)
    (console w) v (movie w).

Definition with_movie (v : list (list Z)) (w : World) : World :=
  mkWorld (capdev w) (firsttime w) (libdc w) (numCaptureRecords w) (hw w)
    (console w) (ring w) v.

(** ** The environment of the engine

    Everything the engine learns from libdc1394, from the movie writer,
    from the thread library and from the preferences. *)
Record Environment : Type := mkEnvironment {
  PSYCH_MAX_CAPTUREDEVICES : Z;
  verbosity : Z;                         (* PsychPrefStateGet_Verbosity() *)
  dc1394_new_ok : bool;                  (* dc1394_new() returns a handle *)
  dc_succeeds : dc_call -> bool;         (* the call returns DC1394_SUCCESS *)
  cameras_num : Z;                       (* cameras->num after enumeration *)
  camera_new_unit : Z -> option Z;       (* dc1394_camera_new_unit for an index *)
  vendor : string;                       (* camera->vendor *)
  model : string;                        (* camera->model *)
  iso_speed : option DC1394.speed_t;     (* reported speed, [None]: no known code *)
  video_modes : list DC1394.video_mode_t;
  color_coding_of_mode : DC1394.video_mode_t -> DC1394.color_coding_t;
  image_size_of_mode : DC1394.video_mode_t -> Z * Z;
  supported_framerates : DC1394.video_mode_t -> list DC1394.framerate_t;
  format7_max_size : DC1394.video_mode_t -> Z * Z;
  format7_packet_para : DC1394.video_mode_t -> Z * Z;    (* pbmin, pbmax *)
  format7_depth : DC1394.video_mode_t -> Z;
  data_depth : Z;                        (* dc1394_video_get_data_depth *)
  trigger_present : bool;                (* DC1394_FEATURE_TRIGGER is present *)
  soft_sync_slaves : list Z;             (* other valid records that are soft-synced slaves *)
  movie_create : Z;                      (* PsychCreateNewMovieFile *)
  movie_buffer : bool * (Z * Z * Z * Z); (* PsychGetVideoFrameForMoviePtr:
                                            buffer present, twidth, theight,
                                            numChannels, bitdepth *)
  movie_add_frame : Z;                   (* PsychAddVideoFrameToMovie *)
  movie_finalize : Z;                    (* PsychFinalizeNewMovieFile *)
  create_thread_rc : Z;                  (* PsychCreateThread *)
  wait_condition_rc : Z;                 (* PsychWaitCondition *)
  debayer : list Z -> Z -> Z -> list Z;  (* image written by dc1394_debayer_frames
                                            for an image, its colour filter and
                                            the debayering method *)
  convert : list Z -> list Z             (* image written by dc1394_convert_frames *)
}.

(** ** Computations that may leave through [PsychErrorExitMsg] *)

Inductive outcome (A : Type) : Type :=
| Returns (a : A)                (* the function returns [a] *)
| ErrorExit (msg : string)       (* PsychErrorExitMsg was called *)
| Undefined (why : string)       (* the C standard gives the step no meaning *)
| Waits.                         (* the caller sleeps until the camera or the recorder thread acts *)

Arguments Returns {A} a.
Arguments ErrorExit {A} msg.
Arguments Undefined {A} why.
Arguments Waits {A}.

Definition M (A : Type) : Type := World -> outcome A * World.

Definition ret {A : Type} (a : A) : M A := fun w => (Returns a, w).

Definition bind {A B : Type} (c : M A) (k : A -> M B) : M B :=
  fun w =>
    match c w with
    | (Returns a, w') => k a w'
    | (ErrorExit msg, w') => (ErrorExit msg, w')
    | (Undefined why, w') => (Undefined why, w')
    | (Waits, w') => (Waits, w')
    end.

Declare Scope capture_scope.
Delimit Scope capture_scope with capture.
Notation "x <- c ;; k" := (bind c (fun x => k))
  (at level 61, c at next level, right associativity) : capture_scope.
Notation "c ;; k" := (bind c (fun _ => k))
  (at level 61, right associativity) : capture_scope.
Local Open Scope capture_scope.

Definition PsychErrorExitMsg {A : Type} (msg : string) : M A :=
  fun w => (ErrorExit msg, w).

Definition undefined {A : Type} (why : string) : M A :=
  fun w => (Undefined why, w).

Definition wait_for_signal {A : Type} : M A := fun w => (Waits, w).

(** Read the capture record. *)
Definition get_capdev : M PsychVidcapRecordType := fun w => (Returns (capdev w), w).

(** [capdev->field = v] *)
Definition assign (f : PsychVidcapRecordType -> PsychVidcapRecordType) : M unit :=
  fun w => (Returns tt, with_capdev (f (capdev w)) w).

Definition get_world : M World := fun w => (Returns w, w).
Definition put_world (f : World -> World) : M unit := fun w => (Returns tt, f w).

(** An unconditional [printf] of a warning or an error. *)
Definition printf (msg : string) : M unit :=
  put_world (fun w => with_console (console w ++ [msg]) w).

Definition when (b : bool) (c : M unit) : M unit := if b then c else ret tt.

(** Addition of two [int] values; an overflow has no meaning in C. *)
Definition in_int_range (x : Z) : bool := (- 2 ^ 31 <=? x) && (x <? 2 ^ 31).

Definition int_add (x y : Z) : M Z :=
  if in_int_range (x + y) then ret (x + y)
  else undefined "signed integer overflow".

(** [capdev->field += n] for an [int] field. *)
Definition increment (field : PsychVidcapRecordType -> Z)
    (set : Z -> PsychVidcapRecordType -> PsychVidcapRecordType) (n : Z) : M unit :=
  fun w =>
    match int_add (field (capdev w)) n w with
    | (Returns r, w') => (Returns tt, with_capdev (set r (capdev w')) w')
    | (ErrorExit msg, w') => (ErrorExit msg, w')
    | (Undefined why, w') => (Undefined why, w')
    | (Waits, w') => (Waits, w')
    end.

(** ** Loops

    A [while] loop over a state that fits in machine words.  The loop is
    run for at most [fuel] turns; [inl] is the state at the exit of the
    loop, [inr] the state after [fuel] turns of a loop that is still
    running. *)
Section While.

Context {S : Type}.
Variable cond : S -> bool.
Variable body : S -> S.

Fixpoint while_fuel (fuel : positive) (s : S) : S + S :=
  match fuel with
  | xH => if cond s then inr (body s) else inl s
  | xO p =>
      match while_fuel p s with
      | inl r => inl r
      | inr s' => while_fuel p s'
      end
  | xI p =>
      match while_fuel p s with
      | inl r => inl r
      | inr s' =>
          match while_fuel p s' with
          | inl r => inl r
          | inr s'' => if cond s'' then inr (body s'') else inl s''
          end
      end
  end.

(** A loop over a 32 bit state either ends within 2^32 turns or never. *)
Definition while (s : S) : option S :=
  match while_fuel (2 ^ 32)%positive s with
  | inl r => Some r
  | inr _ => None
  end.

End While.

(** ** The libdc1394 calls *)

Section Engine.

Variable env : Environment.

(** Issue a call; the result tells whether it returned [DC1394_SUCCESS]. *)
Definition dc (c : dc_call) : M bool :=
  fun w => (Returns (dc_succeeds env c), with_hw (hw w ++ [c]) w).

(** [strstr(haystack, needle) != NULL] *)
Definition strstr (haystack needle : string) : bool :=
  match String.index 0 needle haystack with
  | Some _ => true
  | None => false
  end.

(** [PsychGetVidcapRecord]: range and validity check of a handle. *)
Definition PsychGetVidcapRecord (deviceIndex : Z) : M PsychVidcapRecordType :=
  if deviceIndex <? 0 then
    PsychErrorExitMsg "Invalid (negative) deviceIndex for video capture device passed!"
  else if deviceIndex >=? PSYCH_MAX_CAPTUREDEVICES env then
    PsychErrorExitMsg "Invalid deviceIndex for video capture device passed. Index exceeds number of registered devices!"
  else
    cd <- get_capdev ;;
    if valid cd =? 0 then
      PsychErrorExitMsg "Invalid deviceIndex for video capture device passed. No such device open!"
    else ret cd.

(** ** Opening a capture device *)

(** [PsychDCLibInit]: first time initialisation of the library. *)
Definition PsychDCLibInit : M unit :=
  w <- get_world ;;
  if firsttime w then
    if dc1394_new_ok env then
      put_world (fun w => with_firsttime false (with_libdc true w))
    else
      put_world (with_libdc false) ;;
      PsychErrorExitMsg "Failed to initialize libDC1394 V2 Firewire video capture library! Capture engine unavailable."
  else ret tt.

(** The text of [s] before position [i], and the text from position [i] on. *)
Definition str_before (i : nat) (s : string) : string := String.substring 0 i s.
Definition str_from (i : nat) (s : string) : string :=
  String.substring i (String.length s - i) s.

(** The codec specification parsed out of the movie file name: the
    result is the movie file name proper and the codec specification. *)
Definition parse_codec_spec (targetmoviefilename : string) : M (string * string) :=
  match String.index 0 ":CodecSettings=" targetmoviefilename with
  | Some i =>
      (* The tag is overwritten by the keyword of the default codec. *)
      let codecSpec := "DEFAULTenc    " ++ str_from (i + 15) targetmoviefilename in
      if (String.length codecSpec =? 0)%nat then
        PsychErrorExitMsg "Invalid (empty) :CodecSettings= parameter specified. Aborted."
      else ret (str_before i targetmoviefilename, codecSpec)
  | None =>
      match String.index 0 ":CodecType=" targetmoviefilename with
      | Some i =>
          let codecSpec := str_from (i + 11) targetmoviefilename in
          if (String.length codecSpec =? 0)%nat then
            PsychErrorExitMsg "Invalid (empty) :CodecType= parameter specified. Aborted."
          else ret (str_before i targetmoviefilename, codecSpec)
      | None => ret (targetmoviefilename, "DEFAULTenc")
      end
  end.

(** [PsychDCOpenVideoCaptureDevice].  The result is the value stored in
    [*capturehandle]; the function itself returns [TRUE]. *)
Definition PsychDCOpenVideoCaptureDevice (slotid deviceIndex : Z)
    (capturerectangle : option PsychRectType) (reqdepth num_dmabuffers : Z)
    (targetmoviefilename : option string) (recordingflags bitdepth : Z) : M Z :=
  (* Perform first-time init, if needed: *)
  PsychDCLibInit ;;
  (* Initialize new record: *)
  assign (set_valid 1) ;;
  _ <- PsychGetVidcapRecord slotid ;;
  (* Clear out the record to have a nice clean start: *)
  assign (fun _ => zeroed_record) ;;
  assign (set_valid 1) ;;
  assign (set_camera None) ;;
  assign (set_grabber_active 0) ;;
  assign (set_convframe None) ;;
  assign (set_debayer_method DC1394.BAYER_METHOD_NEAREST) ;;
  assign (set_capturehandle slotid) ;;
  (* Name of target movie file for video and audio recording specified? *)
  recordingflags <-
    match targetmoviefilename with
    | Some name =>
        parsed <- parse_codec_spec name ;;
        assign (set_codecSpec (Some (snd parsed))) ;;
        (* Audio recording is so far unsupported, so clear the "with audio" flag: *)
        let recordingflags := Z.land recordingflags (C.uint32 (Z.lnot 2)) in
        assign (set_targetmoviefilename (Some (fst parsed))) ;;
        assign (set_recording_active true) ;;
        ret recordingflags
    | None =>
        assign (set_recording_active false) ;;
        ret recordingflags
    end ;;
  (* Assign recordingflags: *)
  assign (set_recordingflags recordingflags) ;;
  (* Query a list of all available (connected) Firewire cameras: *)
  ok <- dc camera_enumerate ;;
  (if negb ok then
     assign (set_valid 0) ;;
     printf "Unable to enumerate firewire cameras" ;;
     PsychErrorExitMsg "Unable to detect Firewire cameras: Read 'help VideoCaptureDC1394' for troubleshooting tips."
   else ret tt) ;;
  let numCameras := cameras_num env in
  (if numCameras <? 1 then
     assign (set_valid 0) ;;
     PsychErrorExitMsg "Unable to find any Firewire camera: Please make sure that there are actually any connected."
   else ret tt) ;;
  (* Specific cam requested? *)
  deviceIndex <-
    (if deviceIndex =? -1 then
       assign (set_camera (camera_new_unit env 0)) ;;
       ret 0
     else if deviceIndex >=? numCameras then
       assign (set_valid 0) ;;
       PsychErrorExitMsg "You wanted me to open a camera with a deviceIndex beyond the number of available cameras!"
     else if deviceIndex <? 0 then
       undefined "cameras->ids[deviceIndex] with a negative index"
     else
       assign (set_camera (camera_new_unit env deviceIndex)) ;;
       ret deviceIndex) ;;
  (* Error abort if camera init failed: *)
  cd <- get_capdev ;;
  (match camera cd with
   | None =>
       assign (set_valid 0) ;;
       PsychErrorExitMsg "PTB-ERROR: Opening the Firewire camera failed! Failed to initialize camera."
   | Some _ => ret tt
   end) ;;
  (* ROI rectangle specified? *)
  assign (set_roirect match capturerectangle with
                      | Some r => r
                      | None => PsychMakeRect 0 0 1 1
                      end) ;;
  (* Increase counter of open capture devices: *)
  put_world (fun w => with_numCaptureRecords (numCaptureRecords w + 1) w) ;;
  assign (set_fps (S754_zero false)) ;;
  assign (set_width 0) ;;
  assign (set_height 0) ;;
  (* Requested output texture pixel depth in layers: *)
  assign (set_reqlayers reqdepth) ;;
  (* Assign requested bpc bitdepth, thresholded to 8 or 16: *)
  assign (set_bitdepth (if bitdepth <=? 8 then 8 else 16)) ;;
  (* Number of DMA ringbuffers to use in DMA capture mode: *)
  assign (set_num_dmabuffers (if num_dmabuffers >? 0 then num_dmabuffers else 8)) ;;
  (* Reset framecounter: *)
  assign (set_framecounter 0) ;;
  assign (set_nrframes 0) ;;
  assign (set_grabber_active 0) ;;
  (* Initiate a power-up cycle in case the camera is in standby mode: *)
  ok <- dc (camera_set_power true) ;;
  when (negb ok) (printf "PTB-WARNING: Tried to power up camera, but powerup-cycle failed for some reason!") ;;
  (* Initiate a reset-cycle on the camera to bring it into a clean state: *)
  ok <- dc camera_reset ;;
  when (negb ok) (printf "PTB-WARNING: Tried to reset camera, but reset cycle failed for some reason!") ;;
  ret slotid.

(** ** Setting the synchronization mode *)

(** [PsychDCVideoCaptureSetParameter] for [pname] equal to ["SyncMode"].
    None of the tests on [pname] that precede the SyncMode case matches
    this name.  [intval = (int) (value + 0.5)] is stored in an
    [unsigned int]; it is only used when [value != DBL_MAX]. *)
Definition PsychDCVideoCaptureSetParameter_SyncMode (capturehandle : Z)
    (value : Flt.double) : M Flt.double :=
  if capturehandle =? -1 then ret Flt.DBL_MAX
  else
    cd <- PsychGetVidcapRecord capturehandle ;;
    let oldvalue := Flt.double_of_int (syncmode cd) in
    if Flt.ne value Flt.DBL_MAX then
      match Flt.int_of (Flt.dadd value Flt.d0_5) with
      | None => undefined "conversion of value + 0.5 to int"
      | Some n =>
          let intval := C.uint32 n in
          let master := C.has_flag intval kPsychIsSyncMaster in
          let slave := C.has_flag intval kPsychIsSyncSlave in
          if negb (intval =? 0) then
            if master && slave then
              PsychErrorExitMsg "Invalid syncmode provided: Camera can't be master and slave at the same time!"
            else if negb master && negb slave then
              PsychErrorExitMsg "Invalid syncmode provided: Camera must be either master or slave. Can't be none of both!"
            else
              let oldintval :=
                Z.land intval (Z.lor (Z.lor kPsychIsSoftSynced kPsychIsBusSynced) kPsychIsHwSynced) in
              if (master && (oldintval =? 0))
                 || (slave && negb (oldintval =? kPsychIsSoftSynced)
                           && negb (oldintval =? kPsychIsBusSynced)
                           && negb (oldintval =? kPsychIsHwSynced)) then
                PsychErrorExitMsg "Invalid syncmode provided: Missing sync strategy, either soft-, or bus-, or hw-synced!"
              else if C.has_flag intval kPsychIsHwSynced && slave
                      && negb (trigger_present env) then
                (* Camera is not hw sync capable: do not change the SyncMode. *)
                ret oldvalue
              else
                assign (set_syncmode (C.int32 intval)) ;;
                ret oldvalue
          else
            assign (set_syncmode (C.int32 intval)) ;;
            ret oldvalue
      end
    else ret oldvalue.

(** ** Pushing a frame into the movie *)

(** The loop [for (i = 0; i < count; i++) *(out++) = *(in++) << (16 - bitdepth)]
    over 16 bit words. *)
Definition shift_words (bitdepth : Z) (count : Z) (input : list Z) : list Z :=
  map (fun word => C.uint16 (Z.shiftl word (16 - bitdepth)))
      (firstn (Z.to_nat count) input).

(** [memcpy] of [count] bytes, seen as samples of [bytes_per_sample] bytes. *)
Definition memcpy_samples (bytes_per_sample : Z) (count : Z) (input : list Z) : list Z :=
  firstn (Z.to_nat (count / bytes_per_sample)) input.

(** The copy of [count] bytes of samples into an output buffer, shared by
    the movie path and the raw data path: shifted when the true bit depth
    is in the 9 to 15 bpc range, copied otherwise. *)
Definition copy_pixels (bitdepth : Z) (count : Z) (input : list Z) : list Z :=
  if (bitdepth >? 8) && (bitdepth <? 16) then
    shift_words bitdepth (count / 2) input
  else
    memcpy_samples (if bitdepth >? 8 then 2 else 1) count input.

(** [PsychDCPushFrameToMovie] *)
Definition PsychDCPushFrameToMovie (input_image : list Z) (onMasterthread : bool)
    : M bool :=
  cd <- get_capdev ;;
  let '(framepixels, (twidth, theight, numChannels, bitdepth_)) := movie_buffer env in
  (* Validate number of color channels and bits per channel values for a match: *)
  if negb (numChannels =? C.uint32 (actuallayers cd))
     || negb (bitdepth_ =? (if bitdepth cd >? 8 then 16 else 8)) then
    printf "PTB-ERROR: Mismatch between number of color channels or bpc of captured video frame and of video recording target buffer!" ;;
    (if onMasterthread then
       PsychErrorExitMsg "Encoding current captured video frame failed. Video format mismatch."
     else
       printf "PTB-ERROR: Encoding current captured video frame on video recorder thread failed. Video format mismatch!") ;;
    ret false
  (* Dimensions match? *)
  else if negb (twidth =? C.uint32 (width cd)) || (theight >? C.uint32 (height cd)) then
    printf "PTB-ERROR: Mismatch between size of captured video frame and size of video recording target buffer!" ;;
    (if onMasterthread then
       PsychErrorExitMsg "Encoding current captured video frame failed. Video frame size mismatch."
     else
       printf "PTB-ERROR: Encoding current captured video frame failed. Video frame size mismatch!") ;;
    ret false
  (* Target buffer available? *)
  else if framepixels then
    (* Copy the pixels: *)
    let count :=
      C.uint32 (twidth * theight * (if actuallayers cd =? 3 then 3 else 1)
                * (if bitdepth cd >? 8 then 2 else 1)) in
    let pixels := copy_pixels (bitdepth cd) count input_image in
    (* Add to GStreamer encoding pipeline: *)
    if negb (movie_add_frame env =? 0) then
      (if onMasterthread then
         PsychErrorExitMsg "Encoding current captured video frame failed. Failed to add frame to pipeline."
       else
         printf "PTB-ERROR: Encoding current captured video frame failed. Failed to add frame to pipeline!") ;;
      ret false
    else
      put_world (fun w => with_movie (movie w ++ [pixels]) w) ;;
      ret true
  else
    (if onMasterthread then
       PsychErrorExitMsg "Encoding current captured video frame failed. No videobuffer available."
     else
       printf "PTB-ERROR: Encoding current captured video frame failed. No videobuffer available!") ;;
    ret false.

(** ** Converting a dequeued frame *)

Definition is_raw_or_mono (c : option DC1394.color_coding_t) : bool :=
  match c with
  | Some DC1394.COLOR_CODING_RAW8 | Some DC1394.COLOR_CODING_MONO8
  | Some DC1394.COLOR_CODING_RAW16 | Some DC1394.COLOR_CODING_MONO16 => true
  | _ => false
  end.

(** [PsychDCPreprocessFrame]: the image to work on, [None] for [NULL]. *)
Definition PsychDCPreprocessFrame : M (option (list Z)) :=
  cd <- get_capdev ;;
  match frame cd with
  | None => undefined "capdev->frame is NULL"
  | Some fr =>
      match convframe cd with
      | Some cf =>
          if is_raw_or_mono (colormode cd) then
            (* Unknown Bayer pattern: take the one set as override. *)
            let fr' :=
              if (color_filter fr <? DC1394.COLOR_FILTER_MIN)
                 || (color_filter fr >? DC1394.COLOR_FILTER_MAX) then
                mkFrame (image fr) (color_filter_override cd) (color_coding fr)
                        (frames_behind fr) (timestamp fr)
              else fr in
            assign (set_frame (Some fr')) ;;
            ok <- dc debayer_frames ;;
            if negb ok then
              printf "PTB-WARNING: Debayering of raw sensor image data failed!" ;;
              printf "PTB-ERROR: Bayer filtering of video frame failed." ;;
              ret None
            else
              let out := debayer env (image fr') (color_filter fr') (debayer_method cd) in
              assign (set_convframe
                        (Some (mkFrame out (color_filter cf) (color_coding cf)
                                       (frames_behind cf) (timestamp cf)))) ;;
              ret (Some out)
          else
            (* Input data is in YUV format. Convert into RGB8: *)
            assign (set_convframe
                      (Some (mkFrame (image cf) (color_filter cf)
                                     (Some DC1394.COLOR_CODING_RGB8)
                                     (frames_behind cf) (timestamp cf)))) ;;
            ok <- dc convert_frames ;;
            if negb ok then
              printf "PTB-ERROR: Colorspace conversion of video frame failed." ;;
              ret None
            else
              let out := convert env (image fr) in
              assign (set_convframe
                        (Some (mkFrame out (color_filter cf)
                                       (Some DC1394.COLOR_CODING_RGB8)
                                       (frames_behind cf) (timestamp cf)))) ;;
              ret (Some out)
      | None => ret (Some (image fr))
      end
  end.

(** ** Mode selection *)

Definition coding_eqb := DC1394.color_coding_t_beq.

Definition raw_coding (bitdepth : Z) : DC1394.color_coding_t :=
  if bitdepth <=? 8 then DC1394.COLOR_CODING_RAW8 else DC1394.COLOR_CODING_RAW16.

Definition mono_coding (bitdepth : Z) : DC1394.color_coding_t :=
  if bitdepth <=? 8 then DC1394.COLOR_CODING_MONO8 else DC1394.COLOR_CODING_MONO16.

(** The pixel format test both mode finders apply to the colour coding of
    a candidate mode; [true] is the [continue] of the source. *)
Definition coding_rejected (cd : PsychVidcapRecordType)
    (color_code : DC1394.color_coding_t) : bool :=
  let dcm := dataconversionmode cd in
  let bpc_mismatch :=
    negb (DC1394.color_coding_data_depth color_code
          =? (if bitdepth cd <=? 8 then 8 else 16)) in
  if reqlayers cd >? 0 then
    (* Luminance only format? *)
    ((reqlayers cd <? 3)
     && (((dcm =? 1) && negb (coding_eqb color_code (raw_coding (bitdepth cd))))
         || ((dcm =? 2) && negb (coding_eqb color_code (raw_coding (bitdepth cd))))
         || ((dcm =? 3) && negb (coding_eqb color_code (mono_coding (bitdepth cd))))
         || ((dcm =? 4) && negb (coding_eqb color_code (mono_coding (bitdepth cd))))
         || ((bitdepth cd <=? 8)
             && negb (coding_eqb color_code DC1394.COLOR_CODING_RAW8)
             && negb (coding_eqb color_code DC1394.COLOR_CODING_MONO8))
         || ((bitdepth cd >? 8)
             && negb (coding_eqb color_code DC1394.COLOR_CODING_RAW16)
             && negb (coding_eqb color_code DC1394.COLOR_CODING_MONO16))))
    (* RGB true color format? *)
    || ((reqlayers cd >? 2)
        && (((dcm =? 2) && negb (coding_eqb color_code (raw_coding (bitdepth cd))))
            || ((dcm =? 4) && negb (coding_eqb color_code (mono_coding (bitdepth cd))))
            || (negb (DC1394.is_color color_code) && negb (dcm =? 2) && negb (dcm =? 4))
            || bpc_mismatch))
    || ((reqlayers cd =? 5)
        && negb (coding_eqb color_code DC1394.COLOR_CODING_YUV422)
        && negb (coding_eqb color_code DC1394.COLOR_CODING_YUV411))
  else
    (* No specific pixelsize requested: anything of 8/16 bpc depth. *)
    bpc_mismatch.

(** The probe of a framerate table:
    [for (j = 0; j < num; j++) { dc1394_framerate = framerates[j];
       if (framerate >= capturerate) break; }].
    [current] is the value [dc1394_framerate] holds before the loop. *)
Fixpoint probe_framerates (rates : list DC1394.framerate_t)
    (current : DC1394.framerate_t) (capturerate : Flt.double) : DC1394.framerate_t :=
  match rates with
  | [] => current
  | r :: rest =>
      if Flt.ge (Flt.double_of_float (DC1394.framerate_as_float r)) capturerate
      then r
      else probe_framerates rest r capturerate
  end.

(** The number of layers a colour coding delivers, with the special case
    of Bayer filtered raw data for conversion modes 2 and 4. *)
Definition layers_delivered (cd : PsychVidcapRecordType)
    (color_code : DC1394.color_coding_t) : Z :=
  let native :=
    if is_raw_or_mono (Some color_code) then 1 else 3 in
  if (native =? 1) && (reqlayers cd >=? 3)
     && ((dataconversionmode cd =? 2) || (dataconversionmode cd =? 4))
  then 3 else native.

(** The warnings of the mode finders. *)
Definition layers_warning : string :=
  "PTB-WARNING: Wanted a different depth of layers for captured images than the capture device delivers! Adapted to capture device native format for performance reasons.".

Definition framerate_warning : string :=
  "PTB-WARNING: Camera does not support requested capture framerate. Using maximum instead.".

(** The value of a framerate code as the finders compare it with the
    requested rate, and the test [framerate >= capturerate]. *)
Definition rate_value (r : DC1394.framerate_t) : Flt.double :=
  Flt.double_of_float (DC1394.framerate_as_float r).

Definition meets (r : DC1394.framerate_t) (capturerate : Flt.double) : bool :=
  Flt.ge (rate_value r) capturerate.

(** The order of the framerate codes by their value. *)
Definition rate_le (a b : DC1394.framerate_t) : Prop :=
  Flt.le (DC1394.framerate_as_float a) (DC1394.framerate_as_float b) = true.

(** Matching [reqlayers] against [actuallayers], as both finders do. *)
Definition match_reqlayers : M unit :=
  cd <- get_capdev ;;
  let warn :=
    when (negb (actuallayers cd =? reqlayers cd) && (verbosity env >? 1))
         (printf "PTB-WARNING: Wanted a different depth of layers for captured images than the capture device delivers! Adapted to capture device native format for performance reasons.") in
  if reqlayers cd =? 0 then
    assign (set_reqlayers (actuallayers cd))
  else if (reqlayers cd =? 1) || (reqlayers cd =? 2) then
    warn ;; assign (set_reqlayers (actuallayers cd))
  else if (reqlayers cd =? 3) || (reqlayers cd =? 4) then
    warn ;; assign (set_reqlayers (actuallayers cd))
  else if reqlayers cd =? 5 then
    assign (set_reqlayers 3)
  else
    assign (set_reqlayers 0) ;;
    PsychErrorExitMsg "You requested a invalid capture image format (more than 4 layers). Aborted.".

(** The state of the loop over the video modes in
    [PsychVideoFindNonFormat7Mode]. *)
Record nf7_state : Type := mkNf7 {
  maximgarea : Z;
  maximgmode : DC1394.video_mode_t;
  nf7_framerate : DC1394.framerate_t;   (* the variable [dc1394_framerate] *)
  mode_found : bool
}.

(** One turn of the loop over the video modes. *)
Definition nf7_probe_mode (cd : PsychVidcapRecordType) (capturerate : Flt.double)
    (st : nf7_state) (mode : DC1394.video_mode_t) : option nf7_state :=
  let w := C.int32 (PsychGetWidthFromRect (roirect cd)) in
  let h := C.int32 (PsychGetHeightFromRect (roirect cd)) in
  (* We first check non-format 7 types: Skip format-7 types... *)
  if mode >=? DC1394.VIDEO_MODE_FORMAT7_MIN then Some st
  else
    let color_code := color_coding_of_mode env mode in
    if coding_rejected cd color_code then Some st
    else
      let '(mw, mh) := image_size_of_mode env mode in
      if (kPsychLeft (roirect cd) =? 0) && (kPsychTop (roirect cd) =? 0)
         && (w =? 1) && (h =? 1) then
        (* No ROI. Just find biggest one: *)
        if C.uint32 (mw * mh) <? C.uint32 (maximgarea st) then Some st
        else Some (mkNf7 (C.int32 (mw * mh)) mode (nf7_framerate st) true)
      else
        (* Check for exact match, reject everything else: *)
        if negb (kPsychLeft (roirect cd) =? 0) || negb (kPsychTop (roirect cd) =? 0)
           || negb (w =? C.int32 mw) || negb (h =? C.int32 mh) then Some st
        else
          let rate :=
            probe_framerates (supported_framerates env mode) (nf7_framerate st)
                             capturerate in
          let framerate := DC1394.framerate_as_float rate in
          let nonyuvbonus :=
            ((reqlayers cd =? 0) || (reqlayers cd >? 2))
            && (dataconversionmode cd =? 0)
            && coding_eqb color_code DC1394.COLOR_CODING_RGB8 in
          if Flt.gt framerate (Flt.float_of_int (maximgarea st))
             || (Flt.eq (Flt.double_of_float framerate) capturerate && nonyuvbonus)
             || (Flt.eq framerate (Flt.float_of_int (maximgarea st)) && nonyuvbonus)
          then
            match Flt.int_of framerate with
            | Some n => Some (mkNf7 n mode rate true)
            | None => None
            end
          else Some (mkNf7 (maximgarea st) (maximgmode st) rate (mode_found st)).

Fixpoint nf7_probe_modes (cd : PsychVidcapRecordType) (capturerate : Flt.double)
    (st : nf7_state) (modes : list DC1394.video_mode_t) : option nf7_state :=
  match modes with
  | [] => Some st
  | mode :: rest =>
      match nf7_probe_mode cd capturerate st mode with
      | Some st' => nf7_probe_modes cd capturerate st' rest
      | None => None
      end
  end.

(** [PsychVideoFindNonFormat7Mode]: find the best matching non-Format-7
    mode.  The function returns [true]. *)
Definition PsychVideoFindNonFormat7Mode (capturerate : Flt.double) : M bool :=
  cd <- get_capdev ;;
  match nf7_probe_modes cd capturerate
          (mkNf7 0 DC1394.VIDEO_MODE_MIN DC1394.FRAMERATE_15 false)
          (video_modes env) with
  | None => undefined "conversion of a framerate to int"
  | Some st =>
      (* Sanity check: Any valid mode found? *)
      (if negb (mode_found st) then
         PsychErrorExitMsg "Couldn't find any capture mode settings for your camera which satisfy your minimum requirements! Aborted."
       else ret tt) ;;
      (* maximgmode contains the best matching non-format-7 mode: *)
      let mode := maximgmode st in
      assign (set_dc_imageformat mode) ;;
      (* Query final color format and therefore pixel-depth: *)
      let color_code := color_coding_of_mode env mode in
      assign (set_actuallayers (layers_delivered cd color_code)) ;;
      (* Match this against requested actuallayers: *)
      match_reqlayers ;;
      (* Query final image size and therefore ROI: *)
      let '(mw, mh) := image_size_of_mode env mode in
      assign (set_roirect (PsychMakeRect 0 0 mw mh)) ;;
      (* Recheck capture framerate: the slowest framerate equal or faster
         than the requested framerate: *)
      let rate :=
        probe_framerates (supported_framerates env mode) (nf7_framerate st)
                         capturerate in
      let framerate := Flt.double_of_float (DC1394.framerate_as_float rate) in
      (* Ok, we've got the closest match we could get. Good enough? *)
      (if Flt.lt (Flt.fabs (Flt.dsub framerate capturerate)) Flt.d0_5
          || Flt.eq capturerate Flt.DBL_MAX then
         ret tt
       else
         when (Flt.lt framerate capturerate)
              (printf "PTB-WARNING: Camera does not support requested capture framerate. Using maximum instead.")) ;;
      (* Return framerate: *)
      assign (set_dc_framerate (Some rate)) ;;
      ret true
  end.

(** The bus period for an iso speed code. *)
Definition bus_period_of (speed : DC1394.speed_t) : Flt.float :=
  match speed with
  | DC1394.ISO_SPEED_100 => Flt.float_literal 500 6
  | DC1394.ISO_SPEED_200 => Flt.float_literal 250 6
  | DC1394.ISO_SPEED_400 => Flt.float_literal 125 6
  | DC1394.ISO_SPEED_800 => Flt.float_literal 625 7
  | DC1394.ISO_SPEED_1600 => Flt.float_literal 3125 8
  | DC1394.ISO_SPEED_3200 => Flt.float_literal 15625 9
  end.

(** The speed the engine works with: a Unibrain Fire-i is forced to 400. *)
Definition effective_speed : option DC1394.speed_t :=
  if strstr (vendor env) "Unibrain" && strstr (model env) "Fire-i"
  then Some DC1394.ISO_SPEED_400
  else iso_speed env.

(** The number of ISO packets per frame for the wanted framerate:
    [(int) (1.0 / (bus_period * capturerate) + 0.5)], forced into
    [1 .. 4095] and multiplied by 8.  [None]: the conversion to [int] is
    not defined. *)
Definition f7_num_packets (bus_period : Flt.float) (capturerate : Flt.double)
    : option Z :=
  match Flt.int_of
          (Flt.dadd (Flt.ddiv Flt.d1_0
                       (Flt.dmul (Flt.double_of_float bus_period) capturerate))
                    Flt.d0_5) with
  | None => None
  | Some num_packets =>
      let num_packets :=
        if (num_packets <? 1) || (num_packets >? 4095) then
          if num_packets <? 1 then 1 else 4095
        else num_packets in
      Some (C.int32 (num_packets * 8))
  end.

(** The ISO packet size for an image of [w] x [h] pixels of [depth] bits,
    sent in [num_packets] packets, made a multiple of [pbmin] not above
    [pbmax].  [None]: an overflow of the [int] product [w * h], a division
    by zero, or the loop does not end. *)
Definition f7_packet_size (w h depth num_packets pbmin pbmax : Z) : option Z :=
  if negb (in_int_range (w * h)) || (C.uint32 num_packets =? 0) then None
  else
    let packet_size :=
      C.int32 (C.uint32 (w * h * depth + num_packets - 1) / C.uint32 num_packets) in
    (* Make sure that packet_size is an integral multiple of pbmin: *)
    let packet_size :=
      if packet_size <? C.int32 pbmin then C.int32 pbmin else packet_size in
    if pbmin =? 0 then None
    else
      let packet_size :=
        if negb (C.uint32 packet_size mod pbmin =? 0) then
          C.int32 (C.uint32 (packet_size - C.uint32 packet_size mod pbmin))
        else packet_size in
      (* Make sure that packet size is smaller than pbmax: *)
      while (fun packet_size => packet_size >? C.int32 pbmax)
            (fun packet_size => C.int32 (C.uint32 (packet_size - pbmin)))
            packet_size.

(** The number of packets a frame takes at a packet size. *)
Definition f7_packets_per_frame (w h depth packet_size : Z) : option Z :=
  let d := C.uint32 (packet_size * 8) in
  if negb (in_int_range (packet_size * 8)) || (d =? 0) then None
  else Some (C.int32 (C.uint32 (w * h * depth + d - 1) / d)).

(** The framerate for a number of packets per frame:
    [1.0 / (bus_period * (float) num_packets)], stored in a [float]. *)
Definition f7_framerate (bus_period : Flt.float) (num_packets : Z) : Flt.float :=
  Flt.float_of_double
    (Flt.ddiv Flt.d1_0
       (Flt.double_of_float (Flt.fmul bus_period (Flt.float_of_int num_packets)))).

(** The state of the loop over the video modes in
    [PsychVideoFindFormat7Mode].  [minimgsize] is the image size the
    camera holds for [minimgmode] after the probe of that mode. *)
Record f7_state : Type := mkF7 {
  mindiff : Flt.float;
  mindifframerate : Flt.float;
  minpacket_size : Z;
  minimgmode : DC1394.video_mode_t;
  minimgsize : Z * Z;
  numF7Available : Z
}.

Definition f7_skip (st : f7_state) : M f7_state := ret st.

(** One turn of the loop over the video modes. *)
Definition f7_probe_mode (cd : PsychVidcapRecordType) (bus_period : Flt.float)
    (capturerate : Flt.double) (st : f7_state) (mode : DC1394.video_mode_t)
    : M f7_state :=
  (* Skip non-format-7 types... *)
  if (mode <? DC1394.VIDEO_MODE_FORMAT7_MIN) || (mode >? DC1394.VIDEO_MODE_FORMAT7_MAX)
  then f7_skip st
  else
    (* Increment count of available Format-7 modes: *)
    let st := mkF7 (mindiff st) (mindifframerate st) (minpacket_size st)
                   (minimgmode st) (minimgsize st) (numF7Available st + 1) in
    if coding_rejected cd (color_coding_of_mode env mode) then f7_skip st
    else
      let w := C.int32 (PsychGetWidthFromRect (roirect cd)) in
      let h := C.int32 (PsychGetHeightFromRect (roirect cd)) in
      let '(mw, mh) := format7_max_size env mode in
      ok <- dc (format7_get_max_image_size mode) ;;
      if negb ok then f7_skip st
      else
        (* ROI specified? [None] is the [continue] of the source. *)
        size <-
          (if (kPsychLeft (roirect cd) =? 0) && (kPsychTop (roirect cd) =? 0)
              && (w =? 1) && (h =? 1) then
             (* No. Just set biggest one for this mode: *)
             ok <- dc (format7_set_image_position mode 0 0) ;;
             if negb ok then ret None
             else
               ok <- dc (format7_set_image_size mode mw mh) ;;
               if negb ok then ret None
               else ret (Some (C.int32 mw, C.int32 mh))
           else
             (* Yes. The mode must allow a ROI as big as the one requested: *)
             if (w >? C.int32 mw) || (h >? C.int32 mh) then ret None
             else
               ok <- dc (format7_set_image_position mode 0 0) ;;
               if negb ok then ret None
               else
                 ok <- dc (format7_set_image_size mode (C.uint32 w) (C.uint32 h)) ;;
                 if negb ok then ret None
                 else
                   ok <- dc (format7_set_image_position mode
                               (C.uint32 (kPsychLeft (roirect cd)))
                               (C.uint32 (kPsychTop (roirect cd)))) ;;
                   if negb ok then ret None
                   else ret (Some (w, h))) ;;
        match size with
        | None => f7_skip st
        | Some (w, h) =>
            (* First we query the range of available packet sizes: *)
            ok <- dc (format7_get_packet_parameters mode) ;;
            if negb ok then f7_skip st
            else
              let '(pbmin, pbmax) := format7_packet_para env mode in
              (* Special case handling: *)
              let pbmin := if pbmin =? 0 then pbmax else pbmin in
              match f7_num_packets bus_period capturerate with
              | None => undefined "conversion of the number of packets to int"
              | Some num_packets =>
                  ok <- dc (format7_get_data_depth mode) ;;
                  if negb ok then f7_skip st
                  else
                    let depth := format7_depth env mode in
                    match f7_packet_size w h depth num_packets pbmin pbmax with
                    | None => undefined "packet size computation"
                    | Some packet_size =>
                        (* Inverse compute framerate for this packetsize: *)
                        match f7_packets_per_frame w h depth packet_size with
                        | None => undefined "division by a zero packet size"
                        | Some num_packets =>
                            let framerate := f7_framerate bus_period num_packets in
                            let diff :=
                              Flt.fabs (Flt.dsub capturerate
                                          (Flt.double_of_float framerate)) in
                            (* Compare against the closest match so far: *)
                            if Flt.lt diff (Flt.double_of_float (mindiff st)) then
                              ret (mkF7 (Flt.float_of_double diff) framerate
                                        packet_size mode
                                        (C.uint32 w, C.uint32 h)
                                        (numF7Available st))
                            else ret st
                        end
                    end
              end
        end.

Fixpoint f7_probe_modes (cd : PsychVidcapRecordType) (bus_period : Flt.float)
    (capturerate : Flt.double) (st : f7_state)
    (modes : list DC1394.video_mode_t) : M f7_state :=
  match modes with
  | [] => ret st
  | mode :: rest =>
      st' <- f7_probe_mode cd bus_period capturerate st mode ;;
      f7_probe_modes cd bus_period capturerate st' rest
  end.

(** [mindiff = 1000000] before the loop. *)
Definition f7_initial : f7_state :=
  mkF7 (Flt.float_of_int 1000000) (Flt.float_of_int 0) 0 DC1394.VIDEO_MODE_MIN
       (0, 0) 0.

(** [PsychVideoFindFormat7Mode]: find the best matching Format-7 mode.
    Returns the calculated iso packet size, 0 when no mode was found. *)
Definition PsychVideoFindFormat7Mode (capturerate : Flt.double) : M Z :=
  (* Query IEEE1394 bus speed code and map it to bus_period: *)
  ok <- dc video_get_iso_speed ;;
  (if negb ok then
     PsychErrorExitMsg "Unable to query bus-speed - Start of video capture failed!"
   else ret tt) ;;
  match effective_speed with
  | None => PsychErrorExitMsg "Unknown bus speed specification! Start of video capture failed!"
  | Some speed =>
      let bus_period := bus_period_of speed in
      cd <- get_capdev ;;
      st <- f7_probe_modes cd bus_period capturerate f7_initial (video_modes env) ;;
      (* Sanity check: Any valid mode found? *)
      if (minimgmode st =? DC1394.VIDEO_MODE_MIN) || (numF7Available st =? 0) then
        ret 0
      else
        (* minimgmode contains the best matching Format-7 mode: *)
        let mode := minimgmode st in
        assign (set_dc_imageformat mode) ;;
        assign (set_dc_framerate (Some DC1394.FRAMERATE_MIN)) ;;
        let packet_size := minpacket_size st in
        let framerate := mindifframerate st in
        (* Query final color format and therefore pixel-depth: *)
        let color_code := color_coding_of_mode env mode in
        assign (set_actuallayers (layers_delivered cd color_code)) ;;
        (* Match this against requested actuallayers: *)
        match_reqlayers ;;
        (* Query final image size and therefore ROI: *)
        let '(mw, mh) := minimgsize st in
        assign (fun cd =>
                  set_roirect (PsychMakeRect (kPsychLeft (roirect cd))
                                 (kPsychTop (roirect cd))
                                 (kPsychLeft (roirect cd) + mw)
                                 (kPsychTop (roirect cd) + mh)) cd) ;;
        (* Ok, we've got the closest match we could get. Good enough? *)
        (if Flt.lt (Flt.double_of_float (mindiff st)) Flt.d0_5
            || Flt.eq capturerate Flt.DBL_MAX then
           ret tt
         else
           when (Flt.lt (Flt.double_of_float framerate) capturerate)
                (printf "PTB-WARNING: Camera does not support requested capture framerate at given ROI setting. Using a different one instead.")) ;;
        (* Assign computed framerate as best guess for real framerate: *)
        assign (set_fps (Flt.double_of_float framerate)) ;;
        (* Return packet_size: *)
        ret packet_size
  end.

(** ** Start and stop of capture *)

(** [PsychDCEnableBusBroadcast]: only the sync master ever sends broadcast
    commands over the bus. *)
Definition PsychDCEnableBusBroadcast (enable : bool) : M unit :=
  cd <- get_capdev ;;
  if C.has_flag (syncmode cd) kPsychIsSyncMaster then
    ok <- dc (camera_set_broadcast enable) ;;
    if negb ok then
      _ <- dc capture_stop ;;
      printf "PTB-ERROR: Could not switch bus broadcast for bus-synced multi-camera capture operation" ;;
      PsychErrorExitMsg "Unable to control bus broadcast for master camera for bus sync - Operation aborted!"
    else ret tt
  else ret tt.

(** Switch the iso transmission of all soft-synced slaves. *)
Fixpoint switch_soft_sync_slaves (slaves : list Z) (on : bool) (msg : string)
    : M unit :=
  match slaves with
  | [] => ret tt
  | i :: rest =>
      ok <- dc (video_set_transmission i on) ;;
      if negb ok then PsychErrorExitMsg msg
      else switch_soft_sync_slaves rest on msg
  end.

(** The test whether a non-Format-7 mode can serve the request:
    the ROI is one of the standard sizes and the rate a standard rate. *)
Definition nonformat7_suffices (cd : PsychVidcapRecordType)
    (capturerate : Flt.double) : bool :=
  let w := C.int32 (PsychGetWidthFromRect (roirect cd)) in
  let h := C.int32 (PsychGetHeightFromRect (roirect cd)) in
  let rate_is (n k : Z) := Flt.eq capturerate (Flt.double_literal n k) in
  ((kPsychLeft (roirect cd) =? 0) && (kPsychTop (roirect cd) =? 0))
  && (((kPsychRight (roirect cd) =? 1) && (kPsychBottom (roirect cd) =? 1))
      || ((w =? 640) && (h =? 480)) || ((w =? 800) && (h =? 600))
      || ((w =? 1024) && (h =? 768)) || ((w =? 1280) && (h =? 960))
      || ((w =? 1600) && (h =? 1200)) || ((w =? 320) && (h =? 240))
      || ((w =? 160) && (h =? 120)))
  && (rate_is 1875 3 || rate_is 375 2 || rate_is 75 1 || rate_is 15 0
      || rate_is 30 0 || rate_is 60 0 || rate_is 120 0 || rate_is 240 0).

(** The start branch of [PsychDCVideoCaptureRate]. *)
Definition start_capture (capturehandle : Z) (capturerate : Flt.double)
    (dropframes_ : Z) : M unit :=
  cd <- get_capdev ;;
  (if C.truthy (grabber_active cd) then
     PsychErrorExitMsg "You tried to start video capture, but capture is already started!"
   else ret tt) ;;
  (* Reset statistics: *)
  assign (set_nr_droppedframes 0) ;;
  assign (set_frame_ready 0) ;;
  (* Select best matching mode for requested image size and pixel format: *)
  packetsize <-
    (if C.has_flag (specialFlags cd) 1 || negb (nonformat7_suffices cd capturerate) then
       (* Try to find a good format-7 mode, fall back to NF-7 otherwise: *)
       packetsize <- PsychVideoFindFormat7Mode capturerate ;;
       if packetsize =? 0 then
         _ <- PsychVideoFindNonFormat7Mode capturerate ;;
         ret packetsize
       else ret packetsize
     else
       _ <- PsychVideoFindNonFormat7Mode capturerate ;;
       ret 0) ;;
  (* Setup capture hardware and DMA engine: *)
  ok <- dc video_get_iso_speed ;;
  (if negb ok then
     PsychErrorExitMsg "Unable to query bus-speed - Start of video capture failed!"
   else ret tt) ;;
  let speed := effective_speed in
  (* Assign final mode and framerate: *)
  cd <- get_capdev ;;
  let dc1394_framerate := dc_framerate cd in
  let mode := dc_imageformat cd in
  (* Query final color format of captured data: *)
  let color_code := color_coding_of_mode env mode in
  assign (set_colormode (Some color_code)) ;;
  (* Setup DMA engine: *)
  ok <- dc (video_set_iso_speed speed) ;;
  (if negb ok then
     PsychErrorExitMsg "Unable to setup and start capture engine: Setting ISO speed failed!"
   else ret tt) ;;
  ok <- dc (video_set_mode mode) ;;
  (if negb ok then
     PsychErrorExitMsg "Unable to setup and start capture engine: Setting mode failed!"
   else ret tt) ;;
  ok <- dc (video_set_framerate dc1394_framerate) ;;
  (if negb ok then
     PsychErrorExitMsg "Unable to setup and start capture engine: Setting fixed framerate failed!"
   else ret tt) ;;
  (* Format-7 capture? *)
  (if packetsize >? 0 then
     ok <- dc (format7_set_roi mode (Some color_code) packetsize
                 (C.uint32 (kPsychLeft (roirect cd)))
                 (C.uint32 (kPsychTop (roirect cd)))
                 (C.uint32 (PsychGetWidthFromRect (roirect cd)))
                 (C.uint32 (PsychGetHeightFromRect (roirect cd)))) ;;
     if negb ok then
       PsychErrorExitMsg "Unable to setup and start capture engine: Setting Format7 ROI failed!"
     else ret tt
   else ret tt) ;;
  (* Framedropping is implemented by the engine itself: *)
  assign (set_dropframes (if dropframes_ >? 0 then 1 else 0)) ;;
  (* Setup and start DMA video capture engine: *)
  ok <- dc (capture_setup (num_dmabuffers cd)) ;;
  (if negb ok then
     PsychErrorExitMsg "Unable to setup and start DMA capture engine - Start of video capture failed!"
   else ret tt) ;;
  put_world (with_ring []) ;;
  (* Firewire bus-sync via bus-wide broadcast of iso-on command requested? *)
  (if C.has_flag (syncmode cd) kPsychIsBusSynced then
     PsychDCEnableBusBroadcast true
   else ret tt) ;;
  (* Only send the start command if this isn't a slave cam, or if it is
     hardware-synced via external trigger cable: *)
  (if negb (C.has_flag (syncmode cd) kPsychIsSyncSlave)
      || C.has_flag (syncmode cd) kPsychIsHwSynced then
     (if C.has_flag (syncmode cd) kPsychIsHwSynced then
        (* Disable use of external trigger signals to start with: *)
        ok <- dc (external_trigger_set_power false) ;;
        (if negb ok then
           _ <- dc capture_stop ;;
           PsychErrorExitMsg "Unable to disable trigger reception on camera - Phase I - Start of video capture failed!"
         else ret tt) ;;
        (* If this is a slave, enable use of external trigger signals now: *)
        if C.has_flag (syncmode cd) kPsychIsSyncSlave then
          ok <- dc (external_trigger_set_power true) ;;
          if negb ok then
            _ <- dc capture_stop ;;
            PsychErrorExitMsg "Unable to enable trigger reception on slave camera - Phase II - Start of video capture failed!"
          else ret tt
        else ret tt
      else ret tt) ;;
     ok <- dc (video_set_transmission capturehandle true) ;;
     (if negb ok then
        _ <- dc capture_stop ;;
        PsychErrorExitMsg "Unable to start isochronous data transfer from camera - Start of video capture failed!"
      else ret tt) ;;
     (* Soft-synced master: quickly start all soft-synced slaves: *)
     if C.has_flag (syncmode cd) kPsychIsSoftSynced
        && C.has_flag (syncmode cd) kPsychIsSyncMaster then
       switch_soft_sync_slaves (soft_sync_slaves env) true
         "Unable to start isochronous data transfer of soft-synced slave camera - Start of sync video capture failed!"
     else ret tt
   else ret tt) ;;
  (* Capture started: the master stops broadcasting its commands: *)
  (if C.has_flag (syncmode cd) kPsychIsBusSynced then
     PsychDCEnableBusBroadcast false
   else ret tt) ;;
  (* Map framerate enum to floating point value and assign it: *)
  framerate <-
    (if packetsize =? 0 then
       match dc1394_framerate with
       | Some r => ret (DC1394.framerate_as_float r)
       | None => undefined "framerate code of a zeroed record"
       end
     else
       (* The frame interval reported by the camera is not used. *)
       cd <- get_capdev ;;
       ret (Flt.float_of_double (fps cd))) ;;
  assign (set_fps (Flt.double_of_float framerate)) ;;
  (* Setup size and position: *)
  cd <- get_capdev ;;
  assign (set_width (C.int32 (PsychGetWidthFromRect (roirect cd)))) ;;
  assign (set_height (C.int32 (PsychGetHeightFromRect (roirect cd)))) ;;
  (* Ok, capture is now started: *)
  assign (set_grabber_active 1) ;;
  (* Query effective bpc value of video mode: *)
  ok <- dc video_get_data_depth ;;
  (if negb ok then
     printf "PTB-WARNING: Could not query data depth of video mode for camera - Assuming i got the requested bpc and hoping for the best."
   else
     assign (set_bitdepth (data_depth env))) ;;
  (* Allocate conversion buffer if needed for YUV->RGB or Bayer->RGB conversions. *)
  cd <- get_capdev ;;
  (if (actuallayers cd =? 3)
      && negb (coding_eqb color_code DC1394.COLOR_CODING_RGB8)
      && negb (coding_eqb color_code DC1394.COLOR_CODING_RGB16) then
     assign (set_convframe (Some (mkFrame [] 0 None 0 0)))
   else ret tt) ;;
  (* Do we also want to record video to a file? *)
  if recording_active cd then
    (* Yes. Setup movie writing: *)
    assign (set_moviehandle (movie_create env)) ;;
    (if movie_create env =? -1 then
       PsychErrorExitMsg "Setup of video recording failed."
     else ret tt) ;;
    put_world (with_movie []) ;;
    (* Async background recording requested? *)
    if C.has_flag (recordingflags cd) 16 then
      assign (set_frameAvail 0) ;;
      (* Create and startup thread: *)
      (if negb (create_thread_rc env =? 0) then
         printf "PTB-ERROR: In Screen('StartVideoCapture'): Could not create background video recording thread." ;;
         PsychErrorExitMsg "Thread creation for video recording failed!"
       else
         assign (set_recorderThread (Some (mkThread None)))) ;;
      (* Boost priority of recorderThread by 1 level and switch it to RT scheduling: *)
      assign (set_recorderThread (Some (mkThread (Some (2, 1)))))
    else ret tt
  else ret tt.

(** The stop branch of [PsychDCVideoCaptureRate]; the result is the
    variable [dropped]. *)
Definition stop_capture (capturehandle : Z) : M Z :=
  cd <- get_capdev ;;
  if C.truthy (grabber_active cd) then
    (* Bus-sync: the master broadcasts its stop command to all clients: *)
    (if C.has_flag (syncmode cd) kPsychIsBusSynced then
       PsychDCEnableBusBroadcast true
     else ret tt) ;;
    (if negb (C.has_flag (syncmode cd) kPsychIsSyncSlave)
        || C.has_flag (syncmode cd) kPsychIsHwSynced then
       (* Stop isochronous data transfer: *)
       ok <- dc (video_set_transmission capturehandle false) ;;
       (if negb ok then
          _ <- dc capture_stop ;;
          PsychErrorExitMsg "Unable to stop isochronous data transfer from camera - Stop of video capture failed!"
        else ret tt) ;;
       (* Soft-synced master: quickly stop all soft-synced slaves: *)
       (if C.has_flag (syncmode cd) kPsychIsSoftSynced
           && C.has_flag (syncmode cd) kPsychIsSyncMaster then
          switch_soft_sync_slaves (soft_sync_slaves env) false
            "Unable to stop isochronous data transfer of soft-synced slave camera - Stop of sync video capture failed!"
        else ret tt) ;;
       if C.has_flag (syncmode cd) kPsychIsHwSynced then
         (* Disable use of external trigger signals: *)
         _ <- dc (external_trigger_set_power false) ;; ret tt
       else ret tt
     else ret tt) ;;
    (if C.has_flag (syncmode cd) kPsychIsBusSynced then
       PsychDCEnableBusBroadcast false
     else ret tt) ;;
    (* Stop capture engine of current cam: *)
    _ <- dc capture_stop ;;
    put_world (with_ring []) ;;
    (* Ok, capture is now stopped. *)
    assign (set_grabber_active 0) ;;
    (* Video recording active? Then we should stop it now: *)
    (if recording_active cd && (moviehandle cd >? -1) then
       (* Was async background recording active? *)
       (if C.has_flag (recordingflags cd) 16 then
          (* Wait for thread termination, cleanup and release the thread: *)
          assign (set_recorderThread None) ;;
          assign (set_frameAvail 0)
        else ret tt) ;;
       (* Flush and close video encoding pipeline, finalize and close movie file: *)
       (if movie_finalize env =? 0 then
          assign (set_moviehandle (-1)) ;;
          PsychErrorExitMsg "Stop of video recording failed."
        else ret tt) ;;
       (* Done with recording: *)
       assign (set_moviehandle (-1))
     else ret tt) ;;
    (* Release the convframe used for Debayering, if any: *)
    cd <- get_capdev ;;
    (match convframe cd with
     | Some _ => assign (set_convframe None)
     | None => ret tt
     end) ;;
    (* Release current frame buffer, if any remaining: *)
    assign (set_current_frame None) ;;
    (* No frame ready anymore: *)
    assign (set_frame_ready 0) ;;
    (* The count of dropped frames is only read for the statistics output: *)
    if verbosity env >? 2 then ret (nr_droppedframes cd) else ret 0
  else ret 0.

(** [PsychDCVideoCaptureRate]: start and stop video capture.  Waiting for
    the start deadline and taking the start time are not part of the
    embedding. *)
Definition PsychDCVideoCaptureRate (capturehandle : Z) (capturerate : Flt.double)
    (dropframes_ : Z) : M Z :=
  (* Retrieve device record for handle: *)
  _ <- PsychGetVidcapRecord capturehandle ;;
  (* Start- or stop capture? *)
  dropped <-
    (if Flt.gt capturerate (Flt.double_of_int 0) then
       start_capture capturehandle capturerate dropframes_ ;; ret 0
     else stop_capture capturehandle) ;;
  (* Reset framecounters and statistics: *)
  assign (set_nrframes 0) ;;
  assign (set_nrgfxframes 0) ;;
  (* Return either the real capture framerate or count of dropped frames. *)
  if Flt.ne capturerate (Flt.double_of_int 0) then
    cd <- get_capdev ;;
    match Flt.int_of (Flt.dadd (fps cd) Flt.d0_5) with
    | Some n => ret n
    | None => undefined "conversion of the framerate to int"
    end
  else ret dropped.

(** ** The DMA ring *)

(** [dc1394_capture_dequeue]: on success the oldest frame of the ring is
    stored in [capdev->frame], with [frames_behind] the number of frames
    still queued behind it; with an empty ring a poll stores [NULL] and a
    blocking wait sleeps until the camera delivers.  The result tells
    whether the call returned [DC1394_SUCCESS]. *)
Definition dequeue (policy : capture_policy) : M bool :=
  ok <- dc (capture_dequeue policy) ;;
  if ok then
    w <- get_world ;;
    match ring w with
    | f :: rest =>
        put_world (with_ring rest) ;;
        assign (set_frame (Some (mkFrame (image f) (color_filter f) (color_coding f)
                                         (Z.of_nat (List.length rest)) (timestamp f)))) ;;
        ret true
    | [] =>
        match policy with
        | CAPTURE_POLICY_POLL => assign (set_frame None) ;; ret true
        | CAPTURE_POLICY_WAIT => wait_for_signal
        end
    end
  else ret false.

(** [dc1394_capture_enqueue]: hand the buffer back to the ring. *)
Definition enqueue : M bool := dc capture_enqueue.

(** The number of bytes of one converted image:
    width x height x channels x bytes per channel. *)
Definition image_bytes (cd : PsychVidcapRecordType) : Z :=
  C.uint32 (width cd * height cd * (if actuallayers cd =? 3 then 3 else 1)
            * (if bitdepth cd >? 8 then 2 else 1)).

(** ** The recorder thread *)

(** One turn of the loop of [PsychDCRecorderThreadMain], run with the
    mutex held.  The result tells whether the loop goes on. *)
Definition recorder_cycle : M bool :=
  cd <- get_capdev ;;
  (* Abort? *)
  if negb (C.truthy (grabber_active cd)) then ret false
  else
    (* Check for new video frame in polling mode: *)
    ok <- dequeue CAPTURE_POLICY_POLL ;;
    if negb ok then
      printf "PTB-ERROR: In background video recording thread: dc1394_capture_dequeue() failed! Aborting recording thread." ;;
      ret false
    else
      cd <- get_capdev ;;
      match frame cd with
      | Some fr =>
          (* Ok, new frame ready and dequeued from DMA ringbuffer: *)
          assign (set_frame_ready 1) ;;
          assign (set_current_dropped (C.int32 (frames_behind fr))) ;;
          (* Increase counter of total number of captured frames: *)
          increment framecounter set_framecounter 1 ;;
          increment nrframes set_nrframes 1 ;;
          (* Perform potential processing on image, e.g., debayering: *)
          input_image <- PsychDCPreprocessFrame ;;
          match input_image with
          | None =>
              printf "PTB-ERROR: Bayer filtering or color space conversion of video frame in video recorder thread failed. Aborting recorder thread." ;;
              ret false
          | Some input_image =>
              (* Push new frame to the GStreamer video encoding pipeline: *)
              pushed <-
                (if recording_active cd && negb (moviehandle cd =? -1)
                    && C.has_flag (recordingflags cd) 16 then
                   PsychDCPushFrameToMovie input_image false
                 else ret true) ;;
              if negb pushed then ret false
              else
                (* Provide new frame to masterthread, if delivery isn't disabled: *)
                (if negb (C.has_flag (recordingflags cd) 4) then
                   (* Copy frame to the current frame buffer in low-latency mode: *)
                   (if C.truthy (dropframes cd) then
                      assign (set_current_frame
                                (Some (memcpy_samples (if bitdepth cd >? 8 then 2 else 1)
                                         (image_bytes cd) input_image)))
                    else ret tt) ;;
                   (* Signal availability of new video frame: *)
                   increment frameAvail set_frameAvail 1
                 else ret tt) ;;
                (* Requeue the recently dequeued and no longer needed buffer: *)
                ok <- enqueue ;;
                if negb ok then
                  printf "PTB-ERROR: Requeuing of used up video frame buffer in video recorder thread failed! Aborting recorder thread." ;;
                  ret false
                else ret true
          end
      | None =>
          (* No new frame received in this poll iteration. *)
          ret true
      end.

(** The end of the thread function, after the loop was left. *)
Definition recorder_exit : M unit := assign (set_frame_ready 0).

(** ** Fetching an image *)

(** [rawcapimgdata]: the raw image handed back to the caller. *)
Record rawcapimgdata : Type := mkRaw {
  raw_w : Z;
  raw_h : Z;
  raw_depth : Z;
  raw_bitdepth : Z;
  raw_data : list Z
}.

(** The loop that fetches and discards all queued frames except the last
    one when [dropframes] is set.  Every turn takes one frame out of the
    ring, so the number of frames in the ring bounds the turns. *)
Fixpoint drop_queued_frames (turns : nat) : M unit :=
  cd <- get_capdev ;;
  match frame cd with
  | None => undefined "capdev->frame is NULL"
  | Some fr =>
      if C.truthy (dropframes cd) && (C.int32 (frames_behind fr) >? 0) then
        match turns with
        | O => undefined "more frames behind than the ring holds"
        | Datatypes.S turns' =>
            (* First enqueue the recently dequeued buffer... *)
            ok <- enqueue ;;
            (if negb ok then
               PsychErrorExitMsg "Requeuing of discarded video frame failed while dropping frames (dropframes=1)!!!"
             else ret tt) ;;
            (* Then fetch the next one: *)
            ok <- dequeue CAPTURE_POLICY_POLL ;;
            cd <- get_capdev ;;
            (match ok, frame cd with
             | true, Some _ => ret tt
             | _, _ =>
                 PsychErrorExitMsg "Polling for new video frame failed while dropping frames (dropframes=1)!!!"
             end) ;;
            (* Increase counter of total number of captured frames: *)
            increment framecounter set_framecounter 1 ;;
            drop_queued_frames turns'
        end
      else ret tt
  end.

(** The check for a new image, [checkForImage] neither 0 nor 4. *)
Definition check_for_image (waitforframe : bool) : M Z :=
  cd <- get_capdev ;;
  if grabber_active cd =? 0 then
    (* Grabber stopped. We'll never get a new image: *)
    ret (-2)
  else if negb (C.has_flag (recordingflags cd) 16) then
    (* Capture handled by masterthread. *)
    assign (set_current_dropped 0) ;;
    (if waitforframe then
       (* Check for image in blocking mode: *)
       ok <- dequeue CAPTURE_POLICY_WAIT ;;
       if ok then assign (set_frame_ready 1)
       else PsychErrorExitMsg "Blocking wait for new frame failed!!!"
     else
       (* Check for image in polling mode: *)
       ok <- dequeue CAPTURE_POLICY_POLL ;;
       if ok then
         cd <- get_capdev ;;
         assign (set_frame_ready (match frame cd with Some _ => 1 | None => 0 end))
       else PsychErrorExitMsg "Polling for new video frame failed!!!") ;;
    cd <- get_capdev ;;
    (if C.truthy (frame_ready cd) then
       match frame cd with
       | None => undefined "capdev->frame is NULL"
       | Some fr =>
           (* Store count of currently queued frames: *)
           assign (set_current_dropped (C.int32 (frames_behind fr))) ;;
           (* Fetch and discard all queued frames except the last one: *)
           w <- get_world ;;
           drop_queued_frames (List.length (ring w)) ;;
           (* Increase counter of decompressed frames: *)
           increment nrframes set_nrframes 1 ;;
           (* Increase counter of total number of captured frames: *)
           increment framecounter set_framecounter 1
       end
     else ret tt) ;;
    (* Assign final ready state: *)
    cd <- get_capdev ;;
    assign (set_pulled_dropped (current_dropped cd)) ;;
    ret (if C.truthy (frame_ready cd) then 0 else -1)
  else
    (* Capture and recording handled on recorderThread. *)
    if C.truthy (dropframes cd) then
      (* Loop as long as no new frame is ready, unless this is a polling
         request or the wait fails: *)
      (if negb (C.truthy (frame_ready cd)) && waitforframe then
         if negb (wait_condition_rc env =? 0) then
           printf "PTB-ERROR: Waiting on video recorder thread to deliver new video frame failed. Aborting wait."
         else wait_for_signal
       else ret tt) ;;
      (* Do we finally have a frame? *)
      if C.truthy (frame_ready cd) then
        (* Yes! Get a hand on the current video image buffer: *)
        assign (set_pulled_frame (current_frame cd)) ;;
        assign (set_current_frame None) ;;
        assign (set_pulled_dropped (current_dropped cd)) ;;
        assign (set_current_dropped 0) ;;
        assign (set_frame_ready 0) ;;
        ret 0
      else ret (-1)
    else
      (* Pulling from GStreamer requested: TODO in the source. *)
      ret (-1).

(** The retrieval of the image, [checkForImage == 0]. *)
Definition retrieve_image (outrawbuffer : bool) : M (Z * option rawcapimgdata) :=
  cd <- get_capdev ;;
  (* Synchronous frame fetch from masterthread? *)
  input_image <-
    (if negb (C.has_flag (recordingflags cd) 16) then
       (* Yes. Do pre-processing of frame: *)
       input_image <- PsychDCPreprocessFrame ;;
       match input_image with
       | None => PsychErrorExitMsg "Bayer filtering or color space conversion of video frame failed."
       | Some img => ret (Some img)
       end
     else
       (* No. Already pre-processed in recorderThread, just assign: *)
       ret (pulled_frame cd)) ;;
  (* Raw data requested? Copy it out: *)
  raw <-
    (if outrawbuffer then
       let depth := if actuallayers cd =? 3 then 3 else 1 in
       let bitdepth_ := if bitdepth cd >? 8 then 16 else 8 in
       let count := C.uint32 (width cd * height cd * depth * (bitdepth_ / 8)) in
       match input_image with
       | None => undefined "input_image is NULL"
       | Some img =>
           ret (Some (mkRaw (width cd) (height cd) depth bitdepth_
                            (copy_pixels (bitdepth cd) count img)))
       end
     else ret None) ;;
  (* Synchronous video recording on masterthread active? *)
  (if recording_active cd && negb (moviehandle cd =? -1)
      && negb (C.has_flag (recordingflags cd) 16) then
     match input_image with
     | None => undefined "input_image is NULL"
     | Some img => _ <- PsychDCPushFrameToMovie img true ;; ret tt
     end
   else ret tt) ;;
  (* Synchronous operation? *)
  (if negb (C.has_flag (recordingflags cd) 16) then
     (* Yes: Release the capture buffer. Return it to the DMA ringbuffer pool: *)
     ok <- enqueue ;;
     (if negb ok then PsychErrorExitMsg "Re-Enqueuing processed video frame failed."
      else ret tt) ;;
     (* Reset current drop count for this cycle: *)
     assign (set_current_dropped 0)
   else ret tt) ;;
  (* Release cached frame buffer, if any: *)
  assign (set_pulled_frame None) ;;
  (* Update total count of dropped (or pending) frames: *)
  cd <- get_capdev ;;
  increment nr_droppedframes set_nr_droppedframes (pulled_dropped cd) ;;
  (* Find number of dropped frames at time of return of this frame: *)
  cd <- get_capdev ;;
  let nrdropped := pulled_dropped cd in
  (* Increase counter of retrieved textures: *)
  increment nrgfxframes set_nrgfxframes 1 ;;
  (* Return number of dropped (or pending in DMA ringbuffer) frames: *)
  ret (nrdropped, raw).

(** [PsychDCGetTextureFromCapture].  The result is the return value and
    the raw image data, when requested.  The creation of the texture, the
    sum of intensities and the presentation timestamp do not change the
    capture record or the return value and are not part of the embedding. *)
Definition PsychDCGetTextureFromCapture (capturehandle checkForImage : Z)
    (outrawbuffer : bool) : M (Z * option rawcapimgdata) :=
  (* Retrieve device record for handle: *)
  cd <- PsychGetVidcapRecord capturehandle ;;
  (* If a outrawbuffer struct is provided, we fill it with info needed to
     allocate a sufficient memory buffer for returned raw image data: *)
  let header :=
    if outrawbuffer then
      Some (mkRaw (width cd) (height cd) (if actuallayers cd =? 3 then 3 else 1)
                  (if bitdepth cd >? 8 then 16 else 8) [])
    else None in
  let waitforframe := checkForImage >? 1 in
  (* A mode 4 means "no op" with the libdc capture engine. *)
  if checkForImage =? 4 then ret (0, header)
  (* Should we just check for new image? *)
  else if C.truthy checkForImage then
    r <- check_for_image waitforframe ;;
    ret (r, header)
  else
    retrieve_image outrawbuffer.

End Engine.

(** ** A camera and a session for the examples

    A camera with three fixed modes (640x480 YUV422 at 15 and 30 fps,
    640x480 RGB8 at 15 fps, 1024x768 RGB8 at 15 fps) and one Format-7
    mode (MONO8, up to 1024x768, packet sizes 4 .. 8192) on a 400 Mbit
    bus.  Every call succeeds. *)
Definition example_camera : Environment :=
  {| PSYCH_MAX_CAPTUREDEVICES := 100;
     verbosity := 3;
     dc1394_new_ok := true;
     dc_succeeds := fun _ => true;
     cameras_num := 1;
     camera_new_unit := fun i => Some i;
     vendor := "Basler";
     model := "A602f";
     iso_speed := Some DC1394.ISO_SPEED_400;
     video_modes := [67; 68; 75; 88];
     color_coding_of_mode := fun m =>
       if m =? 67 then DC1394.COLOR_CODING_YUV422
       else if m =? 88 then DC1394.COLOR_CODING_MONO8
       else DC1394.COLOR_CODING_RGB8;
     image_size_of_mode := fun m => if m =? 75 then (1024, 768) else (640, 480);
     supported_framerates := fun m =>
       if m =? 67 then [DC1394.FRAMERATE_15; DC1394.FRAMERATE_30]
       else [DC1394.FRAMERATE_15];
     format7_max_size := fun _ => (1024, 768);
     format7_packet_para := fun _ => (4, 8192);
     format7_depth := fun _ => 8;
     data_depth := 8;
     trigger_present := true;
     soft_sync_slaves := [];
     movie_create := 0;
     movie_buffer := (true, (640, 480, 3, 8));
     movie_add_frame := 0;
     movie_finalize := 1;
     create_thread_rc := 0;
     wait_condition_rc := 0;
     debayer := fun img _ _ => img;
     convert := fun img => img |}.

(** The world before the first device is opened. *)
Definition initial_world : World :=
  mkWorld zeroed_record true false 0 [] [] [] [].

(** ** A program logic for the computations

    [wp c Q w]: whenever [c], run in world [w], returns, the result and
    the world it leaves satisfy [Q].  An exit through [PsychErrorExitMsg],
    an undefined step and a sleeping caller satisfy every [wp]. *)
Definition wp {A : Type} (c : M A) (Q : A -> World -> Prop) (w : World) : Prop :=
  forall a w', c w = (Returns a, w') -> Q a w'.

(** What a mode finder may change: the selected mode, framerate, layer
    counts, ROI and framerate estimate of the capture record, the log of
    libdc1394 calls and the console. *)
Definition finder_changes (w w1 : World) : Prop :=
  exists fmt rate layers req roi fps_ hw' console',
    w1 = mkWorld
           (set_dc_imageformat fmt
              (set_dc_framerate rate
                 (set_actuallayers layers
                    (set_reqlayers req
                       (set_roirect roi (set_fps fps_ (capdev w)))))))
           (firsttime w) (libdc w) (numCaptureRecords w) hw' console'
           (ring w) (movie w).

(** The example camera opened in slot 0 for RGB output at [bpc] bits, with
    a ROI, a movie file name and recording flags. *)
Definition example_opened (rect : option PsychRectType) (movie : option string)
    (flags bpc : Z) : World :=
  snd (PsychDCOpenVideoCaptureDevice example_camera 0 (-1) rect 3 0 movie flags
         bpc initial_world).

(** A framerate given as an integer number of frames per second. *)
Definition fps_of (n : Z) : Flt.double := Flt.double_of_int n.

(** The image [PsychDCPreprocessFrame] hands on for a dequeued frame. *)
Definition preprocessed (env : Environment) (cd : PsychVidcapRecordType)
    (fr : video_frame_t) : list Z :=
  match convframe cd with
  | Some _ =>
      if is_raw_or_mono (colormode cd) then
        debayer env (image fr)
          (if (color_filter fr <? DC1394.COLOR_FILTER_MIN)
              || (color_filter fr >? DC1394.COLOR_FILTER_MAX)
           then color_filter_override cd else color_filter fr)
          (debayer_method cd)
      else convert env (image fr)
  | None => image fr
  end.

(** The number of bytes [PsychDCPushFrameToMovie] copies into the movie
    buffer. *)
Definition movie_bytes (env : Environment) (cd : PsychVidcapRecordType) : Z :=
  let '(_, (twidth, theight, _, _)) := movie_buffer env in
  C.uint32 (twidth * theight * (if actuallayers cd =? 3 then 3 else 1)
            * (if bitdepth cd >? 8 then 2 else 1)).

(** The number of bytes of the raw image data handed to the caller. *)
Definition raw_bytes (cd : PsychVidcapRecordType) : Z :=
  C.uint32 (width cd * height cd * (if actuallayers cd =? 3 then 3 else 1)
            * ((if bitdepth cd >? 8 then 16 else 8) / 8)).

(** The example camera opened in slot 0 for luminance output at 8 bits
    with a ROI, as for a Format-7 capture of its MONO8 mode. *)
Definition example_opened_mono (rect : option PsychRectType) : World :=
  snd (PsychDCOpenVideoCaptureDevice example_camera 0 (-1) rect 1 0 None 0 8
         initial_world).

(** The frame a dequeue hands out for the oldest frame [f] of the ring,
    with [behind] frames left in the ring. *)
Definition dequeued (f : video_frame_t) (behind : nat) : video_frame_t :=
  mkFrame (image f) (color_filter f) (color_coding f) (Z.of_nat behind)
          (timestamp f).

(** The frame left in [capdev->frame] when all frames of [ring] were
    fetched after [fr]. *)
Definition newest_frame (fr : video_frame_t) (ring : list video_frame_t)
    : video_frame_t :=
  match ring with
  | [] => fr
  | _ :: _ => dequeued (List.last ring fr) 0
  end.

(** The packet bounds the Format-7 finder works with for a mode: a
    reported [pbmin] of 0 is replaced by [pbmax]. *)
Definition f7_packet_bounds (env : Environment) (mode : DC1394.video_mode_t)
    : Z * Z :=
  let '(pbmin, pbmax) := format7_packet_para env mode in
  (if pbmin =? 0 then pbmax else pbmin, pbmax).

(** What holds of the mode and the packet size the loop over the
    Format-7 modes has kept so far: nothing is kept yet, or the mode is a
    Format-7 mode of the camera whose colour coding passed the test and
    the packet size was computed for it. *)
Definition f7_kept (env : Environment) (cd : PsychVidcapRecordType)
    (st : f7_state) : Prop :=
  minimgmode st = DC1394.VIDEO_MODE_MIN
  \/ (In (minimgmode st) (video_modes env)
      /\ DC1394.VIDEO_MODE_FORMAT7_MIN <= minimgmode st
         <= DC1394.VIDEO_MODE_FORMAT7_MAX
      /\ coding_rejected cd (color_coding_of_mode env (minimgmode st)) = false
      /\ exists w h num_packets,
           f7_packet_size w h (format7_depth env (minimgmode st)) num_packets
             (fst (f7_packet_bounds env (minimgmode st)))
             (snd (f7_packet_bounds env (minimgmode st)))
           = Some (minpacket_size st)).

(** The test of both finders for "no ROI requested": the rectangle set by
    the open call when none is given. *)
Definition roi_unset (cd : PsychVidcapRecordType) : bool :=
  (kPsychLeft (roirect cd) =? 0) && (kPsychTop (roirect cd) =? 0)
  && (C.int32 (PsychGetWidthFromRect (roirect cd)) =? 1)
  && (C.int32 (PsychGetHeightFromRect (roirect cd)) =? 1).

(** The image area [mw * mh] of a non-Format-7 mode, an [unsigned int]. *)
Definition mode_area (env : Environment) (mode : DC1394.video_mode_t) : Z :=
  C.uint32 (fst (image_size_of_mode env mode) * snd (image_size_of_mode env mode)).

(** The modes the non-Format-7 finder considers: the modes of the camera
    below the Format-7 range whose colour coding passes the test. *)
Definition nf7_candidate (env : Environment) (cd : PsychVidcapRecordType)
    (mode : DC1394.video_mode_t) : Prop :=
  In mode (video_modes env)
  /\ mode < DC1394.VIDEO_MODE_FORMAT7_MIN
  /\ coding_rejected cd (color_coding_of_mode env mode) = false.

(** A requested ROI that a mode matches exactly. *)
Definition roi_matches (env : Environment) (cd : PsychVidcapRecordType)
    (mode : DC1394.video_mode_t) : Prop :=
  kPsychLeft (roirect cd) = 0 /\ kPsychTop (roirect cd) = 0
  /\ C.int32 (PsychGetWidthFromRect (roirect cd))
     = C.int32 (fst (image_size_of_mode env mode))
  /\ C.int32 (PsychGetHeightFromRect (roirect cd))
     = C.int32 (snd (image_size_of_mode env mode)).

(** What holds of the state of the loop over the non-Format-7 modes:
    before a mode is found the area is the initial 0; a found mode is a
    candidate, holds the biggest area seen when no ROI is requested, and
    matches the requested ROI otherwise. *)
Definition nf7_invariant (env : Environment) (cd : PsychVidcapRecordType)
    (st : nf7_state) : Prop :=
  (mode_found st = false -> maximgarea st = 0)
  /\ (mode_found st = true ->
      nf7_candidate env cd (maximgmode st)
      /\ (roi_unset cd = true ->
          C.uint32 (maximgarea st) = mode_area env (maximgmode st))
      /\ (roi_unset cd = false -> roi_matches env cd (maximgmode st))).

(** ** Frames on their way to the movie *)

(** The frame the engine adds to the movie for a dequeued frame [f]:
    the frame is preprocessed and its pixels are copied. *)
Definition encoded (env : Environment) (cd : PsychVidcapRecordType)
    (f : video_frame_t) : list Z :=
  copy_pixels (bitdepth cd) (movie_bytes env cd) (preprocessed env cd f).

(** The settings of a capture record that fix how frames are converted,
    encoded and recorded.  The contents of the scratch frame change with
    every conversion, its presence does not. *)
Definition capture_format_kept (cd cd' : PsychVidcapRecordType) : Prop :=
  valid cd' = valid cd
  /\ grabber_active cd' = grabber_active cd
  /\ dropframes cd' = dropframes cd
  /\ colormode cd' = colormode cd
  /\ debayer_method cd' = debayer_method cd
  /\ color_filter_override cd' = color_filter_override cd
  /\ actuallayers cd' = actuallayers cd
  /\ bitdepth cd' = bitdepth cd
  /\ width cd' = width cd
  /\ height cd' = height cd
  /\ recording_active cd' = recording_active cd
  /\ moviehandle cd' = moviehandle cd
  /\ recordingflags cd' = recordingflags cd
  /\ (convframe cd' = None <-> convframe cd = None).

(** Recording on the recorder thread: recording is active, a movie is
    open and the flag 16 is set. *)
Definition async_recording (cd : PsychVidcapRecordType) : Prop :=
  recording_active cd = true
  /\ moviehandle cd <> -1
  /\ C.has_flag (recordingflags cd) 16 = true.

(** Recording on the master thread. *)
Definition sync_recording (cd : PsychVidcapRecordType) : Prop :=
  recording_active cd = true
  /\ moviehandle cd <> -1
  /\ C.has_flag (recordingflags cd) 16 = false.

(** A run of a capture with the recorder thread.  The loop of the
    recorder thread takes the mutex for each of its turns, and the
    consumer takes it for its check, so that the turns of the recorder,
    the calls of the consumer and the arrival of frames in the DMA ring
    follow one another.  [async_run env h w arrived w']: from [w] the
    engine reaches [w'] while the camera delivers the frames [arrived],
    every turn of the recorder going on and every call of the consumer
    returning. *)
Inductive async_run (env : Environment) (capturehandle : Z)
    : World -> list video_frame_t -> World -> Prop :=
| async_done w : async_run env capturehandle w [] w
| async_frame w f arrived w' :
    async_run env capturehandle (with_ring (ring w ++ [f]) w) arrived w' ->
    async_run env capturehandle w (f :: arrived) w'
| async_recorder w w1 arrived w' :
    recorder_cycle env w = (Returns true, w1) ->
    async_run env capturehandle w1 arrived w' ->
    async_run env capturehandle w arrived w'
| async_consumer w checkForImage outrawbuffer r w1 arrived w' :
    PsychDCGetTextureFromCapture env capturehandle checkForImage outrawbuffer w
    = (Returns r, w1) ->
    async_run env capturehandle w1 arrived w' ->
    async_run env capturehandle w arrived w'.

(** The example camera, opened with a ROI of 640 x 480 pixels and started
    at 30 fps, and a frame as the camera delivers it. *)
Definition example_started (movie : option string) (flags dropframes_ : Z)
    : World :=
  snd (PsychDCVideoCaptureRate example_camera 0 (fps_of 30) dropframes_
         (example_opened (Some (PsychMakeRect 0 0 640 480)) movie flags 8)).

Definition example_frame (n : Z) : video_frame_t :=
  mkFrame [n; n + 1; n + 2] 0 (Some DC1394.COLOR_CODING_YUV422) 0 n.

(** The example camera recording on the recorder thread. *)
Definition example_async_start : World := example_started (Some "m.mov") 16 1.

(** ** Closing a capture device *)

(** [PsychDCCloseVideoCaptureDevice]: stop capture if it is still
    running, power the camera down and release the record.
    [dc1394_camera_free] and the release of the strings, of the mutex and
    of the condition variable return nothing the engine looks at. *)
Definition PsychDCCloseVideoCaptureDevice (env : Environment)
    (capturehandle : Z) : M unit :=
  (* Retrieve device record for handle: *)
  _ <- PsychGetVidcapRecord env capturehandle ;;
  (* Stop capture immediately if it is still running: *)
  _ <- PsychDCVideoCaptureRate env capturehandle (Flt.double_of_int 0) 0 ;;
  (* Initiate a power-down cycle to bring camera into standby mode: *)
  ok <- dc env (camera_set_power false) ;;
  when (negb ok) (printf "PTB-WARNING: Tried to power down camera, but powerdown-cycle failed for some reason!") ;;
  (* Close & Shutdown camera, release ressources: *)
  assign (set_camera None) ;;
  (* Release video recording related data: *)
  assign (set_codecSpec None) ;;
  assign (set_targetmoviefilename None) ;;
  (* Invalidate device record to free up this slot in the array: *)
  assign (set_valid 0) ;;
  (* Decrease counter of open capture devices: *)
  w <- get_world ;;
  when (numCaptureRecords w >? 0)
       (put_world (with_numCaptureRecords (numCaptureRecords w - 1))).

(** ** Computations that return

    [twp c Q w]: [c], run in world [w], returns, and the result and the
    world it leaves satisfy [Q].  An exit through [PsychErrorExitMsg], an
    undefined step and a sleeping caller satisfy no [twp]. *)
Definition twp {A : Type} (c : M A) (Q : A -> World -> Prop) (w : World) : Prop :=
  exists a w', c w = (Returns a, w') /\ Q a w'.

(** The last line on the console is an error message of the engine. *)
Definition error_reported (w : World) : Prop :=
  String.prefix "PTB-ERROR" (last (console w) "") = true.

(** ** Computations and the way they end

    [owp c Q w]: the outcome of [c], run in world [w], and the world it
    leaves satisfy [Q], however [c] ends. *)
Definition owp {A : Type} (c : M A) (Q : outcome A -> World -> Prop)
    (w : World) : Prop :=
  Q (fst (c w)) (snd (c w)).

(** What the rest of a computation sees of the outcome of its first part. *)
Definition owp_then {A B : Type} (k : A -> M B)
    (Q : outcome B -> World -> Prop) (o : outcome A) (w : World) : Prop :=
  match o with
  | Returns a => owp (k a) Q w
  | ErrorExit msg => Q (ErrorExit msg) w
  | Undefined why => Q (Undefined why) w
  | Waits => Q Waits w
  end.

(** ** Parameters of the conversion of raw sensor data *)

Definition set_color_filter_override (v : Z) (r : PsychVidcapRecordType)
    : PsychVidcapRecordType :=
  mkVidcapRecord (valid r) (capturehandle r) (recorderThread r) (frameAvail r)
    (camera r) (frame r) (convframe r) (current_frame r) (pulled_frame r)
    (syncmode r) (dropframes r) (dc_imageformat r) (dc_framerate r)
    (colormode r) (debayer_method r) v (dataconversionmode r)
    (reqlayers r) (actuallayers r) (bitdepth r) (num_dmabuffers r)
    (nrframes r) (framecounter r) (fps r) (width r) (height r)
    (current_dropped r) (pulled_dropped r) (nr_droppedframes r)
    (frame_ready r) (grabber_active r) (roirect r) (nrgfxframes r)
    (recording_active r) (targetmoviefilename r) (codecSpec r) (moviehandle r)
    (recordingflags r) (specialFlags r).

(** [PsychDCVideoCaptureSetParameter] for [pname] equal to
    ["DebayerMethod"]; no test on [pname] that precedes this case matches
    the name.  [intval = (int) (value + 0.5)] is stored in an
    [unsigned int] and only used when [value != DBL_MAX].  An enumeration
    without negative constants has an unsigned type here, as with gcc
    and clang, so that the sums and differences with the [_MIN]
    constants are taken in [unsigned int]. *)
Definition PsychDCVideoCaptureSetParameter_DebayerMethod (env : Environment)
    (capturehandle : Z) (value : Flt.double) : M Flt.double :=
  if capturehandle =? -1 then ret Flt.DBL_MAX
  else
    cd <- PsychGetVidcapRecord env capturehandle ;;
    let oldvalue :=
      Flt.double_of_int (C.uint32 (debayer_method cd - DC1394.BAYER_METHOD_MIN)) in
    if Flt.ne value Flt.DBL_MAX then
      match Flt.int_of (Flt.dadd value Flt.d0_5) with
      | None => undefined "conversion of value + 0.5 to int"
      | Some n =>
          let intval := C.uint32 n in
          assign (set_debayer_method (C.uint32 (intval + DC1394.BAYER_METHOD_MIN))) ;;
          ret oldvalue
      end
    else ret oldvalue.

(** [PsychDCVideoCaptureSetParameter] for [pname] equal to
    ["OverrideBayerPattern"]. *)
Definition PsychDCVideoCaptureSetParameter_OverrideBayerPattern
    (env : Environment) (capturehandle : Z) (value : Flt.double)
    : M Flt.double :=
  if capturehandle =? -1 then ret Flt.DBL_MAX
  else
    cd <- PsychGetVidcapRecord env capturehandle ;;
    let oldvalue :=
      Flt.double_of_int
        (C.uint32 (color_filter_override cd - DC1394.COLOR_FILTER_MIN)) in
    if Flt.ne value Flt.DBL_MAX then
      match Flt.int_of (Flt.dadd value Flt.d0_5) with
      | None => undefined "conversion of value + 0.5 to int"
      | Some n =>
          let intval := C.uint32 n in
          assign (set_color_filter_override
                    (C.uint32 (intval + DC1394.COLOR_FILTER_MIN))) ;;
          ret oldvalue
      end
    else ret oldvalue.

(** ** A new name for the movie file *)

(** [s] cut before the first occurrence of [tag], as by
    [if (strstr(s, tag)) *(strstr(s, tag)) = 0]. *)
Definition cut_before (tag s : string) : string :=
  match String.index 0 tag s with
  | Some i => str_before i s
  | None => s
  end.

(** [PsychDCVideoCaptureSetParameter] for a [pname] that contains
    ["SetNewMoviename="] and is neither ["TriggerCount"] nor
    ["WaitTriggerCount"], the only test that precedes this case.  The new
    name is the text behind the first ['='] of [pname]. *)
Definition PsychDCVideoCaptureSetParameter_SetNewMoviename (env : Environment)
    (capturehandle : Z) (pname : string) : M Flt.double :=
  if capturehandle =? -1 then ret Flt.DBL_MAX
  else
    cd <- PsychGetVidcapRecord env capturehandle ;;
    (* Find start of movie namestring and assign to pname: *)
    match String.index 0 "=" pname with
    | None => undefined "strstr(pname, =) is NULL"
    | Some i =>
        let pname := str_from (i + 1) pname in
        (* Child protection: *)
        if negb (recording_active cd) then
          when (verbosity env >? 1)
               (printf "PTB-WARNING: Tried to change name of target movie file on device, but recording not enabled on that device! Ignored.") ;;
          ret (Flt.double_of_int (-2))
        else
          (* Can't reassign new codec without reopening the device: *)
          when (strstr pname ":CodecType" && (verbosity env >? 1))
               (printf "PTB-WARNING: Tried to change recording codec on device, but this isn't possible without reopening the device. Ignored.") ;;
          let pname := cut_before ":CodecType" pname in
          when (strstr pname ":CodecSettings=" && (verbosity env >? 1))
               (printf "PTB-WARNING: Tried to change recording codec settings on device, but this isn't possible without reopening the device. Ignored.") ;;
          let pname := cut_before ":CodecSettings=" pname in
          (* Assign new movie name: *)
          assign (set_targetmoviefilename (Some pname)) ;;
          ret (Flt.double_of_int 0)
    end.
(** * Properties *)

(** ** Rules of the program logic *)

Lemma wp_bind {A B : Type} (c : M A) (k : A -> M B) Q w :
  wp c (fun a w1 => wp (k a) Q w1) w -> wp (bind c k) Q w.
Proof.
  unfold wp, bind. intros H b w' Hrun.
  destruct (c w) as [[a | msg | why | ] w1] eqn:Hc; try discriminate.
  exact (H a w1 eq_refl b w' Hrun).
Qed.

Lemma wp_ret {A : Type} (a : A) (Q : A -> World -> Prop) w :
  Q a w -> wp (ret a) Q w.
Proof. unfold wp, ret. intros H b w' [= <- <-]. exact H. Qed.

Lemma wp_assign f (Q : unit -> World -> Prop) w :
  Q tt (with_capdev (f (capdev w)) w) -> wp (assign f) Q w.
Proof. unfold wp, assign. intros H b w' [= <- <-]. exact H. Qed.

Lemma wp_put_world f (Q : unit -> World -> Prop) w :
  Q tt (f w) -> wp (put_world f) Q w.
Proof. unfold wp, put_world. intros H b w' [= <- <-]. exact H. Qed.

Lemma wp_printf msg (Q : unit -> World -> Prop) w :
  Q tt (with_console (console w ++ [msg]) w) -> wp (printf msg) Q w.
Proof. apply wp_put_world. Qed.

Lemma wp_get_capdev (Q : PsychVidcapRecordType -> World -> Prop) w :
  Q (capdev w) w -> wp get_capdev Q w.
Proof. unfold wp, get_capdev. intros H b w' [= <- <-]. exact H. Qed.

Lemma wp_get_world (Q : World -> World -> Prop) w :
  Q w w -> wp get_world Q w.
Proof. unfold wp, get_world. intros H b w' [= <- <-]. exact H. Qed.

Lemma wp_exit {A : Type} msg (Q : A -> World -> Prop) w :
  wp (PsychErrorExitMsg msg) Q w.
Proof. unfold wp, PsychErrorExitMsg. intros b w' [=]. Qed.

Lemma wp_undefined {A : Type} why (Q : A -> World -> Prop) w :
  wp (undefined why) Q w.
Proof. unfold wp, undefined. intros b w' [=]. Qed.

Lemma wp_wait {A : Type} (Q : A -> World -> Prop) w :
  wp wait_for_signal Q w.
Proof. unfold wp, wait_for_signal. intros b w' [=]. Qed.

Lemma wp_dc env c (Q : bool -> World -> Prop) w :
  Q (dc_succeeds env c) (with_hw (hw w ++ [c]) w) -> wp (dc env c) Q w.
Proof. unfold wp, dc. intros H b w' [= <- <-]. exact H. Qed.

Lemma wp_increment field set n (Q : unit -> World -> Prop) w :
  (in_int_range (field (capdev w) + n) = true ->
   Q tt (with_capdev (set (field (capdev w) + n) (capdev w)) w)) ->
  wp (increment field set n) Q w.
Proof.
  unfold wp, increment, int_add, ret, undefined. intros H b w'.
  destruct (in_int_range (field (capdev w) + n)); [|discriminate].
  intros [= <- <-]. now apply H.
Qed.

Lemma wp_consequence {A : Type} (c : M A) (R Q : A -> World -> Prop) w :
  wp c R w -> (forall a w1, R a w1 -> Q a w1) -> wp c Q w.
Proof. unfold wp. intros H HRQ a w' Hrun. apply HRQ, (H _ _ Hrun). Qed.

Lemma wp_use {A : Type} (c : M A) (Q : A -> World -> Prop) w a w' :
  wp c Q w -> c w = (Returns a, w') -> Q a w'.
Proof. intros H. apply H. Qed.

(** Normalise the world an assignment leaves: the setters are unfolded
    and the projections of a built record are reduced. *)
Arguments set_valid v r /.
Arguments set_capturehandle v r /.
Arguments set_recorderThread v r /.
Arguments set_frameAvail v r /.
Arguments set_camera v r /.
Arguments set_frame v r /.
Arguments set_convframe v r /.
Arguments set_current_frame v r /.
Arguments set_pulled_frame v r /.
Arguments set_syncmode v r /.
Arguments set_dropframes v r /.
Arguments set_dc_imageformat v r /.
Arguments set_dc_framerate v r /.
Arguments set_colormode v r /.
Arguments set_debayer_method v r /.
Arguments set_reqlayers v r /.
Arguments set_actuallayers v r /.
Arguments set_bitdepth v r /.
Arguments set_num_dmabuffers v r /.
Arguments set_nrframes v r /.
Arguments set_framecounter v r /.
Arguments set_fps v r /.
Arguments set_width v r /.
Arguments set_height v r /.
Arguments set_current_dropped v r /.
Arguments set_pulled_dropped v r /.
Arguments set_nr_droppedframes v r /.
Arguments set_frame_ready v r /.
Arguments set_grabber_active v r /.
Arguments set_roirect v r /.
Arguments set_nrgfxframes v r /.
Arguments set_recording_active v r /.
Arguments set_targetmoviefilename v r /.
Arguments set_codecSpec v r /.
Arguments set_moviehandle v r /.
Arguments set_recordingflags v r /.
Arguments with_capdev v w /.
Arguments with_firsttime v w /.
Arguments with_libdc v w /.
Arguments with_numCaptureRecords v w /.
Arguments with_hw v w /.
Arguments with_console v w /.
Arguments with_ring v w /.
Arguments with_movie v w /.

Ltac world_norm :=
  cbn beta iota delta [
    set_valid set_capturehandle set_recorderThread set_frameAvail
    set_camera set_frame set_convframe set_current_frame set_pulled_frame
    set_syncmode set_dropframes set_dc_imageformat set_dc_framerate
    set_colormode set_debayer_method set_reqlayers set_actuallayers
    set_bitdepth set_num_dmabuffers set_nrframes set_framecounter set_fps
    set_width set_height set_current_dropped set_pulled_dropped
    set_nr_droppedframes set_frame_ready set_grabber_active set_roirect
    set_nrgfxframes set_recording_active set_targetmoviefilename
    set_codecSpec set_moviehandle set_recordingflags with_capdev
    with_firsttime with_libdc with_numCaptureRecords with_hw with_console
    with_ring with_movie valid capturehandle recorderThread frameAvail
    camera frame convframe current_frame pulled_frame syncmode dropframes
    dc_imageformat dc_framerate colormode debayer_method
    color_filter_override dataconversionmode reqlayers actuallayers
    bitdepth num_dmabuffers nrframes framecounter fps width height
    current_dropped pulled_dropped nr_droppedframes frame_ready
    grabber_active roirect nrgfxframes recording_active
    targetmoviefilename codecSpec moviehandle recordingflags specialFlags
    capdev firsttime libdc numCaptureRecords hw console ring movie
  ].

Ltac world_norm_in H :=
  cbn beta iota delta [
    set_valid set_capturehandle set_recorderThread set_frameAvail
    set_camera set_frame set_convframe set_current_frame set_pulled_frame
    set_syncmode set_dropframes set_dc_imageformat set_dc_framerate
    set_colormode set_debayer_method set_reqlayers set_actuallayers
    set_bitdepth set_num_dmabuffers set_nrframes set_framecounter set_fps
    set_width set_height set_current_dropped set_pulled_dropped
    set_nr_droppedframes set_frame_ready set_grabber_active set_roirect
    set_nrgfxframes set_recording_active set_targetmoviefilename
    set_codecSpec set_moviehandle set_recordingflags with_capdev
    with_firsttime with_libdc with_numCaptureRecords with_hw with_console
    with_ring with_movie valid capturehandle recorderThread frameAvail
    camera frame convframe current_frame pulled_frame syncmode dropframes
    dc_imageformat dc_framerate colormode debayer_method
    color_filter_override dataconversionmode reqlayers actuallayers
    bitdepth num_dmabuffers nrframes framecounter fps width height
    current_dropped pulled_dropped nr_droppedframes frame_ready
    grabber_active roirect nrgfxframes recording_active
    targetmoviefilename codecSpec moviehandle recordingflags specialFlags
    capdev firsttime libdc numCaptureRecords hw console ring movie
  ] in H.

(** One step of a computation. *)
Ltac wp_step :=
  cbv beta;
  lazymatch goal with
  | |- wp (bind _ _) _ _ => apply wp_bind
  | |- wp (ret _) _ _ => apply wp_ret; cbv beta
  | |- wp (assign _) _ _ => apply wp_assign; world_norm
  | |- wp (put_world _) _ _ => apply wp_put_world; world_norm
  | |- wp (printf _) _ _ => apply wp_printf; world_norm
  | |- wp get_capdev _ _ => apply wp_get_capdev; world_norm
  | |- wp get_world _ _ => apply wp_get_world
  | |- wp (PsychErrorExitMsg _) _ _ => apply wp_exit
  | |- wp (undefined _) _ _ => apply wp_undefined
  | |- wp wait_for_signal _ _ => apply wp_wait
  | |- wp (dc _ _) _ _ => apply wp_dc; world_norm
  | |- wp (increment _ _ _) _ _ => apply wp_increment; world_norm; intros ?
  | |- wp (when ?b _) _ _ => unfold when at 1
  | |- wp (if ?b then _ else _) _ _ => destruct b eqn:?
  | |- wp (match ?x with _ => _ end) _ _ => destruct x eqn:?
  | |- wp (let '(_, _) := ?x in _) _ _ => destruct x eqn:?
  end.

Ltac wp_run := repeat wp_step.

(** ** Opening a device *)

Lemma open_stores_request (env : Environment) slotid deviceIndex rect reqdepth
    num_dma movie flags bpc w :
  wp (PsychDCOpenVideoCaptureDevice env slotid deviceIndex rect reqdepth num_dma
        movie flags bpc)
     (fun _ w' =>
        bitdepth (capdev w') = (if bpc <=? 8 then 8 else 16)
        /\ num_dmabuffers (capdev w') = (if num_dma >? 0 then num_dma else 8)
        /\ recordingflags (capdev w')
           = match movie with
             | Some _ => Z.land flags (C.uint32 (Z.lnot 2))
             | None => flags
             end
        /\ grabber_active (capdev w') = 0
        /\ convframe (capdev w') = None
        /\ recorderThread (capdev w') = None
        /\ recording_active (capdev w')
           = match movie with Some _ => true | None => false end) w.
Proof.
  unfold PsychDCOpenVideoCaptureDevice, PsychDCLibInit, PsychGetVidcapRecord,
    parse_codec_spec.
  wp_run; repeat split; reflexivity.
Qed.

(** C9, as stated, fails: a call of open without a target movie file name
    stores the recording flags as they were passed.  Opening the example
    camera with [recordingflags = 2] and no movie file name leaves the audio
    bit set in the capture record. *)
Lemma C9_open_without_movie_keeps_audio_flag :
  exists w',
    PsychDCOpenVideoCaptureDevice example_camera 0 (-1) None 3 0 None 2 8
      initial_world = (Returns 0, w')
    /\ Z.land (recordingflags (capdev w')) 2 = 2.
Proof.
  eexists. split.
  - vm_compute. reflexivity.
  - vm_compute. reflexivity.
Qed.

(** C9, amended: for every call of open that returns, the audio bit
    (value 2) of the supplied recording flags is cleared before the flags
    are stored when a target movie file name was supplied, and all other
    bits are stored as supplied; without a target movie file name the flags
    are stored unchanged. *)
Theorem C9_open_clears_audio_flag_when_recording (env : Environment)
    slotid deviceIndex rect reqdepth num_dma movie flags bpc w h w' :
  PsychDCOpenVideoCaptureDevice env slotid deviceIndex rect reqdepth num_dma
    movie flags bpc w = (Returns h, w') ->
  match movie with
  | Some _ =>
      Z.land (recordingflags (capdev w')) 2 = 0
      /\ forall i, 0 <= i < 32 -> i <> 1 ->
           Z.testbit (recordingflags (capdev w')) i = Z.testbit flags i
  | None => recordingflags (capdev w') = flags
  end.
Proof.
  intros Hrun.
  destruct (wp_use _ _ _ _ _ (open_stores_request env slotid deviceIndex rect
              reqdepth num_dma movie flags bpc w) Hrun)
    as (_ & _ & Hflags & _).
  destruct movie as [name|]; [|exact Hflags].
  rewrite Hflags. change (C.uint32 (Z.lnot 2)) with 4294967293. split.
  - apply Z.bits_inj'. intros i Hi.
    rewrite !Z.land_spec, Z.bits_0.
    destruct (Z.eq_dec i 1) as [->|Hne].
    + now rewrite andb_false_r.
    + replace (Z.testbit 2 i) with false; [now rewrite andb_false_r|].
      change 2 with (2 ^ 1). symmetry. apply Z.pow2_bits_false. congruence.
  - intros i Hi Hne. rewrite Z.land_spec.
    replace (Z.testbit 4294967293 i) with true; [apply andb_true_r|].
    change 4294967293 with (Z.ones 32 - 2 ^ 1).
    assert (Hcases : i = 0 \/ 2 <= i < 32) by lia.
    destruct Hcases as [->|Hr]; [reflexivity|].
    assert (i = 2 \/ i = 3 \/ i = 4 \/ i = 5 \/ i = 6 \/ i = 7 \/ i = 8 \/ i = 9
            \/ i = 10 \/ i = 11 \/ i = 12 \/ i = 13 \/ i = 14 \/ i = 15 \/ i = 16
            \/ i = 17 \/ i = 18 \/ i = 19 \/ i = 20 \/ i = 21 \/ i = 22 \/ i = 23
            \/ i = 24 \/ i = 25 \/ i = 26 \/ i = 27 \/ i = 28 \/ i = 29 \/ i = 30
            \/ i = 31) as Hi' by lia.
    repeat (destruct Hi' as [->|Hi']; [reflexivity|]). now subst.
Qed.

Lemma C9_open_clears_audio_flag_witness :
  exists w',
    PsychDCOpenVideoCaptureDevice example_camera 0 (-1) None 3 0
      (Some "clip.mov") 18 8 initial_world = (Returns 0, w')
    /\ Z.land (recordingflags (capdev w')) 2 = 0.
Proof.
  eexists. split.
  - vm_compute. reflexivity.
  - refine (proj1 (C9_open_clears_audio_flag_when_recording example_camera 0 (-1)
                     None 3 0 (Some "clip.mov") 18 8 initial_world 0 _ _)).
    vm_compute. reflexivity.
Defined.

(** ** The mode finders leave the rest of the session alone *)

Lemma match_reqlayers_changes env w :
  wp (match_reqlayers env)
     (fun _ w1 => exists req console',
        w1 = with_console console' (with_capdev (set_reqlayers req (capdev w)) w)) w.
Proof.
  destruct w as [cd ft ld n h c r m]. destruct cd.
  unfold match_reqlayers.
  wp_run; do 2 eexists; world_norm; reflexivity.
Qed.

Lemma f7_probe_mode_changes env cd bp rate st mode w :
  wp (f7_probe_mode env cd bp rate st mode)
     (fun _ w1 => exists hw', w1 = with_hw hw' w) w.
Proof.
  destruct w as [cd0 ft ld n h c r m].
  unfold f7_probe_mode, f7_skip.
  wp_run; eexists; reflexivity.
Qed.

Lemma f7_probe_modes_changes env cd bp rate modes : forall st w,
  wp (f7_probe_modes env cd bp rate st modes)
     (fun _ w1 => exists hw', w1 = with_hw hw' w) w.
Proof.
  induction modes as [|mode rest IH]; intros st w; cbn [f7_probe_modes].
  - apply wp_ret. exists (hw w). now destruct w.
  - apply wp_bind.
    eapply wp_consequence; [apply f7_probe_mode_changes|].
    intros st' w1 [hw1 ->].
    eapply wp_consequence; [apply IH|].
    intros st'' w2 [hw2 ->]. exists hw2. now destruct w.
Qed.

Lemma format7_finder_changes env rate w :
  wp (PsychVideoFindFormat7Mode env rate) (fun _ w1 => finder_changes w w1) w.
Proof.
  unfold PsychVideoFindFormat7Mode.
  wp_step. wp_step. wp_step. wp_step.
  1: wp_step.
  wp_step. wp_step. wp_step.
  2: wp_step.
  wp_step. wp_step.
  eapply wp_consequence; [apply f7_probe_modes_changes|].
  intros st w1 [hw1 ->].
  destruct w as [cd ft ld n h c r m]. destruct cd. world_norm.
  wp_step.
  - wp_step. unfold finder_changes. do 8 eexists. world_norm. reflexivity.
  - wp_step. wp_step. wp_step. wp_step. wp_step. wp_step. wp_step.
    eapply wp_consequence; [apply match_reqlayers_changes|].
    intros [] w2 (req & con' & ->). world_norm.
    wp_run; unfold finder_changes; do 8 eexists; world_norm; reflexivity.
Qed.

Lemma nonformat7_finder_changes env rate w :
  wp (PsychVideoFindNonFormat7Mode env rate) (fun _ w1 => finder_changes w w1) w.
Proof.
  unfold PsychVideoFindNonFormat7Mode.
  destruct w as [cd ft ld n h c r m]. destruct cd.
  wp_step. wp_step. wp_step; [|wp_step].
  wp_step. wp_step.
  1: wp_step.
  wp_step. wp_step. wp_step. wp_step. wp_step. wp_step.
  eapply wp_consequence; [apply match_reqlayers_changes|].
  intros [] w2 (req & con' & ->). world_norm.
  wp_run; unfold finder_changes; do 8 eexists; world_norm; reflexivity.
Qed.

Lemma finder_changes_refl w : finder_changes w w.
Proof.
  destruct w as [cd ft ld n h c r m]. destruct cd.
  unfold finder_changes. do 8 eexists. world_norm. reflexivity.
Qed.

Lemma finder_changes_trans w1 w2 w3 :
  finder_changes w1 w2 -> finder_changes w2 w3 -> finder_changes w1 w3.
Proof.
  destruct w1 as [cd ft ld n h c r m]. destruct cd.
  intros (a1 & a2 & a3 & a4 & a5 & a6 & a7 & a8 & ->).
  intros (b1 & b2 & b3 & b4 & b5 & b6 & b7 & b8 & ->).
  unfold finder_changes. do 8 eexists. world_norm. reflexivity.
Qed.

(** A statement that only talks to the camera and the console. *)
Ltac wp_hw_only :=
  lazymatch goal with
  | |- wp (bind ?c _) _ ?W =>
      apply wp_bind;
      apply wp_consequence
        with (R := fun _ w1 => exists hw' con', w1 = with_hw hw' (with_console con' W));
      [ solve [wp_run; do 2 eexists; world_norm; reflexivity]
      | let hw' := fresh "hw" in
        let con' := fresh "con" in
        intros ? ? (hw' & con' & ->); world_norm ]
  end.

Lemma bus_broadcast_changes env enable w :
  wp (PsychDCEnableBusBroadcast env enable)
     (fun _ w1 => exists hw' con', w1 = with_hw hw' (with_console con' w)) w.
Proof.
  destruct w as [cd ft ld n h c r m]. unfold PsychDCEnableBusBroadcast.
  wp_run; do 2 eexists; world_norm; reflexivity.
Qed.

Lemma soft_sync_slaves_changes env on msg slaves : forall w,
  wp (switch_soft_sync_slaves env slaves on msg)
     (fun _ w1 => exists hw' con', w1 = with_hw hw' (with_console con' w)) w.
Proof.
  induction slaves as [|i rest IH]; intros w; cbn [switch_soft_sync_slaves].
  - apply wp_ret. exists (hw w), (console w). now destruct w.
  - wp_step. wp_step. wp_step; [wp_step|].
    eapply wp_consequence; [apply IH|].
    intros [] w1 (hw' & con' & ->). do 2 eexists. destruct w. world_norm. reflexivity.
Qed.

(** The computations proved to touch only the camera and the console are
    stepped over with their lemma. *)
Ltac wp_call :=
  lazymatch goal with
  | |- wp (PsychDCEnableBusBroadcast _ _) _ _ =>
      eapply wp_consequence;
      [ apply bus_broadcast_changes | intros ? ? (? & ? & ->); world_norm ]
  | |- wp (switch_soft_sync_slaves _ _ _ _) _ _ =>
      eapply wp_consequence;
      [ apply soft_sync_slaves_changes | intros ? ? (? & ? & ->); world_norm ]
  | _ => wp_step
  end.

Ltac wp_hw_block :=
  lazymatch goal with
  | |- wp (bind ?c _) _ ?W =>
      apply wp_bind;
      apply wp_consequence
        with (R := fun _ w1 => exists hw' con', w1 = with_hw hw' (with_console con' W));
      [ solve [repeat wp_call; do 2 eexists; world_norm; reflexivity]
      | let hw' := fresh "hw" in
        let con' := fresh "con" in
        intros ? ? (hw' & con' & ->); world_norm ]
  end.

(** Step over the statements that leave the capture record alone. *)
Ltac wp_simple :=
  lazymatch goal with
  | |- wp (bind ?c _) _ _ =>
      lazymatch c with
      | assign _ => idtac
      | get_capdev => idtac
      | put_world _ => idtac
      | get_world => idtac
      | ret _ => idtac
      | dc _ _ => idtac
      end;
      apply wp_bind; wp_step
  end.

Ltac wp_auto := repeat first [wp_simple | wp_hw_block].

Lemma start_capture_spec env capturehandle capturerate dropframes_ w :
  wp (start_capture env capturehandle capturerate dropframes_)
     (fun _ w' =>
        let cd := capdev w in
        let cd' := capdev w' in
        let cc := color_coding_of_mode env (dc_imageformat cd') in
        grabber_active cd = 0
        /\ grabber_active cd' = 1
        /\ bitdepth cd' = (if dc_succeeds env video_get_data_depth
                           then data_depth env else bitdepth cd)
        /\ colormode cd' = Some cc
        /\ convframe cd'
           = (if (actuallayers cd' =? 3)
                 && negb (coding_eqb cc DC1394.COLOR_CODING_RGB8)
                 && negb (coding_eqb cc DC1394.COLOR_CODING_RGB16)
              then Some (mkFrame [] 0 None 0 0) else convframe cd)
        /\ recording_active cd' = recording_active cd
        /\ recordingflags cd' = recordingflags cd
        /\ recorderThread cd'
           = (if recording_active cd && C.has_flag (recordingflags cd) 16
              then Some (mkThread (Some (2, 1))) else recorderThread cd)
        /\ (recording_active cd = true ->
            moviehandle cd' = movie_create env /\ movie_create env <> -1
            /\ movie w' = [])
        /\ (recording_active cd = false -> moviehandle cd' = moviehandle cd)
        /\ framecounter cd' = framecounter cd) w.
Proof.
  unfold start_capture.
  wp_step. wp_step. wp_step. wp_step; [wp_step|wp_step].
  wp_step. wp_step. wp_step. wp_step. wp_step.
  (* mode selection *)
  apply wp_consequence with (R := fun _ w1 =>
    finder_changes
      (with_capdev (set_frame_ready 0 (set_nr_droppedframes 0 (capdev w))) w) w1).
  { destruct (_ || _).
    - wp_step.
      eapply wp_consequence; [apply format7_finder_changes|].
      intros ps w1 H1. wp_step.
      + wp_step.
        eapply wp_consequence; [apply nonformat7_finder_changes|].
        intros ? w2 H2. wp_step. exact (finder_changes_trans _ _ _ H1 H2).
      + wp_step. exact H1.
    - wp_step.
      eapply wp_consequence; [apply nonformat7_finder_changes|].
      intros ? w2 H2. wp_step. exact H2. }
  intros packetsize w1 H1.
  destruct w as [cd ft ld n h c r m]. destruct cd.
  world_norm_in H1.
  destruct H1 as (fmt & rate & layers & req & roi & fps_ & hw1 & con1 & ->).
  world_norm. world_norm_in Heqb.
  wp_auto. wp_run.
  all: world_norm.
  all: assert (grabber_active0 = 0)
         by (unfold C.truthy in Heqb; apply negb_false_iff, Z.eqb_eq in Heqb;
             exact Heqb).
  all: destruct (dc_succeeds env video_get_data_depth); try discriminate.
  all: rewrite ?Heqb1.
  all: repeat match goal with
              | |- _ /\ _ => split
              | |- _ <> _ => apply Z.eqb_neq; assumption
              | |- _ = _ -> _ => intros ?
              end; try reflexivity; try assumption; try discriminate.
Qed.


Lemma stop_capture_spec env capturehandle w :
  wp (stop_capture env capturehandle)
     (fun _ w' =>
        let cd := capdev w in
        let cd' := capdev w' in
        if C.truthy (grabber_active cd) then
          grabber_active cd' = 0
          /\ convframe cd' = None
          /\ current_frame cd' = None
          /\ recorderThread cd'
             = (if recording_active cd && (moviehandle cd >? -1)
                   && C.has_flag (recordingflags cd) 16
                then None else recorderThread cd)
          /\ recording_active cd' = recording_active cd
          /\ recordingflags cd' = recordingflags cd
          /\ bitdepth cd' = bitdepth cd
          /\ framecounter cd' = framecounter cd
        else w' = w) w.
Proof.
  unfold stop_capture.
  destruct w as [cd ft ld n h c r m]. destruct cd.
  wp_step. wp_step. world_norm.
  destruct (C.truthy grabber_active0) eqn:Hactive; [|wp_step; reflexivity].
  wp_auto. wp_run.
  all: world_norm; repeat split; reflexivity.
Qed.

Lemma capture_rate_start_spec env capturehandle capturerate dropframes_ w :
  Flt.gt capturerate (Flt.double_of_int 0) = true ->
  wp (PsychDCVideoCaptureRate env capturehandle capturerate dropframes_)
     (fun _ w' =>
        let cd := capdev w in
        let cd' := capdev w' in
        let cc := color_coding_of_mode env (dc_imageformat cd') in
        grabber_active cd = 0
        /\ grabber_active cd' = 1
        /\ bitdepth cd' = (if dc_succeeds env video_get_data_depth
                           then data_depth env else bitdepth cd)
        /\ colormode cd' = Some cc
        /\ convframe cd'
           = (if (actuallayers cd' =? 3)
                 && negb (coding_eqb cc DC1394.COLOR_CODING_RGB8)
                 && negb (coding_eqb cc DC1394.COLOR_CODING_RGB16)
              then Some (mkFrame [] 0 None 0 0) else convframe cd)
        /\ recording_active cd' = recording_active cd
        /\ recordingflags cd' = recordingflags cd
        /\ recorderThread cd'
           = (if recording_active cd && C.has_flag (recordingflags cd) 16
              then Some (mkThread (Some (2, 1))) else recorderThread cd)
        /\ (recording_active cd = true ->
            moviehandle cd' = movie_create env /\ movie_create env <> -1
            /\ movie w' = [])
        /\ (recording_active cd = false -> moviehandle cd' = moviehandle cd)
        /\ framecounter cd' = framecounter cd) w.
Proof.
  intros Hstart. unfold PsychDCVideoCaptureRate, PsychGetVidcapRecord.
  rewrite Hstart.
  wp_run.
  eapply wp_consequence; [apply start_capture_spec|].
  cbv beta zeta. intros [] w1 H1.
  destruct w1 as [cd1 ft1 ld1 n1 h1 c1 r1 m1]. destruct cd1.
  world_norm_in H1.
  wp_run; world_norm; exact H1.
Qed.

Lemma capture_rate_stop_spec env capturehandle capturerate dropframes_ w :
  Flt.gt capturerate (Flt.double_of_int 0) = false ->
  wp (PsychDCVideoCaptureRate env capturehandle capturerate dropframes_)
     (fun _ w' =>
        let cd := capdev w in
        let cd' := capdev w' in
        if C.truthy (grabber_active cd) then
          grabber_active cd' = 0
          /\ convframe cd' = None
          /\ current_frame cd' = None
          /\ recorderThread cd'
             = (if recording_active cd && (moviehandle cd >? -1)
                   && C.has_flag (recordingflags cd) 16
                then None else recorderThread cd)
          /\ recording_active cd' = recording_active cd
          /\ recordingflags cd' = recordingflags cd
          /\ bitdepth cd' = bitdepth cd
          /\ framecounter cd' = framecounter cd
        else
          grabber_active cd' = grabber_active cd
          /\ convframe cd' = convframe cd
          /\ recorderThread cd' = recorderThread cd
          /\ recording_active cd' = recording_active cd
          /\ recordingflags cd' = recordingflags cd
          /\ bitdepth cd' = bitdepth cd
          /\ moviehandle cd' = moviehandle cd
          /\ framecounter cd' = framecounter cd) w.
Proof.
  intros Hstop. unfold PsychDCVideoCaptureRate, PsychGetVidcapRecord.
  rewrite Hstop.
  wp_run.
  eapply wp_consequence; [apply stop_capture_spec|].
  cbv beta zeta. intros dropped w1 H1.
  destruct (C.truthy (grabber_active (capdev w))).
  - destruct w1 as [cd1 ft1 ld1 n1 h1 c1 r1 m1]. destruct cd1.
    world_norm_in H1.
    wp_run; world_norm; exact H1.
  - subst w1. destruct w as [cd ft ld n h c r m]. destruct cd.
    wp_run; world_norm; repeat split; reflexivity.
Qed.

(** ** Bit depth and DMA buffers requested at open *)

(** C10: every call of open that returns stores a bit depth of exactly 8
    when the requested value is at most 8 and of exactly 16 otherwise, and
    replaces a request of zero or fewer DMA buffers by 8 buffers; the
    stored bit depth stays until a start that returns replaces it by the
    data depth the camera reports for the mode (and keeps it when that
    query fails). *)
Theorem C10_open_thresholds_bitdepth_and_dma_buffers (env : Environment) :
  (forall slotid deviceIndex rect reqdepth num_dma movie flags bpc w h w',
      PsychDCOpenVideoCaptureDevice env slotid deviceIndex rect reqdepth num_dma
        movie flags bpc w = (Returns h, w') ->
      (bpc <= 8 -> bitdepth (capdev w') = 8)
      /\ (8 < bpc -> bitdepth (capdev w') = 16)
      /\ (num_dma <= 0 -> num_dmabuffers (capdev w') = 8)
      /\ (0 < num_dma -> num_dmabuffers (capdev w') = num_dma))
  /\ (forall capturehandle capturerate dropframes_ w r w',
         Flt.gt capturerate (Flt.double_of_int 0) = true ->
         PsychDCVideoCaptureRate env capturehandle capturerate dropframes_ w
         = (Returns r, w') ->
         (dc_succeeds env video_get_data_depth = true ->
          bitdepth (capdev w') = data_depth env)
         /\ (dc_succeeds env video_get_data_depth = false ->
             bitdepth (capdev w') = bitdepth (capdev w))).
Proof.
  split.
  - intros slotid deviceIndex rect reqdepth num_dma movie flags bpc w h w' Hrun.
    destruct (wp_use _ _ _ _ _ (open_stores_request env slotid deviceIndex rect
                reqdepth num_dma movie flags bpc w) Hrun)
      as (Hdepth & Hdma & _).
    rewrite Hdepth, Hdma. repeat split; intros Hcase.
    + destruct (Z.leb_spec bpc 8); [reflexivity | lia].
    + destruct (Z.leb_spec bpc 8); [lia | reflexivity].
    + destruct (Z.gtb_spec num_dma 0); [lia | reflexivity].
    + destruct (Z.gtb_spec num_dma 0); [reflexivity | lia].
  - intros capturehandle capturerate dropframes_ w r w' Hstart Hrun.
    destruct (wp_use _ _ _ _ _ (capture_rate_start_spec env capturehandle
                capturerate dropframes_ w Hstart) Hrun)
      as (_ & _ & Hdepth & _).
    rewrite Hdepth. split; intros ->; reflexivity.
Qed.

Lemma C10_open_thresholds_bitdepth_witness :
  exists w',
    PsychDCOpenVideoCaptureDevice example_camera 0 (-1) None 3 0 None 0 12
      initial_world = (Returns 0, w')
    /\ bitdepth (capdev w') = 16 /\ num_dmabuffers (capdev w') = 8.
Proof.
  eexists. split; [vm_compute; reflexivity|].
  assert (Hrun : PsychDCOpenVideoCaptureDevice example_camera 0 (-1) None 3 0
                   None 0 12 initial_world
                 = (Returns 0, example_opened None None 0 12))
    by (vm_compute; reflexivity).
  destruct (proj1 (C10_open_thresholds_bitdepth_and_dma_buffers example_camera)
              _ _ _ _ _ _ _ _ _ _ _ Hrun) as (_ & H16 & H8 & _).
  split; [apply H16 | apply H8]; lia.
Defined.

(** ** The scratch frame of the colour conversion *)



(** ** The recorder thread *)




(** ** Copying pixels to the movie and to the raw buffer *)

Lemma push_frame_spec env input_image onMasterthread w :
  wp (PsychDCPushFrameToMovie env input_image onMasterthread)
     (fun pushed w' =>
        exists con',
          w' = with_console con'
                 (with_movie
                    (if pushed
                     then movie w
                          ++ [copy_pixels (bitdepth (capdev w))
                                (movie_bytes env (capdev w)) input_image]
                     else movie w) w)) w.
Proof.
  destruct w as [cd ft ld n h c r m].
  unfold PsychDCPushFrameToMovie, movie_bytes.
  destruct (movie_buffer env) as [framepixels [[[twidth theight] numChannels] bpc]].
  wp_run; world_norm; eexists; reflexivity.
Qed.

Lemma shift_sample_mod (bitdepth sample : Z) :
  0 <= 16 - bitdepth ->
  C.uint16 (Z.shiftl sample (16 - bitdepth))
  = (sample * 2 ^ (16 - bitdepth)) mod 2 ^ 16.
Proof.
  intros H. unfold C.uint16. now rewrite Z.shiftl_mul_pow2.
Qed.



(** ** Setting the synchronization mode *)

Lemma get_vidcap_record_valid env capturehandle w :
  0 <= capturehandle < PSYCH_MAX_CAPTUREDEVICES env ->
  valid (capdev w) <> 0 ->
  PsychGetVidcapRecord env capturehandle w = (Returns (capdev w), w).
Proof.
  intros Hrange Hvalid. unfold PsychGetVidcapRecord.
  destruct (Z.ltb_spec capturehandle 0); [lia|].
  destruct (Z.geb_spec capturehandle (PSYCH_MAX_CAPTUREDEVICES env)); [lia|].
  unfold bind, get_capdev.
  destruct (Z.eqb_spec (valid (capdev w)) 0); [contradiction|reflexivity].
Qed.

(** The sync mode values 0 .. 31 are passed as doubles without loss. *)
Lemma syncmode_value_roundtrip v :
  0 <= v < 32 ->
  Flt.ne (Flt.double_of_int v) Flt.DBL_MAX = true
  /\ Flt.int_of (Flt.dadd (Flt.double_of_int v) Flt.d0_5) = Some v.
Proof.
  intros Hrange.
  assert (Hcases : v = 0 \/ v = 1 \/ v = 2 \/ v = 3 \/ v = 4 \/ v = 5 \/ v = 6
                   \/ v = 7 \/ v = 8 \/ v = 9 \/ v = 10 \/ v = 11 \/ v = 12
                   \/ v = 13 \/ v = 14 \/ v = 15 \/ v = 16 \/ v = 17 \/ v = 18
                   \/ v = 19 \/ v = 20 \/ v = 21 \/ v = 22 \/ v = 23 \/ v = 24
                   \/ v = 25 \/ v = 26 \/ v = 27 \/ v = 28 \/ v = 29 \/ v = 30
                   \/ v = 31) by lia.
  repeat (destruct Hcases as [->|Hcases]; [split; vm_compute; reflexivity|]).
  subst. split; vm_compute; reflexivity.
Qed.

Lemma syncmode_set_run env capturehandle v w :
  0 <= v < 32 ->
  0 <= capturehandle < PSYCH_MAX_CAPTUREDEVICES env ->
  valid (capdev w) <> 0 ->
  PsychDCVideoCaptureSetParameter_SyncMode env capturehandle
    (Flt.double_of_int v) w
  = let old := Flt.double_of_int (syncmode (capdev w)) in
    let master := Z.testbit v 0 in
    let slave := Z.testbit v 1 in
    let strategy := Z.land v 28 in
    if v =? 0 then (Returns old, with_capdev (set_syncmode v (capdev w)) w)
    else if master && slave then
      (ErrorExit "Invalid syncmode provided: Camera can't be master and slave at the same time!", w)
    else if negb master && negb slave then
      (ErrorExit "Invalid syncmode provided: Camera must be either master or slave. Can't be none of both!", w)
    else if (master && (strategy =? 0))
            || (slave && negb (strategy =? 4) && negb (strategy =? 8)
                      && negb (strategy =? 16)) then
      (ErrorExit "Invalid syncmode provided: Missing sync strategy, either soft-, or bus-, or hw-synced!", w)
    else if (v =? 18) && negb (trigger_present env) then (Returns old, w)
    else (Returns old, with_capdev (set_syncmode v (capdev w)) w).
Proof.
  intros Hv Hrange Hvalid.
  unfold PsychDCVideoCaptureSetParameter_SyncMode.
  destruct (Z.eqb_spec capturehandle (-1)); [lia|].
  unfold bind at 1. rewrite (get_vidcap_record_valid env capturehandle w Hrange Hvalid).
  destruct (syncmode_value_roundtrip v Hv) as [-> ->].
  assert (Hcases : v = 0 \/ v = 1 \/ v = 2 \/ v = 3 \/ v = 4 \/ v = 5 \/ v = 6
                   \/ v = 7 \/ v = 8 \/ v = 9 \/ v = 10 \/ v = 11 \/ v = 12
                   \/ v = 13 \/ v = 14 \/ v = 15 \/ v = 16 \/ v = 17 \/ v = 18
                   \/ v = 19 \/ v = 20 \/ v = 21 \/ v = 22 \/ v = 23 \/ v = 24
                   \/ v = 25 \/ v = 26 \/ v = 27 \/ v = 28 \/ v = 29 \/ v = 30
                   \/ v = 31) by lia.
  destruct (trigger_present env);
    repeat (destruct Hcases as [->|Hcases]; [reflexivity|]);
    subst; reflexivity.
Qed.

(** A sync master may combine several sync strategies: on the opened
    example camera the value 13 (master, soft and bus synced) is accepted
    and stored. *)
Lemma syncmode_master_with_two_strategies_is_accepted :
  exists old w',
    PsychDCVideoCaptureSetParameter_SyncMode example_camera 0
      (Flt.double_of_int
         (Z.lor kPsychIsSyncMaster (Z.lor kPsychIsSoftSynced kPsychIsBusSynced)))
      (example_opened None None 0 8) = (Returns old, w')
    /\ syncmode (capdev w') = 13.
Proof.
  do 2 eexists. split; vm_compute; reflexivity.
Qed.

(** X1: for a valid session and every bitset [v] over the five
    sync flags, setting SyncMode to [v]
    - stores [v] and returns the previous value when [v] is 0, or names
      the master role alone with at least one of the strategies soft, bus
      and hw, or names the slave role alone with exactly the strategy soft
      or exactly the strategy bus, or is slave with exactly hw on a camera
      that has the trigger feature;
    - returns the previous value and keeps the stored mode when [v] is
      slave with exactly hw and the camera lacks the trigger feature;
    - leaves through an error, with the stored mode unchanged, for every
      other [v]: both roles, no role with a non-zero value, a master without
      a strategy, a slave with none or with more than one strategy. *)
Theorem syncmode_accepts_exactly_the_legal_roles (env : Environment)
    capturehandle v w :
  0 <= v < 32 ->
  0 <= capturehandle < PSYCH_MAX_CAPTUREDEVICES env ->
  valid (capdev w) <> 0 ->
  let run := PsychDCVideoCaptureSetParameter_SyncMode env capturehandle
               (Flt.double_of_int v) w in
  let old := Flt.double_of_int (syncmode (capdev w)) in
  let master := Z.land v kPsychIsSyncMaster <> 0 in
  let slave := Z.land v kPsychIsSyncSlave <> 0 in
  let strategy := Z.land v 28 in
  ((v = 0
    \/ (master /\ ~ slave /\ strategy <> 0)
    \/ (slave /\ ~ master
        /\ (strategy = kPsychIsSoftSynced \/ strategy = kPsychIsBusSynced
            \/ (strategy = kPsychIsHwSynced /\ trigger_present env = true)))) ->
   run = (Returns old, with_capdev (set_syncmode v (capdev w)) w))
  /\ ((slave /\ ~ master /\ strategy = kPsychIsHwSynced
       /\ trigger_present env = false) ->
      run = (Returns old, w))
  /\ (((master /\ slave)
       \/ (v <> 0 /\ ~ master /\ ~ slave)
       \/ (master /\ ~ slave /\ strategy = 0)
       \/ (slave /\ ~ master /\ strategy <> kPsychIsSoftSynced
           /\ strategy <> kPsychIsBusSynced /\ strategy <> kPsychIsHwSynced)) ->
      exists msg, run = (ErrorExit msg, w)).
Proof.
  intros Hv Hrange Hvalid run old master slave strategy.
  subst run. rewrite (syncmode_set_run env capturehandle v w Hv Hrange Hvalid).
  subst old master slave strategy. cbv zeta.
  unfold kPsychIsSyncMaster, kPsychIsSyncSlave, kPsychIsSoftSynced,
    kPsychIsBusSynced, kPsychIsHwSynced.
  assert (Hcases : v = 0 \/ v = 1 \/ v = 2 \/ v = 3 \/ v = 4 \/ v = 5 \/ v = 6
                   \/ v = 7 \/ v = 8 \/ v = 9 \/ v = 10 \/ v = 11 \/ v = 12
                   \/ v = 13 \/ v = 14 \/ v = 15 \/ v = 16 \/ v = 17 \/ v = 18
                   \/ v = 19 \/ v = 20 \/ v = 21 \/ v = 22 \/ v = 23 \/ v = 24
                   \/ v = 25 \/ v = 26 \/ v = 27 \/ v = 28 \/ v = 29 \/ v = 30
                   \/ v = 31) by lia.
  destruct (trigger_present env);
    repeat (destruct Hcases as [->|Hcases];
            [cbn; repeat split; intros H; try reflexivity;
             try (eexists; reflexivity); exfalso; intuition (try congruence; try lia)|]);
    subst; cbn; repeat split; intros H; try reflexivity;
    try (eexists; reflexivity); exfalso; intuition (try congruence; try lia).
Qed.

Lemma syncmode_accepts_witness :
  exists w',
    0 <= 5 < 32
    /\ 0 <= 0 < PSYCH_MAX_CAPTUREDEVICES example_camera
    /\ valid (capdev (example_opened None None 0 8)) <> 0
    /\ PsychDCVideoCaptureSetParameter_SyncMode example_camera 0
         (Flt.double_of_int 5) (example_opened None None 0 8)
       = (Returns (Flt.double_of_int 0), w')
    /\ syncmode (capdev w') = 5.
Proof.
  assert (Hv : 0 <= 5 < 32) by lia.
  assert (Hh : 0 <= 0 < PSYCH_MAX_CAPTUREDEVICES example_camera)
    by (vm_compute; split; [discriminate | reflexivity]).
  assert (Hvalid : valid (capdev (example_opened None None 0 8)) <> 0)
    by (vm_compute; discriminate).
  eexists. split; [exact Hv|]. split; [exact Hh|]. split; [exact Hvalid|].
  split.
  - refine (eq_trans
              (proj1 (syncmode_accepts_exactly_the_legal_roles example_camera
                        0 5 (example_opened None None 0 8) Hv Hh Hvalid) _) _).
    + right. left. vm_compute.
      repeat split; intros H; try discriminate H; apply H; reflexivity.
    + vm_compute. reflexivity.
  - vm_compute. reflexivity.
Defined.

(** ** The framerate of a non-Format-7 mode *)

Lemma rate_le_value a b :
  rate_le a b <-> Flt.le (rate_value a) (rate_value b) = true.
Proof.
  unfold rate_le. destruct a, b; vm_compute; split; intros H; exact H.
Qed.

Lemma rate_le_refl a : rate_le a a.
Proof. destruct a; vm_compute; reflexivity. Qed.

Lemma rate_le_trans a b c : rate_le a b -> rate_le b c -> rate_le a c.
Proof.
  unfold rate_le. destruct a, b, c; vm_compute; intros H1 H2;
    first [reflexivity | discriminate].
Qed.

(** The probe returns the first rate of the table that meets the target,
    or the last rate of the table when none does. *)
Lemma probe_framerates_first rates : forall current capturerate,
  rates <> [] ->
  exists before r after,
    rates = (before ++ r :: after)%list
    /\ probe_framerates rates current capturerate = r
    /\ (forall r', In r' before -> meets r' capturerate = false)
    /\ (meets r capturerate = true
        \/ (meets r capturerate = false /\ after = [])).
Proof.
  induction rates as [|r rest IH]; intros current capturerate Hne;
    [contradiction|].
  cbn [probe_framerates]. fold (rate_value r). fold (meets r capturerate).
  destruct (meets r capturerate) eqn:Hmeets.
  - exists [], r, rest. repeat split; [intros r' []|now left].
  - destruct rest as [|r2 rest'].
    + exists [], r, []. repeat split; [intros r' []|now right].
    + destruct (IH r capturerate ltac:(discriminate))
        as (before & r0 & after & Heq & Hr0 & Hbefore & Hcase).
      exists (r :: before), r0, after. repeat split.
      * now rewrite Heq.
      * exact Hr0.
      * intros r' [<-|Hin]; [exact Hmeets|now apply Hbefore].
      * exact Hcase.
Qed.

Lemma sorted_split_le (before after : list DC1394.framerate_t) r :
  Sorted rate_le (before ++ r :: after)%list ->
  (forall r', In r' before -> rate_le r' r)
  /\ (forall r', In r' after -> rate_le r r').
Proof.
  intros Hsorted.
  assert (Hstrong : StronglySorted rate_le (before ++ r :: after)%list).
  { apply Sorted_StronglySorted; [|exact Hsorted].
    intros a b c. apply rate_le_trans. }
  clear Hsorted. induction before as [|b before IH]; cbn in Hstrong.
  - apply StronglySorted_inv in Hstrong as [_ Hall].
    split; [intros r' []|]. intros r' Hin.
    rewrite Forall_forall in Hall. now apply Hall.
  - apply StronglySorted_inv in Hstrong as [Hrest Hall].
    destruct (IH Hrest) as [Hb Ha]. split; [|exact Ha].
    intros r' [<-|Hin]; [|now apply Hb].
    rewrite Forall_forall in Hall. apply Hall, in_or_app. right. now left.
Qed.

Lemma match_reqlayers_console env w :
  wp (match_reqlayers env)
     (fun _ w1 => exists req lw,
        w1 = with_console (console w ++ lw)%list
               (with_capdev (set_reqlayers req (capdev w)) w)
        /\ (lw = [] \/ lw = [layers_warning])) w.
Proof.
  destruct w as [cd ft ld n h c r m]. destruct cd.
  unfold match_reqlayers.
  wp_run; world_norm.
  all: first [ exists actuallayers0, []; rewrite app_nil_r; split;
               [reflexivity | now left]
             | exists actuallayers0, [layers_warning]; split;
               [reflexivity | now right]
             | exists 3, []; rewrite app_nil_r; split;
               [reflexivity | now left] ].
Qed.

(** What [PsychVideoFindNonFormat7Mode] leaves when it returns: the mode
    found by the loop over the video modes, the framerate found by the
    final probe of the table of that mode, and the warning about the
    framerate when the rate is neither within 0.5 fps of the target nor
    the target is [DBL_MAX], and the rate is below the target. *)
Lemma nonformat7_result env capturerate w :
  wp (PsychVideoFindNonFormat7Mode env capturerate)
     (fun _ w' => exists st lw,
        nf7_probe_modes env (capdev w) capturerate
          (mkNf7 0 DC1394.VIDEO_MODE_MIN DC1394.FRAMERATE_15 false)
          (video_modes env) = Some st
        /\ mode_found st = true
        /\ dc_imageformat (capdev w') = maximgmode st
        /\ (let rate := probe_framerates
                          (supported_framerates env (maximgmode st))
                          (nf7_framerate st) capturerate in
            dc_framerate (capdev w') = Some rate
            /\ console w'
               = (console w ++ lw
                  ++ (if negb (Flt.lt (Flt.fabs (Flt.dsub (rate_value rate)
                                                   capturerate)) Flt.d0_5
                               || Flt.eq capturerate Flt.DBL_MAX)
                         && Flt.lt (rate_value rate) capturerate
                      then [framerate_warning] else []))%list)
        /\ (lw = [] \/ lw = [layers_warning])) w.
Proof.
  unfold PsychVideoFindNonFormat7Mode.
  destruct w as [cd ft ld n h c r m]. destruct cd.
  wp_step. wp_step. world_norm.
  match goal with
  | |- wp (match ?x with _ => _ end) _ _ => destruct x as [st|] eqn:Hloop
  end; [|wp_step].
  wp_step. wp_step; [wp_step|]. wp_step.
  wp_step. wp_step. wp_step. wp_step. wp_step.
  eapply wp_consequence; [apply match_reqlayers_console|].
  intros [] w2 (req & lw & -> & Hlw). world_norm.
  apply negb_false_iff in Heqb.
  wp_run; world_norm; exists st, lw; cbv zeta; unfold rate_value;
    repeat match goal with
           | H : _ = true |- _ => rewrite H; clear H
           | H : _ = false |- _ => rewrite H; clear H
           end;
    repeat split; try reflexivity; try assumption;
    cbn [negb andb]; rewrite ?app_nil_r, ?app_assoc; reflexivity.
Qed.

(** When no supported rate meets the target the maximum rate is selected,
    but the warning is not always reported.  A request for the fastest
    rate ([DBL_MAX]) on the example camera selects the maximum of 15 fps,
    which does not meet the target, and prints nothing. *)
Lemma nonformat7_fastest_request_reports_no_warning :
  exists w',
    PsychVideoFindNonFormat7Mode example_camera Flt.DBL_MAX
      (example_opened None None 0 8) = (Returns true, w')
    /\ dc_framerate (capdev w') = Some DC1394.FRAMERATE_15
    /\ (forall r,
          In r (supported_framerates example_camera (dc_imageformat (capdev w'))) ->
          meets r Flt.DBL_MAX = false)
    /\ console w' = console (example_opened None None 0 8).
Proof.
  eexists. split; [vm_compute; reflexivity|].
  split; [vm_compute; reflexivity|]. split; [|vm_compute; reflexivity].
  intros r Hin. vm_compute in Hin. destruct Hin as [<-|[]].
  vm_compute. reflexivity.
Qed.

(** X2: when [PsychVideoFindNonFormat7Mode] returns and the
    framerate table of the mode it selected is not empty and sorted
    ascending, the framerate it selected is the smallest supported rate
    whose value is greater than or equal to the target capture rate, and
    the maximum rate of the mode if no supported rate meets the target.
    The warning about the framerate is reported exactly when the selected
    rate is below the target, the target is not [DBL_MAX] and the rate is
    not within 0.5 fps of the target. *)
Theorem nonformat7_selects_smallest_sufficient_rate (env : Environment)
    capturerate w b w' :
  PsychVideoFindNonFormat7Mode env capturerate w = (Returns b, w') ->
  supported_framerates env (dc_imageformat (capdev w')) <> [] ->
  Sorted rate_le (supported_framerates env (dc_imageformat (capdev w'))) ->
  exists rate reported,
    dc_framerate (capdev w') = Some rate
    /\ In rate (supported_framerates env (dc_imageformat (capdev w')))
    /\ ((exists r', In r' (supported_framerates env (dc_imageformat (capdev w')))
                    /\ meets r' capturerate = true) ->
        meets rate capturerate = true
        /\ forall r', In r' (supported_framerates env (dc_imageformat (capdev w'))) ->
                      meets r' capturerate = true -> rate_le rate r')
    /\ ((forall r', In r' (supported_framerates env (dc_imageformat (capdev w'))) ->
                    meets r' capturerate = false) ->
        forall r', In r' (supported_framerates env (dc_imageformat (capdev w'))) ->
                   rate_le r' rate)
    /\ console w' = (console w ++ reported)%list
    /\ (In framerate_warning reported <->
        Flt.lt (rate_value rate) capturerate = true
        /\ Flt.eq capturerate Flt.DBL_MAX = false
        /\ Flt.lt (Flt.fabs (Flt.dsub (rate_value rate) capturerate)) Flt.d0_5
           = false).
Proof.
  intros Hrun Htable Hsorted.
  destruct (wp_use _ _ _ _ _ (nonformat7_result env capturerate w) Hrun)
    as (st & lw & _ & _ & Hmode & (Hrate & Hconsole) & Hlw).
  rewrite Hmode in *.
  set (table := supported_framerates env (maximgmode st)) in *.
  destruct (probe_framerates_first table (nf7_framerate st) capturerate Htable)
    as (before & rate & after & Hsplit & Hprobe & Hbefore & Hcase).
  rewrite Hprobe in Hrate, Hconsole.
  rewrite Hsplit in Hsorted.
  destruct (sorted_split_le before after rate Hsorted) as [Hlow Hhigh].
  exists rate. eexists. split; [exact Hrate|].
  split; [rewrite Hsplit; apply in_or_app; right; now left|].
  split; [|split; [|split; [exact Hconsole|]]].
  - intros (r' & Hin & Hr').
    assert (Hmeets : meets rate capturerate = true).
    { destruct Hcase as [H|[Hno ->]]; [exact H|].
      rewrite Hsplit in Hin. apply in_app_or in Hin as [Hin|[<-|[]]].
      - rewrite (Hbefore r' Hin) in Hr'. discriminate.
      - congruence. }
    split; [exact Hmeets|].
    intros r2 Hin2 Hr2. rewrite Hsplit in Hin2.
    apply in_app_or in Hin2 as [Hin2|[<-|Hin2]].
    + rewrite (Hbefore r2 Hin2) in Hr2. discriminate.
    + apply rate_le_refl.
    + now apply Hhigh.
  - intros Hnone r' Hin.
    destruct Hcase as [H|[_ ->]].
    + rewrite Hnone in H; [discriminate|].
      rewrite Hsplit. apply in_or_app. right. now left.
    + rewrite Hsplit in Hin. apply in_app_or in Hin as [Hin|[<-|[]]].
      * now apply Hlow.
      * apply rate_le_refl.
  - assert (Hdiff : layers_warning <> framerate_warning)
      by (vm_compute; discriminate).
    destruct (Flt.lt (Flt.fabs (Flt.dsub (rate_value rate) capturerate)) Flt.d0_5);
      destruct (Flt.eq capturerate Flt.DBL_MAX);
      destruct (Flt.lt (rate_value rate) capturerate);
      cbn [negb andb orb];
      destruct Hlw as [-> | ->]; cbn [app In];
      intuition (try congruence; try discriminate).
Qed.

Lemma nonformat7_rate_witness :
  exists w',
    PsychVideoFindNonFormat7Mode example_camera (fps_of 20)
      (example_opened (Some (PsychMakeRect 0 0 640 480)) None 0 8)
    = (Returns true, w')
    /\ dc_imageformat (capdev w') = 67
    /\ dc_framerate (capdev w') = Some DC1394.FRAMERATE_30
    /\ exists rate reported,
         dc_framerate (capdev w') = Some rate
         /\ In rate (supported_framerates example_camera (dc_imageformat (capdev w')))
         /\ console w'
            = (console (example_opened (Some (PsychMakeRect 0 0 640 480)) None 0 8)
               ++ reported)%list.
Proof.
  eexists. split; [vm_compute; reflexivity|].
  split; [vm_compute; reflexivity|]. split; [vm_compute; reflexivity|].
  assert (Hrun : PsychVideoFindNonFormat7Mode example_camera (fps_of 20)
                   (example_opened (Some (PsychMakeRect 0 0 640 480)) None 0 8)
                 = (Returns true,
                    snd (PsychVideoFindNonFormat7Mode example_camera (fps_of 20)
                           (example_opened (Some (PsychMakeRect 0 0 640 480))
                              None 0 8))))
    by (vm_compute; reflexivity).
  assert (Htable : supported_framerates example_camera
                     (dc_imageformat (capdev (snd (PsychVideoFindNonFormat7Mode
                        example_camera (fps_of 20)
                        (example_opened (Some (PsychMakeRect 0 0 640 480))
                           None 0 8))))) <> [])
    by (vm_compute; discriminate).
  assert (Hsorted : Sorted rate_le (supported_framerates example_camera
                     (dc_imageformat (capdev (snd (PsychVideoFindNonFormat7Mode
                        example_camera (fps_of 20)
                        (example_opened (Some (PsychMakeRect 0 0 640 480))
                           None 0 8)))))))
    by (vm_compute; repeat constructor).
  destruct (nonformat7_selects_smallest_sufficient_rate example_camera
              (fps_of 20) _ true _ Hrun Htable Hsorted)
    as (rate & reported & H1 & H2 & _ & _ & H5 & _).
  exists rate, reported. split; [exact H1|]. split; [exact H2|exact H5].
Defined.


(** ** The mode the non-Format-7 finder selects *)

Lemma C_uint32_int32 x : C.uint32 (C.int32 x) = C.uint32 x.
Proof.
  unfold C.uint32, C.int32.
  replace ((x + 2 ^ 31) mod 2 ^ 32 - 2 ^ 31)
    with ((x + 2 ^ 31) mod 2 ^ 32 + 2 ^ 31 + (-1) * 2 ^ 32) by lia.
  rewrite Z.mod_add by lia.
  rewrite Zplus_mod_idemp_l.
  replace (x + 2 ^ 31 + 2 ^ 31) with (x + 1 * 2 ^ 32) by lia.
  now rewrite Z.mod_add by lia.
Qed.

Lemma C_uint32_nonneg x : 0 <= C.uint32 x.
Proof.
  unfold C.uint32. apply Z.mod_pos_bound. lia.
Qed.

Ltac absurd_case :=
  let H := fresh in intros H; cbn in H; congruence.

(** One turn of the loop keeps the invariant, and in the search for the
    biggest mode never lowers the area. *)
Lemma nf7_probe_mode_keeps env cd capturerate st mode st' :
  In mode (video_modes env) ->
  nf7_probe_mode env cd capturerate st mode = Some st' ->
  nf7_invariant env cd st ->
  nf7_invariant env cd st'
  /\ (roi_unset cd = true ->
      C.uint32 (maximgarea st) <= C.uint32 (maximgarea st')
      /\ (nf7_candidate env cd mode ->
          mode_found st' = true
          /\ mode_area env mode <= C.uint32 (maximgarea st'))).
Proof.
  intros Hin Hstep Hinv.
  unfold nf7_probe_mode in Hstep. cbv zeta in Hstep.
  fold (roi_unset cd) in Hstep.
  destruct (Z.geb_spec mode DC1394.VIDEO_MODE_FORMAT7_MIN) as [Hf7|Hf7].
  { injection Hstep as <-.
    split; [exact Hinv|]. intros _. split; [lia|].
    intros (_ & Hlt & _). lia. }
  destruct (coding_rejected cd (color_coding_of_mode env mode)) eqn:Hcoding.
  { injection Hstep as <-.
    split; [exact Hinv|]. intros _. split; [lia|].
    intros (_ & _ & Hok). congruence. }
  assert (Hcand : nf7_candidate env cd mode) by (now split; [|split; [lia|]]).
  unfold mode_area.
  destruct (image_size_of_mode env mode) as [mw mh] eqn:Hsize.
  destruct (roi_unset cd) eqn:Hroi.
  - destruct (Z.ltb_spec (C.uint32 (mw * mh)) (C.uint32 (maximgarea st)))
      as [Hsmall|Hbig]; injection Hstep as <-.
    + split; [exact Hinv|]. intros _. split; [lia|].
      intros _. cbn [fst snd]. split; [|lia].
      destruct (mode_found st) eqn:Hfound; [reflexivity|].
      destruct Hinv as [Hzero _]. rewrite (Hzero Hfound) in Hsmall.
      pose proof (C_uint32_nonneg (mw * mh)).
      change (C.uint32 0) with 0 in Hsmall. lia.
    + unfold nf7_invariant. cbn [mode_found maximgmode maximgarea].
      split.
      * split; [absurd_case|].
        intros _. split; [exact Hcand|]. split; [|absurd_case].
        intros _. unfold mode_area. cbn [maximgarea maximgmode].
        rewrite C_uint32_int32, Hsize. reflexivity.
      * intros _. rewrite C_uint32_int32. split; [lia|].
        intros _. cbn [fst snd]. split; [reflexivity|lia].
  - destruct (negb (kPsychLeft (roirect cd) =? 0)
              || negb (kPsychTop (roirect cd) =? 0)
              || negb (C.int32 (PsychGetWidthFromRect (roirect cd)) =? C.int32 mw)
              || negb (C.int32 (PsychGetHeightFromRect (roirect cd)) =? C.int32 mh))
      eqn:Hmatch.
    { injection Hstep as <-. split; [exact Hinv|absurd_case]. }
    apply orb_false_iff in Hmatch as [Hmatch Hh].
    apply orb_false_iff in Hmatch as [Hmatch Hw].
    apply orb_false_iff in Hmatch as [Hleft Htop].
    apply negb_false_iff, Z.eqb_eq in Hleft, Htop, Hw, Hh.
    split; [|absurd_case].
    destruct (_ || _ || _) in Hstep.
    + destruct (Flt.int_of _) in Hstep; [|discriminate].
      injection Hstep as <-. unfold nf7_invariant.
      cbn [mode_found maximgmode maximgarea].
      split; [absurd_case|]. intros _.
      split; [exact Hcand|]. split; [absurd_case|]. intros _.
      unfold roi_matches. rewrite Hsize. cbn [fst snd]. now repeat split.
    + injection Hstep as <-. exact Hinv.
Qed.

(** Once a mode is found, a mode stays found. *)
Lemma nf7_probe_mode_found env cd capturerate st mode st' :
  nf7_probe_mode env cd capturerate st mode = Some st' ->
  mode_found st = true -> mode_found st' = true.
Proof.
  intros Hstep Hfound.
  unfold nf7_probe_mode in Hstep. cbv zeta in Hstep.
  repeat match type of Hstep with
         | (if ?b then _ else _) = _ => destruct b
         | (let '(_, _) := ?p in _) = _ => destruct p
         | match ?o with Some _ => _ | None => _ end = _ => destruct o
         end;
    try discriminate; injection Hstep as <-; cbn [mode_found];
    first [exact Hfound | reflexivity].
Qed.

Lemma nf7_probe_modes_found env cd capturerate modes : forall st st',
  nf7_probe_modes env cd capturerate st modes = Some st' ->
  mode_found st = true -> mode_found st' = true.
Proof.
  induction modes as [|mode rest IH]; intros st st' Hrun Hfound;
    cbn [nf7_probe_modes] in Hrun.
  - injection Hrun as <-. exact Hfound.
  - destruct (nf7_probe_mode env cd capturerate st mode) as [st1|] eqn:Hstep;
      [|discriminate].
    apply (IH st1 st' Hrun).
    exact (nf7_probe_mode_found env cd capturerate st mode st1 Hstep Hfound).
Qed.

Lemma nf7_probe_modes_keeps env cd capturerate modes : forall st st',
  incl modes (video_modes env) ->
  nf7_probe_modes env cd capturerate st modes = Some st' ->
  nf7_invariant env cd st ->
  nf7_invariant env cd st'
  /\ (roi_unset cd = true ->
      C.uint32 (maximgarea st) <= C.uint32 (maximgarea st')
      /\ forall mode, In mode modes -> nf7_candidate env cd mode ->
           mode_found st' = true
           /\ mode_area env mode <= C.uint32 (maximgarea st')).
Proof.
  induction modes as [|mode rest IH]; intros st st' Hincl Hrun Hinv;
    cbn [nf7_probe_modes] in Hrun.
  - injection Hrun as <-. split; [exact Hinv|].
    intros _. split; [lia|]. intros mode [].
  - destruct (nf7_probe_mode env cd capturerate st mode) as [st1|] eqn:Hstep;
      [|discriminate].
    destruct (nf7_probe_mode_keeps env cd capturerate st mode st1
                (Hincl mode (or_introl eq_refl)) Hstep Hinv) as [Hinv1 Hmono1].
    destruct (IH st1 st' (fun x Hx => Hincl x (or_intror Hx)) Hrun Hinv1)
      as [Hinv' Hmono'].
    split; [exact Hinv'|]. intros Hroi.
    destruct (Hmono1 Hroi) as [Hle1 Hmode1].
    destruct (Hmono' Hroi) as [Hle' Hrest].
    split; [lia|].
    intros m [<-|Hm] Hcand.
    + destruct (Hmode1 Hcand) as [Hfound1 Harea1].
      split; [|lia].
      exact (nf7_probe_modes_found env cd capturerate rest st1 st' Hrun Hfound1).
    + exact (Hrest m Hm Hcand).
Qed.

Lemma nonformat7_result_mode env capturerate w :
  wp (PsychVideoFindNonFormat7Mode env capturerate)
     (fun _ w' => exists st,
        nf7_probe_modes env (capdev w) capturerate
          (mkNf7 0 DC1394.VIDEO_MODE_MIN DC1394.FRAMERATE_15 false)
          (video_modes env) = Some st
        /\ mode_found st = true
        /\ dc_imageformat (capdev w') = maximgmode st
        /\ roirect (capdev w')
           = PsychMakeRect 0 0 (fst (image_size_of_mode env (maximgmode st)))
               (snd (image_size_of_mode env (maximgmode st)))) w.
Proof.
  unfold PsychVideoFindNonFormat7Mode.
  destruct w as [cd ft ld n h c r m]. destruct cd.
  wp_step. wp_step. world_norm.
  match goal with
  | |- wp (match ?x with _ => _ end) _ _ => destruct x as [st|] eqn:Hloop
  end; [|wp_step].
  wp_step. wp_step; [wp_step|]. wp_step.
  wp_step. wp_step. wp_step. wp_step. wp_step.
  eapply wp_consequence; [apply match_reqlayers_changes|].
  intros [] w2 (req & con' & ->). world_norm.
  apply negb_false_iff in Heqb.
  wp_run; world_norm; exists st;
    repeat match goal with
           | H : image_size_of_mode _ _ = _ |- _ => rewrite H; clear H
           end;
    repeat split; try reflexivity; assumption.
Qed.

(** X3: when [PsychVideoFindNonFormat7Mode] returns, the mode it
    stored is one of the video modes of the camera below the Format-7
    range whose colour coding passed the pixel format test, and the ROI of
    the record is set to the full image of that mode.  When no ROI was
    requested the mode has the biggest image area [mw * mh] (an
    [unsigned int]) of all such modes; when a ROI was requested the mode
    matches it exactly: the ROI starts at (0, 0) and has the width and
    height of the mode. *)
Theorem nonformat7_selects_admissible_mode (env : Environment)
    capturerate w b w' :
  PsychVideoFindNonFormat7Mode env capturerate w = (Returns b, w') ->
  let cd := capdev w in
  let mode := dc_imageformat (capdev w') in
  nf7_candidate env cd mode
  /\ roirect (capdev w')
     = PsychMakeRect 0 0 (fst (image_size_of_mode env mode))
         (snd (image_size_of_mode env mode))
  /\ (roi_unset cd = true ->
      forall mode', nf7_candidate env cd mode' ->
                    mode_area env mode' <= mode_area env mode)
  /\ (roi_unset cd = false -> roi_matches env cd mode).
Proof.
  intros Hrun cd mode.
  destruct (wp_use _ _ _ _ _ (nonformat7_result_mode env capturerate w) Hrun)
    as (st & Hloop & Hfound & Hmode & Hroi).
  subst mode. rewrite Hmode.
  destruct (nf7_probe_modes_keeps env cd capturerate (video_modes env) _ st
              (incl_refl _) Hloop) as [[_ Hsel] Hmax].
  { split; [reflexivity|absurd_case]. }
  destruct (Hsel Hfound) as (Hcand & Harea & Hmatch).
  split; [exact Hcand|]. split; [exact Hroi|]. split; [|exact Hmatch].
  intros Hunset mode' Hcand'.
  destruct (Hmax Hunset) as [_ Hall].
  destruct (Hall mode' (proj1 Hcand') Hcand') as [_ Hle].
  rewrite <- (Harea Hunset). exact Hle.
Qed.

Lemma nonformat7_selects_admissible_mode_witness :
  let w := example_opened None None 0 8 in
  let w' := snd (PsychVideoFindNonFormat7Mode example_camera (fps_of 15) w) in
  dc_imageformat (capdev w') = 75
  /\ nf7_candidate example_camera (capdev w) 75
  /\ roirect (capdev w') = PsychMakeRect 0 0 1024 768.
Proof.
  cbv zeta.
  assert (Hrun : PsychVideoFindNonFormat7Mode example_camera (fps_of 15)
                   (example_opened None None 0 8)
                 = (Returns true,
                    snd (PsychVideoFindNonFormat7Mode example_camera (fps_of 15)
                           (example_opened None None 0 8))))
    by (vm_compute; reflexivity).
  assert (Hfmt : dc_imageformat
                   (capdev (snd (PsychVideoFindNonFormat7Mode example_camera
                                   (fps_of 15) (example_opened None None 0 8))))
                 = 75) by (vm_compute; reflexivity).
  pose proof (nonformat7_selects_admissible_mode example_camera (fps_of 15) _ _ _
                Hrun) as H.
  cbv zeta in H. rewrite Hfmt in H.
  destruct H as (Hcand & Hroi & _ & _).
  split; [exact Hfmt|]. split; [exact Hcand|].
  rewrite Hroi. vm_compute. reflexivity.
Defined.

(** ** Loops that end *)

Lemma while_fuel_total {S : Type} (cond : S -> bool) (body : S -> S)
    (I : S -> Prop) (m : S -> nat) :
  (forall s, I s -> cond s = true -> I (body s) /\ (m (body s) < m s)%nat) ->
  forall fuel s, I s ->
    match while_fuel cond body fuel s with
    | inl r => I r /\ cond r = false
    | inr s' => I s' /\ (Pos.to_nat fuel + m s' <= m s)%nat
    end.
Proof.
  intros Hbody. induction fuel as [p IH|p IH|]; intros s Hs; cbn [while_fuel].
  - pose proof (IH s Hs) as H1.
    destruct (while_fuel cond body p s) as [r|s1]; [exact H1|].
    destruct H1 as [Hs1 Hm1]. pose proof (IH s1 Hs1) as H2.
    destruct (while_fuel cond body p s1) as [r|s2]; [exact H2|].
    destruct H2 as [Hs2 Hm2].
    destruct (cond s2) eqn:Hc; [|now split].
    destruct (Hbody s2 Hs2 Hc) as [Hs3 Hm3]. split; [exact Hs3|].
    rewrite Pos2Nat.inj_xI. lia.
  - pose proof (IH s Hs) as H1.
    destruct (while_fuel cond body p s) as [r|s1]; [exact H1|].
    destruct H1 as [Hs1 Hm1]. pose proof (IH s1 Hs1) as H2.
    destruct (while_fuel cond body p s1) as [r|s2]; [exact H2|].
    destruct H2 as [Hs2 Hm2]. split; [exact Hs2|].
    rewrite Pos2Nat.inj_xO. lia.
  - destruct (cond s) eqn:Hc; [|now split].
    destruct (Hbody s Hs Hc) as [Hs1 Hm1]. split; [exact Hs1|].
    change (Pos.to_nat 1) with 1%nat. lia.
Qed.

Lemma while_total {S : Type} (cond : S -> bool) (body : S -> S)
    (I : S -> Prop) (m : S -> nat) s :
  (forall s, I s -> cond s = true -> I (body s) /\ (m (body s) < m s)%nat) ->
  I s -> (m s < Pos.to_nat (2 ^ 32))%nat ->
  exists r, while cond body s = Some r /\ I r /\ cond r = false.
Proof.
  intros Hbody Hs Hm. unfold while.
  pose proof (while_fuel_total cond body I m Hbody (2 ^ 32)%positive s Hs) as H.
  destruct (while_fuel cond body (2 ^ 32) s) as [r|s1].
  - exists r. now split.
  - destruct H as [_ H]. lia.
Qed.

(** ** The iso packet size of a Format-7 mode *)

Lemma C_uint32_small x : 0 <= x < 2 ^ 32 -> C.uint32 x = x.
Proof. intros H. unfold C.uint32. now apply Z.mod_small. Qed.

Lemma C_int32_small x : - 2 ^ 31 <= x < 2 ^ 31 -> C.int32 x = x.
Proof. intros H. unfold C.int32. rewrite Z.mod_small; lia. Qed.

Lemma C_int32_range x : - 2 ^ 31 <= C.int32 x < 2 ^ 31.
Proof.
  unfold C.int32.
  pose proof (Z.mod_pos_bound (x + 2 ^ 31) (2 ^ 32) ltac:(lia)). lia.
Qed.

(** X4: the number of iso packets the Format-7 finder asks for,
    [(int) (1.0 / (bus_period * capturerate) + 0.5)] forced into
    [1 .. 4095] and multiplied by 8, is a multiple of 8 between 8 and
    32760, whatever the bus period and the requested rate are, as long as
    the conversion to [int] is defined. *)
Theorem format7_num_packets_in_range bus_period capturerate num_packets :
  f7_num_packets bus_period capturerate = Some num_packets ->
  8 <= num_packets <= 32760 /\ num_packets mod 8 = 0.
Proof.
  unfold f7_num_packets.
  destruct (Flt.int_of _) as [n|]; [|discriminate].
  intros [= <-].
  destruct (Z.ltb_spec n 1); cbn [orb].
  - rewrite C_int32_small by (cbn; lia). now cbn.
  - destruct (Z.gtb_spec n 4095).
    + rewrite C_int32_small by (cbn; lia). now cbn.
    + rewrite C_int32_small by lia. split; [lia|]. apply Z.mod_mul. lia.
Qed.

Lemma format7_num_packets_witness :
  f7_num_packets (bus_period_of DC1394.ISO_SPEED_400) (fps_of 60) = Some 1064
  /\ 8 <= 1064 <= 32760 /\ 1064 mod 8 = 0.
Proof.
  assert (H : f7_num_packets (bus_period_of DC1394.ISO_SPEED_400) (fps_of 60)
              = Some 1064) by (vm_compute; reflexivity).
  split; [exact H|].
  exact (format7_num_packets_in_range _ _ _ H).
Defined.

(** The packet size is defined whenever the product [w * h] fits an [int]
    and the number of packets is not zero; it is a multiple of [pbmin]
    in [pbmin .. pbmax]. *)
Lemma f7_packet_size_defined w h depth num_packets pbmin pbmax :
  0 < pbmin <= pbmax -> pbmax < 2 ^ 31 ->
  in_int_range (w * h) = true -> C.uint32 num_packets <> 0 ->
  exists packet_size,
    f7_packet_size w h depth num_packets pbmin pbmax = Some packet_size
    /\ pbmin <= packet_size <= pbmax
    /\ packet_size mod pbmin = 0.
Proof.
  intros Hpb Hmax Hwh Hnp.
  unfold f7_packet_size. cbv zeta. rewrite Hwh. cbn [negb orb].
  destruct (Z.eqb_spec (C.uint32 num_packets) 0); [contradiction|].
  set (p0 := C.int32 (C.uint32 (w * h * depth + num_packets - 1)
                      / C.uint32 num_packets)).
  pose proof (C_int32_range (C.uint32 (w * h * depth + num_packets - 1)
                             / C.uint32 num_packets)) as Hp0.
  fold p0 in Hp0.
  rewrite (C_int32_small pbmin) by lia.
  rewrite (C_int32_small pbmax) by lia.
  destruct (Z.eqb_spec pbmin 0); [lia|].
  set (p1 := if p0 <? pbmin then pbmin else p0).
  assert (Hp1 : pbmin <= p1 < 2 ^ 31)
    by (subst p1; destruct (Z.ltb_spec p0 pbmin); lia).
  rewrite (C_uint32_small p1) by lia.
  set (p2 := if negb (p1 mod pbmin =? 0)
             then C.int32 (C.uint32 (p1 - p1 mod pbmin)) else p1).
  assert (Hmod : 0 <= p1 mod pbmin < pbmin) by (apply Z.mod_pos_bound; lia).
  assert (Hp2 : pbmin <= p2 < 2 ^ 31 /\ p2 mod pbmin = 0).
  { subst p2. destruct (Z.eqb_spec (p1 mod pbmin) 0) as [Hrem|Hrem]; cbn [negb].
    - split; [lia|exact Hrem].
    - assert (Hdiv : p1 - p1 mod pbmin = pbmin * (p1 / pbmin))
        by (pose proof (Z.div_mod p1 pbmin); lia).
      assert (Hquot : 1 <= p1 / pbmin)
        by (apply Z.div_le_lower_bound; lia).
      rewrite C_uint32_small, C_int32_small by nia.
      split; [nia|]. rewrite Hdiv, Z.mul_comm. apply Z.mod_mul. lia. }
  destruct (while_total (fun ps => ps >? pbmax)
              (fun ps => C.int32 (C.uint32 (ps - pbmin)))
              (fun ps => pbmin <= ps < 2 ^ 31 /\ ps mod pbmin = 0)
              Z.to_nat p2) as (r & Hr & (Hrange & Hrmod) & Hexit).
  - intros ps [Hps Hpsmod] Hcond. apply Z.gtb_lt in Hcond.
    assert (Hdiv : ps = pbmin * (ps / pbmin))
      by (pose proof (Z.div_mod ps pbmin); lia).
    assert (Hquot : 2 <= ps / pbmin).
    { destruct (Z.le_gt_cases 2 (ps / pbmin)); [assumption|]. nia. }
    rewrite C_uint32_small, C_int32_small by nia.
    split; [split; [nia|]|lia].
    replace (ps - pbmin) with (ps + (-1) * pbmin) by lia.
    now rewrite Z.mod_add by lia.
  - exact Hp2.
  - apply Nat2Z.inj_lt. rewrite Z2Nat.id by lia.
    rewrite positive_nat_Z. change (Z.pos (2 ^ 32)) with (2 ^ 32). lia.
  - exists r. split; [exact Hr|]. split; [|exact Hrmod].
    destruct (Z.gtb_spec r pbmax); [discriminate|lia].
Qed.

Lemma f7_packet_size_some w h depth num_packets pbmin pbmax packet_size :
  0 < pbmin <= pbmax -> pbmax < 2 ^ 31 ->
  f7_packet_size w h depth num_packets pbmin pbmax = Some packet_size ->
  pbmin <= packet_size <= pbmax /\ packet_size mod pbmin = 0.
Proof.
  intros Hpb Hmax Hsome.
  assert (Hdef : in_int_range (w * h) = true /\ C.uint32 num_packets <> 0).
  { unfold f7_packet_size in Hsome.
    destruct (in_int_range (w * h)); [|discriminate].
    destruct (Z.eqb_spec (C.uint32 num_packets) 0); [discriminate|].
    now split. }
  destruct Hdef as [Hwh Hnp].
  destruct (f7_packet_size_defined w h depth num_packets pbmin pbmax
              Hpb Hmax Hwh Hnp) as (ps & Hps & Hbounds).
  rewrite Hps in Hsome. injection Hsome as <-. exact Hbounds.
Qed.

(** X5: for packet bounds [0 < pbmin <= pbmax] below 2^31, an image
    whose pixel count [w * h] fits an [int] and a number of packets that is
    not zero, the packet size computation of the Format-7 finder ends (its
    loop that steps down by [pbmin] terminates) and yields a multiple of
    [pbmin] that lies in [pbmin .. pbmax], also when the product with the
    pixel depth wraps around in [unsigned int]. *)
Theorem format7_packet_size_is_admissible w h depth num_packets pbmin pbmax :
  0 < pbmin <= pbmax -> pbmax < 2 ^ 31 ->
  in_int_range (w * h) = true -> C.uint32 num_packets <> 0 ->
  exists packet_size,
    f7_packet_size w h depth num_packets pbmin pbmax = Some packet_size
    /\ pbmin <= packet_size <= pbmax
    /\ packet_size mod pbmin = 0.
Proof.
  exact (f7_packet_size_defined w h depth num_packets pbmin pbmax).
Qed.

Lemma format7_packet_size_witness :
  exists packet_size,
    f7_packet_size 800 600 8 1064 4 8192 = Some packet_size
    /\ 4 <= packet_size <= 8192
    /\ packet_size mod 4 = 0.
Proof.
  refine (format7_packet_size_is_admissible 800 600 8 1064 4 8192 _ _ _ _).
  - lia.
  - lia.
  - vm_compute. reflexivity.
  - vm_compute. discriminate.
Defined.

(** X6: for a packet size that is positive with [packet_size * 8]
    in the [int] range, and an image of at most 2^32 - 8 * packet_size
    bits, the number of packets per frame the finder recomputes is the
    ceiling of the image size in bits over the bits of eight packets: the
    least [n] with [n * 8 * packet_size >= w * h * depth]. *)
Theorem format7_packets_per_frame_is_ceiling w h depth packet_size :
  0 < packet_size -> packet_size * 8 < 2 ^ 31 ->
  0 <= w * h * depth -> w * h * depth + packet_size * 8 - 1 < 2 ^ 32 ->
  exists n,
    f7_packets_per_frame w h depth packet_size = Some n
    /\ (n - 1) * (8 * packet_size) < w * h * depth <= n * (8 * packet_size).
Proof.
  intros Hps Hfit8 Hprod Hfit.
  unfold f7_packets_per_frame, in_int_range. cbv zeta.
  destruct (Z.leb_spec (- 2 ^ 31) (packet_size * 8)); [|lia].
  destruct (Z.ltb_spec (packet_size * 8) (2 ^ 31)); [|lia]. cbn [andb negb orb].
  rewrite (C_uint32_small (packet_size * 8)) by lia.
  destruct (Z.eqb_spec (packet_size * 8) 0); [lia|].
  rewrite C_uint32_small by lia.
  set (d := packet_size * 8) in *.
  set (a := w * h * depth) in *.
  assert (Hq : 0 <= (a + d - 1) / d < 2 ^ 31).
  { split; [apply Z.div_pos; lia|]. apply Z.div_lt_upper_bound; lia. }
  rewrite C_int32_small by lia.
  exists ((a + d - 1) / d). split; [reflexivity|].
  pose proof (Z.div_mod (a + d - 1) d ltac:(lia)) as Hdm.
  pose proof (Z.mod_pos_bound (a + d - 1) d ltac:(lia)) as Hmb.
  replace (8 * packet_size) with d by (subst d; lia). nia.
Qed.

Lemma format7_packets_per_frame_witness :
  exists n,
    f7_packets_per_frame 800 600 8 3608 = Some n
    /\ (n - 1) * (8 * 3608) < 800 * 600 * 8 <= n * (8 * 3608).
Proof.
  refine (format7_packets_per_frame_is_ceiling 800 600 8 3608 _ _ _ _); lia.
Defined.

(** ** The mode the Format-7 finder keeps *)

Lemma wp_conj {A : Type} (c : M A) (Q1 Q2 : A -> World -> Prop) w :
  wp c Q1 w -> wp c Q2 w -> wp c (fun a w' => Q1 a w' /\ Q2 a w') w.
Proof.
  intros H1 H2 a w' Hrun. split; [now apply H1|now apply H2].
Qed.

Lemma f7_probe_mode_keeps env cd bp rate st mode w :
  In mode (video_modes env) ->
  f7_kept env cd st ->
  wp (f7_probe_mode env cd bp rate st mode)
     (fun st' _ => f7_kept env cd st') w.
Proof.
  intros Hin Hkept.
  destruct w as [cd0 ft ld n h c r m].
  unfold f7_probe_mode, f7_skip.
  wp_run; try exact Hkept.
  all: right; cbn [minimgmode minpacket_size].
  all: repeat match goal with
         | H : negb _ = false |- _ => apply negb_false_iff in H
         | H : (_ || _) = false |- _ => apply orb_false_iff in H as [? ?]
         end.
  all: split; [assumption|]; split;
    [ match goal with
      | H1 : (?md <? _) = false, H2 : (?md >? _) = false |- _ =>
          apply Z.ltb_ge in H1;
          destruct (Z.gtb_spec md DC1394.VIDEO_MODE_FORMAT7_MAX);
          [discriminate|lia]
      end
    | split; [assumption|];
      unfold f7_packet_bounds;
      match goal with
      | H : format7_packet_para _ _ = _ |- _ => rewrite H
      end;
      cbn [fst snd];
      match goal with
      | H : f7_packet_size ?a ?b _ ?d _ _ = Some _ |- _ =>
          exists a, b, d; exact H
      end ].
Qed.

Lemma f7_probe_modes_keeps env cd bp rate modes : forall st w,
  incl modes (video_modes env) ->
  f7_kept env cd st ->
  wp (f7_probe_modes env cd bp rate st modes)
     (fun st' _ => f7_kept env cd st') w.
Proof.
  induction modes as [|mode rest IH]; intros st w Hincl Hkept;
    cbn [f7_probe_modes].
  - now apply wp_ret.
  - apply wp_bind.
    eapply wp_consequence.
    + apply f7_probe_mode_keeps; [|exact Hkept]. apply Hincl. now left.
    + intros st' w1 Hkept'. apply IH; [|exact Hkept'].
      intros x Hx. apply Hincl. now right.
Qed.

Lemma format7_result env capturerate w :
  wp (PsychVideoFindFormat7Mode env capturerate)
     (fun packet_size w' =>
        packet_size = 0
        \/ exists st,
             f7_kept env (capdev w) st
             /\ minimgmode st <> DC1394.VIDEO_MODE_MIN
             /\ packet_size = minpacket_size st
             /\ dc_imageformat (capdev w') = minimgmode st
             /\ dc_framerate (capdev w') = Some DC1394.FRAMERATE_MIN) w.
Proof.
  unfold PsychVideoFindFormat7Mode.
  wp_step. wp_step. wp_step. wp_step.
  1: wp_step.
  wp_step. wp_step. wp_step.
  2: wp_step.
  wp_step. wp_step.
  eapply wp_consequence.
  { apply wp_conj.
    - apply f7_probe_modes_changes.
    - apply (f7_probe_modes_keeps env (capdev w)).
      + apply incl_refl.
      + now left. }
  intros st w1 [[hw1 ->] Hkept].
  destruct w as [cd ft ld n h c r m]. destruct cd. world_norm. world_norm_in Hkept.
  wp_step.
  - wp_step. now left.
  - apply orb_false_iff in Heqb0 as [Hmode _]. apply Z.eqb_neq in Hmode.
    wp_step. wp_step. wp_step. wp_step. wp_step. wp_step. wp_step.
    eapply wp_consequence; [apply match_reqlayers_changes|].
    intros [] w2 (req & con' & ->). world_norm.
    wp_run; right; exists st; world_norm;
      repeat split; try reflexivity; assumption.
Qed.

(** X7: when [PsychVideoFindFormat7Mode] returns a packet size
    other than 0, the mode it stored in the capture record is one of the
    video modes of the camera, lies in the Format-7 range, has a colour
    coding that passed the pixel format test for the requested layers,
    the stored framerate code is [DC1394_FRAMERATE_MIN], and, for packet
    bounds [0 < pbmin <= pbmax < 2^31] of that mode (a reported [pbmin] of
    0 counting as [pbmax]), the returned packet size is a multiple of
    [pbmin] in [pbmin .. pbmax]. *)
Theorem format7_selects_admissible_mode (env : Environment)
    capturerate w packet_size w' :
  PsychVideoFindFormat7Mode env capturerate w = (Returns packet_size, w') ->
  packet_size <> 0 ->
  let mode := dc_imageformat (capdev w') in
  let pbmin := fst (f7_packet_bounds env mode) in
  let pbmax := snd (f7_packet_bounds env mode) in
  0 < pbmin <= pbmax -> pbmax < 2 ^ 31 ->
  In mode (video_modes env)
  /\ DC1394.VIDEO_MODE_FORMAT7_MIN <= mode <= DC1394.VIDEO_MODE_FORMAT7_MAX
  /\ coding_rejected (capdev w) (color_coding_of_mode env mode) = false
  /\ dc_framerate (capdev w') = Some DC1394.FRAMERATE_MIN
  /\ pbmin <= packet_size <= pbmax
  /\ packet_size mod pbmin = 0.
Proof.
  intros Hrun Hnz mode pbmin pbmax Hpb Hmax.
  destruct (wp_use _ _ _ _ _ (format7_result env capturerate w) Hrun)
    as [H0 | (st & Hkept & Hmode & Hps & Hfmt & Hrate)]; [contradiction|].
  destruct Hkept as [Hnone | (Hin & Hrange & Hcoding & ww & hh & np & Hsize)];
    [contradiction|].
  subst mode pbmin pbmax. rewrite Hfmt in *. rewrite Hps.
  split; [exact Hin|]. split; [exact Hrange|]. split; [exact Hcoding|].
  split; [exact Hrate|].
  exact (f7_packet_size_some _ _ _ _ _ _ _ Hpb Hmax Hsize).
Qed.

Lemma format7_selects_admissible_mode_witness :
  let w := example_opened_mono (Some (PsychMakeRect 0 0 800 600)) in
  let w' := snd (PsychVideoFindFormat7Mode example_camera (fps_of 60) w) in
  dc_imageformat (capdev w') = 88
  /\ In 88 (video_modes example_camera)
  /\ 4 <= 3608 <= 8192
  /\ 3608 mod 4 = 0.
Proof.
  cbv zeta.
  assert (Hrun : PsychVideoFindFormat7Mode example_camera (fps_of 60)
                   (example_opened_mono (Some (PsychMakeRect 0 0 800 600)))
                 = (Returns 3608,
                    snd (PsychVideoFindFormat7Mode example_camera (fps_of 60)
                           (example_opened_mono
                              (Some (PsychMakeRect 0 0 800 600))))))
    by (vm_compute; reflexivity).
  assert (Hfmt : dc_imageformat
                   (capdev (snd (PsychVideoFindFormat7Mode example_camera
                                   (fps_of 60)
                                   (example_opened_mono
                                      (Some (PsychMakeRect 0 0 800 600))))))
                 = 88) by (vm_compute; reflexivity).
  pose proof (format7_selects_admissible_mode example_camera (fps_of 60) _ 3608 _
                Hrun ltac:(discriminate)) as H.
  cbv zeta in H. rewrite Hfmt in H.
  specialize (H ltac:(vm_compute; split; [reflexivity|discriminate])
                ltac:(vm_compute; reflexivity)).
  destruct H as (Hin & _ & _ & _ & Hbounds & Hmod).
  split; [exact Hfmt|]. split; [exact Hin|].
  split; [exact Hbounds|exact Hmod].
Defined.

(** ** Running a computation *)

Ltac run_norm :=
  cbn beta iota delta [bind ret get_capdev assign get_world put_world printf
                       dc enqueue when fst snd negb andb orb];
  world_norm.

Lemma increment_run field set n w :
  in_int_range (field (capdev w) + n) = true ->
  increment field set n w
  = (Returns tt, with_capdev (set (field (capdev w) + n) (capdev w)) w).
Proof.
  intros Hrange. unfold increment, int_add. rewrite Hrange. reflexivity.
Qed.

Lemma in_int_range_true x : - 2 ^ 31 <= x < 2 ^ 31 -> in_int_range x = true.
Proof.
  intros H. unfold in_int_range.
  destruct (Z.leb_spec (- 2 ^ 31) x); [|lia].
  destruct (Z.ltb_spec x (2 ^ 31)); [reflexivity|lia].
Qed.

Lemma truthy_true x : x <> 0 -> C.truthy x = true.
Proof.
  intros H. unfold C.truthy. now destruct (Z.eqb_spec x 0).
Qed.

Lemma truthy_false x : C.truthy x = false -> x = 0.
Proof.
  unfold C.truthy. now destruct (Z.eqb_spec x 0).
Qed.

(** ** Fetching frames from the ring *)

Lemma dequeue_frame env policy w f rest :
  dc_succeeds env (capture_dequeue policy) = true ->
  ring w = f :: rest ->
  dequeue env policy w
  = (Returns true,
     with_capdev
       (set_frame (Some (dequeued f (List.length rest))) (capdev w))
       (with_ring rest (with_hw (hw w ++ [capture_dequeue policy]) w))).
Proof.
  intros Hok Hring. destruct w as [cd ft ld n h c r m]. cbn in Hring. subst r.
  unfold dequeue. run_norm. rewrite Hok. run_norm. reflexivity.
Qed.

Lemma dequeue_poll_empty env w :
  dc_succeeds env (capture_dequeue CAPTURE_POLICY_POLL) = true ->
  ring w = [] ->
  dequeue env CAPTURE_POLICY_POLL w
  = (Returns true,
     with_capdev (set_frame None (capdev w))
       (with_hw (hw w ++ [capture_dequeue CAPTURE_POLICY_POLL]) w)).
Proof.
  intros Hok Hring. destruct w as [cd ft ld n h c r m]. cbn in Hring. subst r.
  unfold dequeue. run_norm. rewrite Hok. run_norm. reflexivity.
Qed.

Lemma dequeue_wait_empty env w :
  dc_succeeds env (capture_dequeue CAPTURE_POLICY_WAIT) = true ->
  ring w = [] ->
  dequeue env CAPTURE_POLICY_WAIT w
  = (Waits, with_hw (hw w ++ [capture_dequeue CAPTURE_POLICY_WAIT]) w).
Proof.
  intros Hok Hring. destruct w as [cd ft ld n h c r m]. cbn in Hring. subst r.
  unfold dequeue. run_norm. rewrite Hok. run_norm. reflexivity.
Qed.

Lemma dequeue_spec env policy w :
  wp (dequeue env policy)
     (fun ok w' =>
        if ok then
          match ring w with
          | f :: rest =>
              w' = with_capdev
                     (set_frame (Some (dequeued f (List.length rest))) (capdev w))
                     (with_ring rest
                        (with_hw (hw w ++ [capture_dequeue policy]) w))
          | [] =>
              w' = with_capdev (set_frame None (capdev w))
                     (with_hw (hw w ++ [capture_dequeue policy]) w)
          end
        else w' = with_hw (hw w ++ [capture_dequeue policy]) w) w.
Proof.
  destruct w as [cd ft ld n h c r m]. unfold dequeue.
  destruct r as [|f rest]; wp_run; world_norm;
    try match goal with
        | H : ring _ = _ |- _ =>
            cbn in H; first [discriminate | injection H as <- <-]
        end;
    reflexivity.
Qed.

(** ** Converting and encoding a frame *)

Lemma preprocessed_dequeued env cd f behind :
  preprocessed env cd (dequeued f behind) = preprocessed env cd f.
Proof. reflexivity. Qed.

Lemma capture_format_kept_refl cd : capture_format_kept cd cd.
Proof. unfold capture_format_kept. tauto. Qed.

Lemma capture_format_kept_trans cd1 cd2 cd3 :
  capture_format_kept cd1 cd2 -> capture_format_kept cd2 cd3 ->
  capture_format_kept cd1 cd3.
Proof.
  unfold capture_format_kept.
  intros (a1 & a2 & a3 & a4 & a5 & a6 & a7 & a8 & a9 & a10 & a11 & a12 & a13 & a14)
         (b1 & b2 & b3 & b4 & b5 & b6 & b7 & b8 & b9 & b10 & b11 & b12 & b13 & b14).
  repeat split; try congruence; tauto.
Qed.

Lemma encoded_kept env cd cd' f :
  capture_format_kept cd cd' -> encoded env cd' f = encoded env cd f.
Proof.
  unfold capture_format_kept.
  intros (a1 & a2 & a3 & a4 & a5 & a6 & a7 & a8 & a9 & a10 & a11 & a12 & a13 & a14).
  unfold encoded, movie_bytes, preprocessed.
  rewrite a8, a7, a4, a5, a6.
  destruct (convframe cd') as [cf'|], (convframe cd) as [cf|]; try reflexivity.
  - destruct a14 as [_ H]. discriminate (H eq_refl).
  - destruct a14 as [H _]. discriminate (H eq_refl).
Qed.

Ltac kept_solve :=
  unfold capture_format_kept; world_norm;
  repeat match goal with
         | |- _ /\ _ => split
         | |- _ <-> _ => split; intros ?
         end;
  first [reflexivity | assumption | discriminate | congruence].

(** The same with an equivalence about the scratch frame at hand. *)
Ltac kept_auto :=
  unfold capture_format_kept; world_norm;
  repeat match goal with
         | |- _ /\ _ => split
         end;
  first [ reflexivity | assumption | tauto
        | split; intros ?; first [assumption | discriminate | congruence] ].

(** [PsychDCPreprocessFrame] hands on the preprocessed image of the frame
    in [capdev->frame] or fails; it changes the frame (the override of
    the Bayer pattern) and the contents of the scratch frame only. *)
Lemma preprocess_spec env w :
  wp (PsychDCPreprocessFrame env)
     (fun img w' =>
        exists fr fr' cf' hw' console',
          frame (capdev w) = Some fr
          /\ (img = Some (preprocessed env (capdev w) fr) \/ img = None)
          /\ (cf' = None <-> convframe (capdev w) = None)
          /\ image fr' = image fr
          /\ w' = with_console console'
                    (with_hw hw'
                       (with_capdev
                          (set_convframe cf' (set_frame (Some fr') (capdev w)))
                          w))) w.
Proof.
  destruct w as [cd ft ld n h c r m].
  unfold PsychDCPreprocessFrame, preprocessed.
  wp_run; world_norm;
    (match goal with H : frame _ = Some ?f |- _ => exists f end;
     repeat match goal with
            | |- context [if ?b then _ else _] => destruct b
            end;
     destruct cd;
     repeat match goal with H : _ = _ |- _ => progress world_norm_in H end;
     subst;
     do 4 eexists;
     (split; [reflexivity|])).
  all: (split; [first [left; reflexivity | right; reflexivity]|]).
  all: split; [|split; [|reflexivity]].
  all: try (split; intros ?; first [congruence | reflexivity]).
  all: reflexivity.
Qed.

Lemma last_cons_default {A : Type} (x : A) (l : list A) (d d' : A) :
  List.last (x :: l) d = List.last (x :: l) d'.
Proof.
  revert x. induction l as [|y l IH]; intros x; [reflexivity|].
  change (List.last (y :: l) d = List.last (y :: l) d'). apply IH.
Qed.

Lemma drop_queued_frames_done env turns w fr :
  frame (capdev w) = Some fr ->
  dropframes (capdev w) = 0 \/ frames_behind fr = 0 ->
  drop_queued_frames env turns w = (Returns tt, w).
Proof.
  intros Hframe Hdone.
  assert (Hcond : C.truthy (dropframes (capdev w))
                  && (C.int32 (frames_behind fr) >? 0) = false).
  { destruct Hdone as [-> | ->]; [reflexivity|]. apply andb_false_r. }
  destruct turns; cbn [drop_queued_frames]; unfold bind, get_capdev;
    rewrite Hframe, Hcond; reflexivity.
Qed.

Lemma drop_queued_frames_step env turns w fr f rest :
  frame (capdev w) = Some fr ->
  ring w = f :: rest ->
  dropframes (capdev w) <> 0 ->
  0 < frames_behind fr < 2 ^ 31 ->
  dc_succeeds env capture_enqueue = true ->
  dc_succeeds env (capture_dequeue CAPTURE_POLICY_POLL) = true ->
  - 2 ^ 31 <= framecounter (capdev w) + 1 < 2 ^ 31 ->
  drop_queued_frames env (S turns) w
  = drop_queued_frames env turns
      (with_capdev
         (set_framecounter (framecounter (capdev w) + 1)
            (set_frame (Some (dequeued f (List.length rest))) (capdev w)))
         (with_ring rest
            (with_hw (hw w ++ [capture_enqueue;
                               capture_dequeue CAPTURE_POLICY_POLL]) w))).
Proof.
  intros Hframe Hring Hdrop Hbehind Henq Hdeq Hfit.
  destruct w as [cd ft ld n h c r m]. cbn in Hframe, Hring, Hdrop, Hfit.
  subst r.
  cbn [drop_queued_frames]. unfold bind at 1. unfold get_capdev at 1.
  cbn [capdev]. rewrite Hframe.
  rewrite (truthy_true _ Hdrop), C_int32_small by lia. cbn [andb].
  destruct (Z.gtb_spec (frames_behind fr) 0) as [_|Hn]; [|lia].
  unfold enqueue. run_norm. rewrite Henq. run_norm.
  unfold bind at 1.
  erewrite dequeue_frame; [|exact Hdeq|reflexivity].
  run_norm. unfold bind at 1. run_norm. unfold bind at 1.
  rewrite increment_run by (apply in_int_range_true; destruct cd; exact Hfit).
  rewrite <- app_assoc. destruct cd. reflexivity.
Qed.

(** The loop that drops the queued frames empties the ring, counts every
    frame it fetches and adds nothing to the movie. *)
Lemma drop_queued_frames_run env turns :
  forall w fr,
    frame (capdev w) = Some fr ->
    frames_behind fr = Z.of_nat (List.length (ring w)) ->
    (List.length (ring w) <= turns)%nat ->
    dropframes (capdev w) <> 0 ->
    dc_succeeds env capture_enqueue = true ->
    dc_succeeds env (capture_dequeue CAPTURE_POLICY_POLL) = true ->
    0 <= framecounter (capdev w) ->
    framecounter (capdev w) + Z.of_nat (List.length (ring w)) < 2 ^ 31 ->
    exists hw',
      drop_queued_frames env turns w
      = (Returns tt,
         with_capdev
           (set_framecounter
              (framecounter (capdev w) + Z.of_nat (List.length (ring w)))
              (set_frame (Some (newest_frame fr (ring w))) (capdev w)))
           (with_ring [] (with_hw hw' w))).
Proof.
  induction turns as [|turns IH]; intros w fr Hframe Hbehind Hturns Hdrop Henq Hdeq
    Hcount Hfit.
  - destruct (ring w) as [|f rest] eqn:Hring; [|cbn in Hturns; lia].
    exists (hw w).
    rewrite (drop_queued_frames_done env 0 w fr Hframe (or_intror Hbehind)).
    destruct w as [cd ft ld n h c r m]. cbn in Hring, Hframe. subst r.
    destruct cd. cbn in Hframe. subst. cbn. rewrite Z.add_0_r. reflexivity.
  - destruct (ring w) as [|f rest] eqn:Hring.
    + exists (hw w).
      rewrite (drop_queued_frames_done env _ w fr Hframe (or_intror Hbehind)).
      destruct w as [cd ft ld n h c r m]. cbn in Hring, Hframe. subst r.
      destruct cd. cbn in Hframe. subst. cbn. rewrite Z.add_0_r. reflexivity.
    + cbn [List.length] in Hbehind, Hturns, Hfit.
      rewrite (drop_queued_frames_step env turns w fr f rest Hframe Hring Hdrop)
        by (try assumption; lia).
      edestruct (IH (with_capdev
         (set_framecounter (framecounter (capdev w) + 1)
            (set_frame (Some (dequeued f (List.length rest))) (capdev w)))
         (with_ring rest
            (with_hw (hw w ++ [capture_enqueue;
                               capture_dequeue CAPTURE_POLICY_POLL]) w)))
                    (dequeued f (List.length rest))) as [hw' Hrun].
      * destruct w as [cd ft ld n h c r m]; destruct cd; reflexivity.
      * destruct w as [cd ft ld n h c r m]; reflexivity.
      * destruct w as [cd ft ld n h c r m]; cbn; lia.
      * destruct w as [cd ft ld n h c r m]; destruct cd; exact Hdrop.
      * exact Henq.
      * exact Hdeq.
      * destruct w as [cd ft ld n h c r m]; destruct cd; cbn in *; lia.
      * destruct w as [cd ft ld n h c r m]; destruct cd; cbn in *; lia.
      * exists hw'. rewrite Hrun.
        destruct w as [cd ft ld n h c r m]. cbn in Hring. subst r.
        destruct cd. cbn [List.length].
        replace (Z.of_nat (S (List.length rest)))
          with (1 + Z.of_nat (List.length rest)) by lia.
        run_norm. rewrite Z.add_assoc.
        destruct rest as [|g rest']; [reflexivity|].
        unfold newest_frame.
        change (List.last (f :: g :: rest') fr) with (List.last (g :: rest') fr).
        rewrite (last_cons_default g rest' fr (dequeued f (List.length (g :: rest')))).
        reflexivity.
Qed.

(** ** Checking for a new image *)

Lemma get_texture_run env capturehandle checkForImage outrawbuffer w :
  0 <= capturehandle < PSYCH_MAX_CAPTUREDEVICES env ->
  valid (capdev w) <> 0 ->
  PsychDCGetTextureFromCapture env capturehandle checkForImage outrawbuffer w
  = let cd := capdev w in
    let header :=
      if outrawbuffer then
        Some (mkRaw (width cd) (height cd) (if actuallayers cd =? 3 then 3 else 1)
                (if bitdepth cd >? 8 then 16 else 8) [])
      else None in
    if checkForImage =? 4 then (Returns (0, header), w)
    else if C.truthy checkForImage then
      (r <- check_for_image env (checkForImage >? 1) ;; ret (r, header)) w
    else retrieve_image env outrawbuffer w.
Proof.
  intros Hrange Hvalid. unfold PsychDCGetTextureFromCapture.
  unfold bind at 1. rewrite (get_vidcap_record_valid env _ w Hrange Hvalid).
  cbv zeta. destruct (checkForImage =? 4); [reflexivity|].
  destruct (C.truthy checkForImage); reflexivity.
Qed.

Lemma check_stopped env waitforframe w :
  grabber_active (capdev w) = 0 ->
  check_for_image env waitforframe w = (Returns (-2), w).
Proof.
  intros H. unfold check_for_image. unfold bind, get_capdev. rewrite H.
  reflexivity.
Qed.

Lemma check_async_without_dropframes env waitforframe w :
  grabber_active (capdev w) <> 0 ->
  C.has_flag (recordingflags (capdev w)) 16 = true ->
  dropframes (capdev w) = 0 ->
  check_for_image env waitforframe w = (Returns (-1), w).
Proof.
  intros Hactive Hflag Hdrop. unfold check_for_image. unfold bind, get_capdev.
  apply Z.eqb_neq in Hactive. rewrite Hactive, Hflag, Hdrop. reflexivity.
Qed.

Lemma check_async_ready env waitforframe w :
  grabber_active (capdev w) <> 0 ->
  C.has_flag (recordingflags (capdev w)) 16 = true ->
  dropframes (capdev w) <> 0 ->
  frame_ready (capdev w) <> 0 ->
  check_for_image env waitforframe w
  = (Returns 0,
     with_capdev
       (set_frame_ready 0
          (set_current_dropped 0
             (set_pulled_dropped (current_dropped (capdev w))
                (set_current_frame None
                   (set_pulled_frame (current_frame (capdev w)) (capdev w))))))
       w).
Proof.
  intros Hactive Hflag Hdrop Hready. unfold check_for_image.
  destruct w as [cd ft ld n h c r m]. cbn [capdev] in *.
  apply Z.eqb_neq in Hactive.
  run_norm. rewrite Hactive, Hflag, (truthy_true _ Hdrop), (truthy_true _ Hready).
  run_norm. reflexivity.
Qed.

Lemma check_async_not_ready env w :
  grabber_active (capdev w) <> 0 ->
  C.has_flag (recordingflags (capdev w)) 16 = true ->
  dropframes (capdev w) <> 0 ->
  frame_ready (capdev w) = 0 ->
  check_for_image env false w = (Returns (-1), w)
  /\ check_for_image env true w
     = if wait_condition_rc env =? 0 then (Waits, w)
       else (Returns (-1),
             with_console
               (console w ++ ["PTB-ERROR: Waiting on video recorder thread to deliver new video frame failed. Aborting wait."])%list
               w).
Proof.
  intros Hactive Hflag Hdrop Hready. unfold check_for_image.
  destruct w as [cd ft ld n h c r m]. cbn [capdev] in *.
  apply Z.eqb_neq in Hactive.
  run_norm. rewrite Hactive, Hflag, (truthy_true _ Hdrop), Hready.
  run_norm. split; [reflexivity|].
  destruct (wait_condition_rc env =? 0); run_norm; reflexivity.
Qed.

Lemma check_sync_poll_empty env w :
  grabber_active (capdev w) <> 0 ->
  C.has_flag (recordingflags (capdev w)) 16 = false ->
  ring w = [] ->
  dc_succeeds env (capture_dequeue CAPTURE_POLICY_POLL) = true ->
  check_for_image env false w
  = (Returns (-1),
     with_capdev
       (set_pulled_dropped 0
          (set_frame_ready 0 (set_frame None (set_current_dropped 0 (capdev w)))))
       (with_hw (hw w ++ [capture_dequeue CAPTURE_POLICY_POLL]) w)).
Proof.
  intros Hactive Hflag Hring Hdeq. unfold check_for_image.
  destruct w as [cd ft ld n h c r m]. cbn [capdev ring] in *. subst r.
  apply Z.eqb_neq in Hactive.
  run_norm. rewrite Hactive, Hflag. run_norm.
  unfold bind. cbv beta.
  erewrite dequeue_poll_empty; [|exact Hdeq|reflexivity].
  run_norm. reflexivity.
Qed.

Lemma check_sync_wait_empty env w :
  grabber_active (capdev w) <> 0 ->
  C.has_flag (recordingflags (capdev w)) 16 = false ->
  ring w = [] ->
  dc_succeeds env (capture_dequeue CAPTURE_POLICY_WAIT) = true ->
  fst (check_for_image env true w) = Waits.
Proof.
  intros Hactive Hflag Hring Hdeq. unfold check_for_image.
  destruct w as [cd ft ld n h c r m]. cbn [capdev ring] in *. subst r.
  apply Z.eqb_neq in Hactive.
  run_norm. rewrite Hactive, Hflag. run_norm.
  unfold bind. cbv beta.
  erewrite dequeue_wait_empty; [|exact Hdeq|reflexivity].
  reflexivity.
Qed.


(** The world a check on the master thread leaves when it has fetched a
    frame and none is dropped. *)
Lemma check_sync_frame_kept env (waitforframe : bool) w f rest :
  grabber_active (capdev w) <> 0 ->
  C.has_flag (recordingflags (capdev w)) 16 = false ->
  ring w = f :: rest ->
  dc_succeeds env (capture_dequeue (if waitforframe then CAPTURE_POLICY_WAIT
                                    else CAPTURE_POLICY_POLL)) = true ->
  dropframes (capdev w) = 0 ->
  Z.of_nat (List.length rest) < 2 ^ 31 ->
  - 2 ^ 31 <= framecounter (capdev w) + 1 < 2 ^ 31 ->
  - 2 ^ 31 <= nrframes (capdev w) + 1 < 2 ^ 31 ->
  check_for_image env waitforframe w
  = (Returns 0,
     with_capdev
       (set_pulled_dropped (Z.of_nat (List.length rest))
          (set_framecounter (framecounter (capdev w) + 1)
             (set_nrframes (nrframes (capdev w) + 1)
                (set_current_dropped (Z.of_nat (List.length rest))
                   (set_frame_ready 1
                      (set_frame (Some (dequeued f (List.length rest)))
                         (capdev w)))))))
       (with_ring rest
          (with_hw (hw w ++ [capture_dequeue
                               (if waitforframe then CAPTURE_POLICY_WAIT
                                else CAPTURE_POLICY_POLL)]) w))).
Proof.
  intros Hactive Hflag Hring Hdeq Hdrop Hlen Hfit Hnr.
  unfold check_for_image.
  destruct w as [cd ft ld n h c r m]. cbn [capdev ring hw] in *. subst r.
  apply Z.eqb_neq in Hactive.
  run_norm. rewrite Hactive, Hflag. run_norm.
  destruct waitforframe; unfold bind; cbv beta;
    (erewrite dequeue_frame; [|exact Hdeq|reflexivity]); run_norm;
    cbn [frames_behind dequeued]; rewrite C_int32_small by lia;
    change (C.truthy 1) with true; run_norm;
    (erewrite drop_queued_frames_done;
       [|destruct cd; reflexivity|left; destruct cd; exact Hdrop]);
    rewrite increment_run by (apply in_int_range_true; destruct cd; exact Hnr);
    rewrite increment_run by (apply in_int_range_true; destruct cd; exact Hfit);
    destruct cd; run_norm; reflexivity.
Qed.

(** The world a check on the master thread leaves when it has fetched a
    frame with [dropframes] set: all queued frames are fetched, the
    newest one is kept. *)
Lemma check_sync_frame_dropped env (waitforframe : bool) w f rest :
  grabber_active (capdev w) <> 0 ->
  C.has_flag (recordingflags (capdev w)) 16 = false ->
  ring w = f :: rest ->
  dc_succeeds env (capture_dequeue (if waitforframe then CAPTURE_POLICY_WAIT
                                    else CAPTURE_POLICY_POLL)) = true ->
  dropframes (capdev w) <> 0 ->
  dc_succeeds env capture_enqueue = true ->
  dc_succeeds env (capture_dequeue CAPTURE_POLICY_POLL) = true ->
  0 <= framecounter (capdev w) ->
  framecounter (capdev w) + 1 + Z.of_nat (List.length rest) < 2 ^ 31 ->
  - 2 ^ 31 <= nrframes (capdev w) + 1 < 2 ^ 31 ->
  exists hw',
    check_for_image env waitforframe w
    = (Returns 0,
       with_capdev
         (set_pulled_dropped (Z.of_nat (List.length rest))
            (set_framecounter
               (framecounter (capdev w) + 1 + Z.of_nat (List.length rest))
               (set_nrframes (nrframes (capdev w) + 1)
                  (set_current_dropped (Z.of_nat (List.length rest))
                     (set_frame_ready 1
                        (set_frame
                           (Some (newest_frame (dequeued f (List.length rest))
                                    rest))
                           (capdev w)))))))
         (with_ring [] (with_hw hw' w))).
Proof.
  intros Hactive Hflag Hring Hdeq Hdrop Henq Hpoll Hcount Hfit Hnr.
  unfold check_for_image.
  destruct w as [cd ft ld n h c r m]. cbn [capdev ring hw] in *. subst r.
  apply Z.eqb_neq in Hactive.
  run_norm. rewrite Hactive, Hflag. run_norm.
  destruct waitforframe; unfold bind; cbv beta;
    (erewrite dequeue_frame; [|exact Hdeq|reflexivity]); run_norm;
    cbn [frames_behind dequeued]; rewrite C_int32_small by lia;
    change (C.truthy 1) with true; run_norm;
    match goal with
    | |- context [drop_queued_frames env ?t ?W] =>
        destruct (drop_queued_frames_run env t W (dequeued f (List.length rest)))
          as [hw' Hrun];
        [ destruct cd; reflexivity
        | reflexivity
        | cbn; lia
        | destruct cd; exact Hdrop
        | exact Henq
        | exact Hpoll
        | destruct cd; exact Hcount
        | destruct cd; cbn in *; lia
        | exists hw'; rewrite Hrun ]
    end;
    rewrite increment_run by (apply in_int_range_true; destruct cd; exact Hnr);
    rewrite increment_run
      by (apply in_int_range_true; destruct cd; cbn in *; lia);
    destruct cd; run_norm;
    match goal with
    | |- context [?a + Z.of_nat ?l + 1] =>
        replace (a + Z.of_nat l + 1) with (a + 1 + Z.of_nat l) by lia
    end;
    reflexivity.
Qed.

(** X8: for a valid handle, [PsychDCGetTextureFromCapture]
    - with [checkForImage] 4 returns 0 and changes nothing;
    - asked to check for an image ([checkForImage] neither 0 nor 4) on a
      stopped grabber returns -2 and changes nothing;
    - asked to check for an image while capture runs on the recorder
      thread (recording flag 16) without [dropframes] returns -1 and
      changes nothing, whether a frame is ready or not. *)
Theorem get_image_without_fetch (env : Environment) capturehandle
    checkForImage outrawbuffer w :
  0 <= capturehandle < PSYCH_MAX_CAPTUREDEVICES env ->
  valid (capdev w) <> 0 ->
  let cd := capdev w in
  let run := PsychDCGetTextureFromCapture env capturehandle checkForImage
               outrawbuffer w in
  (checkForImage = 4 -> exists header, run = (Returns (0, header), w))
  /\ (checkForImage <> 4 -> checkForImage <> 0 -> grabber_active cd = 0 ->
      exists header, run = (Returns (-2, header), w))
  /\ (checkForImage <> 4 -> checkForImage <> 0 -> grabber_active cd <> 0 ->
      C.has_flag (recordingflags cd) 16 = true -> dropframes cd = 0 ->
      exists header, run = (Returns (-1, header), w)).
Proof.
  intros Hrange Hvalid cd run. subst run.
  rewrite (get_texture_run env _ _ _ w Hrange Hvalid). cbv zeta.
  split; [|split].
  - intros ->. eexists. reflexivity.
  - intros H4 H0 Hstopped.
    apply Z.eqb_neq in H4. rewrite H4, (truthy_true _ H0).
    eexists. unfold bind. rewrite (check_stopped env _ w Hstopped). reflexivity.
  - intros H4 H0 Hactive Hflag Hdrop.
    apply Z.eqb_neq in H4. rewrite H4, (truthy_true _ H0).
    eexists. unfold bind.
    rewrite (check_async_without_dropframes env _ w Hactive Hflag Hdrop).
    reflexivity.
Qed.

Lemma get_image_without_fetch_witness :
  exists header,
    PsychDCGetTextureFromCapture example_camera 0 4 false
      (example_opened None None 0 8)
    = (Returns (0, header), example_opened None None 0 8).
Proof.
  assert (Hh : 0 <= 0 < PSYCH_MAX_CAPTUREDEVICES example_camera)
    by (vm_compute; split; [discriminate | reflexivity]).
  assert (Hvalid : valid (capdev (example_opened None None 0 8)) <> 0)
    by (vm_compute; discriminate).
  exact (proj1 (get_image_without_fetch example_camera 0 4 false
                  (example_opened None None 0 8) Hh Hvalid) eq_refl).
Defined.

(** X9: on a running grabber served by the master thread (recording
    flag 16 clear) whose DMA ring holds no frame, a poll ([checkForImage]
    at most 1, not 0) whose dequeue call succeeds returns -1: no frame is
    ready, [capdev->frame] is NULL, the dropped count of the cycle is 0,
    and the frame counter, the ring and the movie are as before.  A
    blocking check ([checkForImage] above 1, not 4) does not return: it
    waits for a frame. *)
Theorem sync_check_on_empty_ring (env : Environment) capturehandle
    checkForImage outrawbuffer w :
  0 <= capturehandle < PSYCH_MAX_CAPTUREDEVICES env ->
  valid (capdev w) <> 0 ->
  checkForImage <> 0 -> checkForImage <> 4 ->
  grabber_active (capdev w) <> 0 ->
  C.has_flag (recordingflags (capdev w)) 16 = false ->
  ring w = [] ->
  let run := PsychDCGetTextureFromCapture env capturehandle checkForImage
               outrawbuffer w in
  (checkForImage <= 1 ->
   dc_succeeds env (capture_dequeue CAPTURE_POLICY_POLL) = true ->
   exists header w',
     run = (Returns (-1, header), w')
     /\ frame_ready (capdev w') = 0
     /\ frame (capdev w') = None
     /\ pulled_dropped (capdev w') = 0
     /\ framecounter (capdev w') = framecounter (capdev w)
     /\ ring w' = []
     /\ movie w' = movie w)
  /\ (1 < checkForImage ->
      dc_succeeds env (capture_dequeue CAPTURE_POLICY_WAIT) = true ->
      fst run = Waits).
Proof.
  intros Hrange Hvalid H0 H4 Hactive Hflag Hring run. subst run.
  rewrite (get_texture_run env _ _ _ w Hrange Hvalid). cbv zeta.
  apply Z.eqb_neq in H4. rewrite H4, (truthy_true _ H0).
  split.
  - intros Hpoll Hdeq.
    destruct (Z.gtb_spec checkForImage 1) as [Hgt|_]; [lia|].
    unfold bind.
    rewrite (check_sync_poll_empty env w Hactive Hflag Hring Hdeq).
    do 2 eexists. split; [reflexivity|].
    destruct w as [cd ft ld n h c r m]. destruct cd. cbn in Hring. subst r.
    repeat split.
  - intros Hwait Hdeq.
    destruct (Z.gtb_spec checkForImage 1) as [_|Hle]; [|lia].
    unfold bind.
    pose proof (check_sync_wait_empty env w Hactive Hflag Hring Hdeq) as H.
    destruct (check_for_image env true w) as [o w1]. cbn in H. subst o.
    reflexivity.
Qed.

(** X10: on a running grabber served by the master thread whose
    DMA ring holds the frames [f :: rest], a check for an image whose
    libdc1394 calls succeed returns 0 with a frame ready; the dropped
    count of the cycle is the number of frames that were queued behind
    the first one, and nothing is added to the movie.  Without
    [dropframes] the oldest frame [f] is fetched and the others stay in
    the ring.  With [dropframes] all frames are fetched, each one is
    counted in [framecounter], the ring is left empty and the frame kept
    is the newest one. *)
Theorem sync_check_fetches_frame (env : Environment) capturehandle
    checkForImage outrawbuffer w f rest :
  0 <= capturehandle < PSYCH_MAX_CAPTUREDEVICES env ->
  valid (capdev w) <> 0 ->
  checkForImage <> 0 -> checkForImage <> 4 ->
  grabber_active (capdev w) <> 0 ->
  C.has_flag (recordingflags (capdev w)) 16 = false ->
  ring w = f :: rest ->
  dc_succeeds env (capture_dequeue (if checkForImage >? 1
                                    then CAPTURE_POLICY_WAIT
                                    else CAPTURE_POLICY_POLL)) = true ->
  (dropframes (capdev w) <> 0 ->
   dc_succeeds env capture_enqueue = true
   /\ dc_succeeds env (capture_dequeue CAPTURE_POLICY_POLL) = true) ->
  0 <= framecounter (capdev w) ->
  framecounter (capdev w) + 1 + Z.of_nat (List.length rest) < 2 ^ 31 ->
  - 2 ^ 31 <= nrframes (capdev w) + 1 < 2 ^ 31 ->
  exists header w',
    PsychDCGetTextureFromCapture env capturehandle checkForImage outrawbuffer w
    = (Returns (0, header), w')
    /\ frame_ready (capdev w') = 1
    /\ pulled_dropped (capdev w') = Z.of_nat (List.length rest)
    /\ nrframes (capdev w') = nrframes (capdev w) + 1
    /\ movie w' = movie w
    /\ (dropframes (capdev w) = 0 ->
        frame (capdev w') = Some (dequeued f (List.length rest))
        /\ ring w' = rest
        /\ framecounter (capdev w') = framecounter (capdev w) + 1)
    /\ (dropframes (capdev w) <> 0 ->
        frame (capdev w')
        = Some (newest_frame (dequeued f (List.length rest)) rest)
        /\ ring w' = []
        /\ framecounter (capdev w')
           = framecounter (capdev w) + 1 + Z.of_nat (List.length rest)).
Proof.
  intros Hrange Hvalid H0 H4 Hactive Hflag Hring Hdeq Hdrop Hcount Hfit Hnr.
  rewrite (get_texture_run env _ _ _ w Hrange Hvalid). cbv zeta.
  apply Z.eqb_neq in H4. rewrite H4, (truthy_true _ H0).
  unfold bind.
  destruct (Z.eq_dec (dropframes (capdev w)) 0) as [Hzero|Hnz].
  - rewrite (check_sync_frame_kept env (checkForImage >? 1) w f rest
               Hactive Hflag Hring Hdeq Hzero) by lia.
    do 2 eexists. split; [reflexivity|].
    destruct w as [cd ft ld n h c r m]. destruct cd.
    repeat split; intros; try reflexivity; contradiction.
  - destruct (Hdrop Hnz) as [Henq Hpoll].
    destruct (check_sync_frame_dropped env (checkForImage >? 1) w f rest
                Hactive Hflag Hring Hdeq Hnz Henq Hpoll Hcount Hfit Hnr)
      as [hw' ->].
    do 2 eexists. split; [reflexivity|].
    destruct w as [cd ft ld n h c r m]. destruct cd.
    repeat split; intros; try reflexivity; contradiction.
Qed.

(** X11: on a running grabber served by the recorder thread with
    [dropframes] set, a check for an image that finds a frame ready
    returns 0 and takes the frame over: the buffer and the dropped count
    of the recorder become the pulled ones and are reset, the ready flag
    is cleared, and the ring, the movie and the frame counter are left
    alone.  The frame is handed over once: a poll that follows at once
    returns -1 and changes nothing. *)
Theorem async_check_hands_frame_over_once (env : Environment) capturehandle
    checkForImage outrawbuffer w :
  0 <= capturehandle < PSYCH_MAX_CAPTUREDEVICES env ->
  valid (capdev w) <> 0 ->
  checkForImage <> 0 -> checkForImage <> 4 ->
  grabber_active (capdev w) <> 0 ->
  C.has_flag (recordingflags (capdev w)) 16 = true ->
  dropframes (capdev w) <> 0 ->
  frame_ready (capdev w) <> 0 ->
  exists header w',
    PsychDCGetTextureFromCapture env capturehandle checkForImage outrawbuffer w
    = (Returns (0, header), w')
    /\ pulled_frame (capdev w') = current_frame (capdev w)
    /\ current_frame (capdev w') = None
    /\ pulled_dropped (capdev w') = current_dropped (capdev w)
    /\ current_dropped (capdev w') = 0
    /\ frame_ready (capdev w') = 0
    /\ framecounter (capdev w') = framecounter (capdev w)
    /\ ring w' = ring w
    /\ movie w' = movie w
    /\ PsychDCGetTextureFromCapture env capturehandle 1 outrawbuffer w'
       = (Returns (-1, header), w').
Proof.
  intros Hrange Hvalid H0 H4 Hactive Hflag Hdrop Hready.
  rewrite (get_texture_run env _ _ _ w Hrange Hvalid). cbv zeta.
  apply Z.eqb_neq in H4. rewrite H4, (truthy_true _ H0).
  unfold bind.
  rewrite (check_async_ready env _ w Hactive Hflag Hdrop Hready).
  do 2 eexists. split; [reflexivity|].
  destruct w as [cd ft ld n h c r m]. destruct cd.
  cbn in Hvalid, Hactive, Hflag, Hdrop.
  do 8 (split; [reflexivity|]).
  rewrite get_texture_run by (try exact Hrange; exact Hvalid).
  cbv zeta. change (1 =? 4) with false. change (C.truthy 1) with true.
  cbv iota. unfold bind.
  change (1 >? 1) with false.
  match goal with
  | |- context [check_for_image env false ?W] =>
      rewrite (proj1 (check_async_not_ready env W Hactive Hflag Hdrop eq_refl))
  end.
  reflexivity.
Qed.

Lemma sync_check_on_empty_ring_witness :
  let w := with_capdev (set_grabber_active 1
                          (capdev (example_opened None None 0 8)))
             (example_opened None None 0 8) in
  exists header w',
    PsychDCGetTextureFromCapture example_camera 0 1 false w
    = (Returns (-1, header), w')
    /\ frame_ready (capdev w') = 0.
Proof.
  cbv zeta.
  destruct (proj1 (sync_check_on_empty_ring example_camera 0 1 false
                     (with_capdev (set_grabber_active 1
                                     (capdev (example_opened None None 0 8)))
                        (example_opened None None 0 8))
                     ltac:(vm_compute; split; [discriminate | reflexivity])
                     ltac:(vm_compute; discriminate)
                     ltac:(discriminate) ltac:(discriminate)
                     ltac:(vm_compute; discriminate)
                     ltac:(vm_compute; reflexivity)
                     ltac:(vm_compute; reflexivity))
                  ltac:(lia) ltac:(vm_compute; reflexivity))
    as (header & w' & Hrun & Hready & _).
  exists header, w'. split; [exact Hrun|exact Hready].
Defined.

Lemma sync_check_fetches_frame_witness :
  let w := with_ring [example_frame 10; example_frame 20; example_frame 30]
             (example_started None 0 1) in
  exists header w',
    PsychDCGetTextureFromCapture example_camera 0 1 false w
    = (Returns (0, header), w')
    /\ pulled_dropped (capdev w') = 2
    /\ ring w' = []
    /\ framecounter (capdev w') = 3
    /\ movie w' = [].
Proof.
  cbv zeta.
  destruct (sync_check_fetches_frame example_camera 0 1 false
              (with_ring [example_frame 10; example_frame 20; example_frame 30]
                 (example_started None 0 1))
              (example_frame 10) [example_frame 20; example_frame 30]
              ltac:(vm_compute; split; [discriminate | reflexivity])
              ltac:(vm_compute; discriminate)
              ltac:(discriminate) ltac:(discriminate)
              ltac:(vm_compute; discriminate)
              ltac:(vm_compute; reflexivity)
              ltac:(vm_compute; reflexivity)
              ltac:(vm_compute; reflexivity)
              ltac:(intros _; split; reflexivity)
              ltac:(vm_compute; discriminate)
              ltac:(vm_compute; reflexivity)
              ltac:(vm_compute; split; [discriminate | reflexivity]))
    as (header & w' & Hrun & _ & Hdropped & _ & Hmovie & _ & Hall).
  destruct (Hall ltac:(vm_compute; discriminate)) as (_ & Hring & Hcount).
  exists header, w'. split; [exact Hrun|].
  split; [exact Hdropped|]. split; [exact Hring|].
  split; [rewrite Hcount; vm_compute; reflexivity|].
  rewrite Hmovie. vm_compute. reflexivity.
Defined.

Lemma async_check_hands_frame_over_witness :
  let w0 := example_started (Some "m.mov") 16 1 in
  let w := with_capdev
             (set_current_frame (Some [1; 2; 3])
                (set_frame_ready 1 (capdev w0))) w0 in
  exists header w',
    PsychDCGetTextureFromCapture example_camera 0 1 false w
    = (Returns (0, header), w')
    /\ pulled_frame (capdev w') = Some [1; 2; 3]
    /\ frame_ready (capdev w') = 0.
Proof.
  cbv zeta.
  destruct (async_check_hands_frame_over_once example_camera 0 1 false
              (with_capdev
                 (set_current_frame (Some [1; 2; 3])
                    (set_frame_ready 1
                       (capdev (example_started (Some "m.mov") 16 1))))
                 (example_started (Some "m.mov") 16 1))
              ltac:(vm_compute; split; [discriminate | reflexivity])
              ltac:(vm_compute; discriminate)
              ltac:(discriminate) ltac:(discriminate)
              ltac:(vm_compute; discriminate)
              ltac:(vm_compute; reflexivity)
              ltac:(vm_compute; discriminate)
              ltac:(vm_compute; discriminate))
    as (header & w' & Hrun & Hpulled & _ & _ & _ & Hready & _).
  exists header, w'. split; [exact Hrun|].
  split; [rewrite Hpulled; vm_compute; reflexivity|exact Hready].
Defined.

(** ** Retrieving the image *)

(** On the master thread a push that returns has added the frame: every
    failure leaves through an error. *)
Lemma push_frame_master_spec env input_image w :
  wp (PsychDCPushFrameToMovie env input_image true)
     (fun pushed w' =>
        pushed = true
        /\ w' = with_movie
                  (movie w
                   ++ [copy_pixels (bitdepth (capdev w))
                         (movie_bytes env (capdev w)) input_image])%list w) w.
Proof.
  destruct w as [cd ft ld n h c r m].
  unfold PsychDCPushFrameToMovie, movie_bytes.
  destruct (movie_buffer env) as [framepixels [[[twidth theight] numChannels] bpc]].
  wp_run; world_norm; split; reflexivity.
Qed.

(** What the retrieval of an image leaves when it returns. *)
Lemma retrieve_spec env outrawbuffer w :
  wp (retrieve_image env outrawbuffer)
     (fun r w' =>
        let cd := capdev w in
        fst r = pulled_dropped cd
        /\ nr_droppedframes (capdev w')
           = nr_droppedframes cd + pulled_dropped cd
        /\ nrgfxframes (capdev w') = nrgfxframes cd + 1
        /\ pulled_frame (capdev w') = None
        /\ framecounter (capdev w') = framecounter cd
        /\ ring w' = ring w
        /\ capture_format_kept cd (capdev w')
        /\ (if C.has_flag (recordingflags cd) 16 then
              movie w' = movie w /\ hw w' = hw w
            else
              current_dropped (capdev w') = 0
              /\ exists fr,
                   frame cd = Some fr
                   /\ movie w'
                      = (movie w
                         ++ (if recording_active cd && negb (moviehandle cd =? -1)
                             then [encoded env cd fr] else []))%list)) w.
Proof.
  unfold retrieve_image.
  destruct w as [cd ft ld n h c r m].
  wp_step. wp_step. world_norm.
  destruct (C.has_flag (recordingflags cd) 16) eqn:Hflag; cbn [negb andb].
  - (* the frame was taken over from the recorder thread *)
    rewrite andb_false_r.
    wp_step. wp_step. wp_step.
    apply wp_consequence with (R := fun _ w1 => w1 = mkWorld cd ft ld n h c r m).
    { wp_run; reflexivity. }
    intros raw w1 ->.
    wp_run; world_norm; cbv zeta;
      destruct cd; world_norm; world_norm_in Hflag;
      repeat split; try reflexivity; try kept_solve.
  - rewrite andb_true_r.
    wp_step. wp_step.
    eapply wp_consequence; [apply preprocess_spec|].
    intros img w1 (fr & fr' & cf' & hw' & con' & Hframe & Himg & Hcf & Himage & ->).
    world_norm. world_norm_in Hframe. world_norm_in Hcf.
    destruct img as [img|]; [|wp_step].
    destruct Himg as [[= ->]|Himg]; [|discriminate].
    wp_step. wp_step.
    apply wp_consequence
      with (R := fun _ w1 =>
                   w1 = mkWorld (set_convframe cf' (set_frame (Some fr') cd))
                          ft ld n hw' con' r m).
    { wp_run; reflexivity. }
    intros raw w1 ->.
    wp_step.
    apply wp_consequence
      with (R := fun _ w1 =>
                   w1 = mkWorld (set_convframe cf' (set_frame (Some fr') cd))
                          ft ld n hw' con' r
                          (m ++ (if recording_active cd
                                    && negb (moviehandle cd =? -1)
                                 then [encoded env cd fr] else []))%list).
    { destruct cd. world_norm. world_norm_in Hframe.
      match goal with
      | |- context [if ?b then [_] else []] => destruct b
      end.
      - wp_step.
        eapply wp_consequence; [apply push_frame_master_spec|].
        intros pushed w2 [_ ->]. wp_step. world_norm.
        unfold encoded, movie_bytes, preprocessed. world_norm. reflexivity.
      - wp_step. rewrite app_nil_r. reflexivity. }
    intros [] w2 ->.
    unfold enqueue.
    wp_run; world_norm; cbv zeta;
      destruct cd; world_norm; world_norm_in Hflag; world_norm_in Hframe;
      world_norm_in Hcf;
      repeat split; try reflexivity; try kept_solve; try tauto;
      exists fr; split; [exact Hframe|reflexivity].
Qed.

Lemma retrieve_async_run env w :
  C.has_flag (recordingflags (capdev w)) 16 = true ->
  - 2 ^ 31 <= nr_droppedframes (capdev w) + pulled_dropped (capdev w) < 2 ^ 31 ->
  - 2 ^ 31 <= nrgfxframes (capdev w) + 1 < 2 ^ 31 ->
  retrieve_image env false w
  = (Returns (pulled_dropped (capdev w), None),
     with_capdev
       (set_nrgfxframes (nrgfxframes (capdev w) + 1)
          (set_nr_droppedframes
             (nr_droppedframes (capdev w) + pulled_dropped (capdev w))
             (set_pulled_frame None (capdev w)))) w).
Proof.
  intros Hflag Hdropped Hgfx. unfold retrieve_image.
  destruct w as [cd ft ld n h c r m]. cbn [capdev] in *.
  run_norm. rewrite Hflag. run_norm. rewrite andb_false_r. run_norm.
  unfold bind. cbv beta.
  rewrite increment_run by (apply in_int_range_true; destruct cd; exact Hdropped).
  run_norm.
  rewrite increment_run by (apply in_int_range_true; destruct cd; exact Hgfx).
  destruct cd. reflexivity.
Qed.

(** X12: for a valid handle, a call of
    [PsychDCGetTextureFromCapture] with [checkForImage] 0 that returns,
    returns the dropped count stored by the last check
    ([capdev->pulled_dropped]), adds it to the total of dropped frames,
    counts one more retrieved image, releases the pulled frame buffer and
    leaves the frame counter and the ring alone.  When the frames come
    from the recorder thread (recording flag 16), no raw data is asked
    for and the two counters do not overflow, the call does return. *)
Theorem commit_returns_dropped_count (env : Environment) capturehandle
    outrawbuffer w :
  0 <= capturehandle < PSYCH_MAX_CAPTUREDEVICES env ->
  valid (capdev w) <> 0 ->
  let cd := capdev w in
  let run := PsychDCGetTextureFromCapture env capturehandle 0 outrawbuffer w in
  (forall n data w',
      run = (Returns (n, data), w') ->
      n = pulled_dropped cd
      /\ nr_droppedframes (capdev w') = nr_droppedframes cd + pulled_dropped cd
      /\ nrgfxframes (capdev w') = nrgfxframes cd + 1
      /\ pulled_frame (capdev w') = None
      /\ framecounter (capdev w') = framecounter cd
      /\ ring w' = ring w)
  /\ (C.has_flag (recordingflags cd) 16 = true -> outrawbuffer = false ->
      - 2 ^ 31 <= nr_droppedframes cd + pulled_dropped cd < 2 ^ 31 ->
      - 2 ^ 31 <= nrgfxframes cd + 1 < 2 ^ 31 ->
      exists w', run = (Returns (pulled_dropped cd, None), w')).
Proof.
  intros Hrange Hvalid cd run. subst run.
  rewrite (get_texture_run env _ _ _ w Hrange Hvalid). cbv zeta.
  change (0 =? 4) with false. change (C.truthy 0) with false. cbv iota.
  split.
  - intros n data w' Hrun.
    destruct (wp_use _ _ _ _ _ (retrieve_spec env outrawbuffer w) Hrun)
      as (H1 & H2 & H3 & H4 & H5 & H6 & _).
    cbn [fst] in H1. now repeat split.
  - intros Hflag -> Hdropped Hgfx. eexists.
    apply (retrieve_async_run env w Hflag Hdropped Hgfx).
Qed.

Lemma commit_returns_dropped_count_witness :
  let w0 := example_started (Some "m.mov") 16 1 in
  let w := with_capdev (set_pulled_dropped 2 (capdev w0)) w0 in
  exists w', PsychDCGetTextureFromCapture example_camera 0 0 false w
             = (Returns (2, None), w').
Proof.
  cbv zeta.
  refine (proj2 (commit_returns_dropped_count example_camera 0 false
                   (with_capdev
                      (set_pulled_dropped 2
                         (capdev (example_started (Some "m.mov") 16 1)))
                      (example_started (Some "m.mov") 16 1)) _ _) _ _ _ _).
  - vm_compute. split; [discriminate | reflexivity].
  - vm_compute. discriminate.
  - vm_compute. reflexivity.
  - reflexivity.
  - vm_compute. split; [discriminate | reflexivity].
  - vm_compute. split; [discriminate | reflexivity].
Defined.

Lemma encoded_newest env cd cd' f rest behind :
  capture_format_kept cd cd' ->
  encoded env cd' (newest_frame (dequeued f behind) rest)
  = encoded env cd (List.last rest f).
Proof.
  intros Hkept. rewrite (encoded_kept env cd cd' _ Hkept).
  unfold encoded, preprocessed, newest_frame.
  destruct rest as [|g rest']; [reflexivity|].
  rewrite (last_cons_default g rest' (dequeued f behind) f).
  reflexivity.
Qed.


(** What a check on the master thread with [dropframes] set leaves, by
    the fields of the record. *)
Lemma check_sync_dropped_facts env (waitforframe : bool) w f rest :
  grabber_active (capdev w) <> 0 ->
  C.has_flag (recordingflags (capdev w)) 16 = false ->
  ring w = f :: rest ->
  dc_succeeds env (capture_dequeue (if waitforframe then CAPTURE_POLICY_WAIT
                                    else CAPTURE_POLICY_POLL)) = true ->
  dropframes (capdev w) <> 0 ->
  dc_succeeds env capture_enqueue = true ->
  dc_succeeds env (capture_dequeue CAPTURE_POLICY_POLL) = true ->
  0 <= framecounter (capdev w) ->
  framecounter (capdev w) + 1 + Z.of_nat (List.length rest) < 2 ^ 31 ->
  - 2 ^ 31 <= nrframes (capdev w) + 1 < 2 ^ 31 ->
  exists w1,
    check_for_image env waitforframe w = (Returns 0, w1)
    /\ capture_format_kept (capdev w) (capdev w1)
    /\ frame (capdev w1)
       = Some (newest_frame (dequeued f (List.length rest)) rest)
    /\ pulled_dropped (capdev w1) = Z.of_nat (List.length rest)
    /\ framecounter (capdev w1)
       = framecounter (capdev w) + 1 + Z.of_nat (List.length rest)
    /\ ring w1 = []
    /\ movie w1 = movie w.
Proof.
  intros Hactive Hflag Hring Hdeq Hdrop Henq Hpoll Hcount Hfit Hnr.
  destruct (check_sync_frame_dropped env waitforframe w f rest
              Hactive Hflag Hring Hdeq Hdrop Henq Hpoll Hcount Hfit Hnr)
    as [hw' Hcheck].
  eexists. split; [exact Hcheck|].
  destruct w as [cd ft ld k h c r m]. destruct cd.
  split; [kept_solve|]. now repeat split.
Qed.

(** X13: recording on the master thread with [dropframes] set
    does not record the frames it drops.  On a running grabber whose DMA
    ring holds the frames [f :: rest], a check for an image whose
    libdc1394 calls succeed returns 0, and a retrieval that follows and
    returns reports [rest] many dropped frames, has counted all the
    [1 + length rest] frames in [framecounter], leaves the ring empty and
    has added exactly one frame to the movie: the newest one. *)
Theorem sync_recording_skips_dropped_frames (env : Environment)
    capturehandle checkForImage outrawbuffer w f rest :
  0 <= capturehandle < PSYCH_MAX_CAPTUREDEVICES env ->
  valid (capdev w) <> 0 ->
  checkForImage <> 0 -> checkForImage <> 4 ->
  grabber_active (capdev w) <> 0 ->
  sync_recording (capdev w) ->
  dropframes (capdev w) <> 0 ->
  ring w = f :: rest ->
  dc_succeeds env (capture_dequeue (if checkForImage >? 1
                                    then CAPTURE_POLICY_WAIT
                                    else CAPTURE_POLICY_POLL)) = true ->
  dc_succeeds env capture_enqueue = true ->
  dc_succeeds env (capture_dequeue CAPTURE_POLICY_POLL) = true ->
  0 <= framecounter (capdev w) ->
  framecounter (capdev w) + 1 + Z.of_nat (List.length rest) < 2 ^ 31 ->
  - 2 ^ 31 <= nrframes (capdev w) + 1 < 2 ^ 31 ->
  exists header w1,
    PsychDCGetTextureFromCapture env capturehandle checkForImage outrawbuffer w
    = (Returns (0, header), w1)
    /\ forall n data w2,
         PsychDCGetTextureFromCapture env capturehandle 0 outrawbuffer w1
         = (Returns (n, data), w2) ->
         n = Z.of_nat (List.length rest)
         /\ framecounter (capdev w2)
            = framecounter (capdev w) + 1 + Z.of_nat (List.length rest)
         /\ ring w2 = []
         /\ movie w2 = (movie w ++ [encoded env (capdev w) (List.last rest f)])%list.
Proof.
  intros Hrange Hvalid H0 H4 Hactive (Hrec & Hmovie & Hflag) Hdrop Hring
    Hdeq Henq Hpoll Hcount Hfit Hnr.
  destruct (check_sync_dropped_facts env (checkForImage >? 1) w f rest
              Hactive Hflag Hring Hdeq Hdrop Henq Hpoll Hcount Hfit Hnr)
    as (w1 & Hcheck & Hkept & Hframe & Hpulled & Hfc & Hempty & Hsame).
  rewrite (get_texture_run env _ _ _ w Hrange Hvalid). cbv zeta.
  apply Z.eqb_neq in H4. rewrite H4, (truthy_true _ H0).
  unfold bind. rewrite Hcheck.
  do 2 eexists. split; [reflexivity|].
  intros n data w2 Hcommit.
  pose proof Hkept as (Kvalid & _ & _ & _ & _ & _ & _ & _ & _ & _ & Krec & Kmovie
                       & Kflags & _).
  rewrite get_texture_run in Hcommit
    by (try exact Hrange; rewrite Kvalid; exact Hvalid).
  cbv zeta in Hcommit.
  change (0 =? 4) with false in Hcommit.
  change (C.truthy 0) with false in Hcommit. cbv iota in Hcommit.
  pose proof (wp_use _ _ _ _ _ (retrieve_spec env outrawbuffer w1) Hcommit)
    as Hspec.
  cbv zeta in Hspec. cbn [fst] in Hspec.
  rewrite Kflags, Hflag, Krec, Hrec, Kmovie in Hspec.
  apply Z.eqb_neq in Hmovie. rewrite Hmovie in Hspec. cbn [negb andb] in Hspec.
  destruct Hspec as (Hn & _ & _ & _ & Hfc2 & Hr & _ & _ & fr & Hfr & Hm).
  rewrite Hframe in Hfr. injection Hfr as <-.
  split; [now rewrite Hn|]. split; [now rewrite Hfc2|].
  split; [now rewrite Hr|].
  rewrite Hm, Hsame. f_equal. f_equal.
  apply encoded_newest. exact Hkept.
Qed.

Lemma sync_recording_skips_dropped_frames_witness :
  let w := with_ring [example_frame 10; example_frame 20; example_frame 30]
             (example_started (Some "m.mov") 0 1) in
  exists header w1,
    PsychDCGetTextureFromCapture example_camera 0 1 false w
    = (Returns (0, header), w1).
Proof.
  cbv zeta.
  destruct (sync_recording_skips_dropped_frames example_camera 0 1 false
              (with_ring [example_frame 10; example_frame 20; example_frame 30]
                 (example_started (Some "m.mov") 0 1))
              (example_frame 10) [example_frame 20; example_frame 30]
              ltac:(vm_compute; split; [discriminate | reflexivity])
              ltac:(vm_compute; discriminate)
              ltac:(discriminate) ltac:(discriminate)
              ltac:(vm_compute; discriminate)
              ltac:(vm_compute; split; [reflexivity|split; [discriminate|reflexivity]])
              ltac:(vm_compute; discriminate)
              ltac:(vm_compute; reflexivity)
              ltac:(vm_compute; reflexivity)
              ltac:(vm_compute; reflexivity)
              ltac:(vm_compute; reflexivity)
              ltac:(vm_compute; discriminate)
              ltac:(vm_compute; reflexivity)
              ltac:(vm_compute; split; [discriminate | reflexivity]))
    as (header & w1 & Hrun & _).
  exists header, w1. exact Hrun.
Defined.

(** ** The recorder thread *)

(** Step over assignments, reads and counters. *)
Ltac wp_lin :=
  repeat first
    [ wp_simple
    | lazymatch goal with
      | |- wp (bind (increment _ _ _) _) _ _ => apply wp_bind; wp_step
      end ].

(** What one turn of the recorder thread leaves when it returns. *)
Lemma recorder_cycle_spec env w :
  wp (recorder_cycle env)
     (fun continue w' =>
        let cd := capdev w in
        capture_format_kept cd (capdev w')
        /\ (grabber_active cd = 0 -> continue = false /\ w' = w)
        /\ (continue = true ->
            grabber_active cd <> 0
            /\ match ring w with
               | [] =>
                   ring w' = []
                   /\ movie w' = movie w
                   /\ framecounter (capdev w') = framecounter cd
               | f :: rest =>
                   ring w' = rest
                   /\ framecounter (capdev w') = framecounter cd + 1
                   /\ frame_ready (capdev w') = 1
                   /\ current_dropped (capdev w')
                      = C.int32 (Z.of_nat (List.length rest))
                   /\ movie w'
                      = (movie w
                         ++ (if recording_active cd
                                && negb (moviehandle cd =? -1)
                                && C.has_flag (recordingflags cd) 16
                             then [encoded env cd f] else []))%list
               end)) w.
Proof.
  unfold recorder_cycle.
  destruct w as [cd ft ld n h c r m].
  wp_step. wp_step. world_norm. cbv zeta.
  destruct (C.truthy (grabber_active cd)) eqn:Hactive; cbn [negb].
  2:{ wp_step. split; [apply capture_format_kept_refl|].
      split; [intros _; now split|discriminate]. }
  assert (Hrun : grabber_active cd <> 0).
  { intros H. rewrite H in Hactive. discriminate. }
  wp_step.
  eapply wp_consequence; [apply dequeue_spec|].
  intros ok w1 Hdeq. world_norm_in Hdeq.
  destruct ok; cbn [negb].
  2:{ subst w1. wp_run. world_norm.
      split; [destruct cd; kept_auto|].
      split; [intros ?; contradiction|discriminate]. }
  destruct r as [|f rest]; subst w1.
  - (* no new frame in this turn *)
    wp_run; world_norm.
    all: try discriminate.
    split; [destruct cd; kept_auto|].
    split; [intros ?; contradiction|].
    intros _. split; [exact Hrun|]. now repeat split.
  - wp_lin. wp_step.
    eapply wp_consequence; [apply preprocess_spec|].
    intros img w1 (fr & fr' & cf' & hw' & con' & Hframe & Himg & Hcf & Himage & ->).
    world_norm. world_norm_in Hframe. world_norm_in Hcf.
    injection Hframe as <-.
    destruct img as [img|].
    2:{ wp_run. world_norm.
        split; [destruct cd; kept_auto|].
        split; [intros ?; contradiction|discriminate]. }
    destruct Himg as [[= ->]|Himg]; [|discriminate].
    wp_step.
    apply wp_consequence
      with (R := fun (pushed : bool) w1 => exists con2,
                   w1 = mkWorld
                          (set_convframe cf'
                             (set_frame (Some fr')
                                (set_nrframes (nrframes cd + 1)
                                   (set_framecounter (framecounter cd + 1)
                                      (set_current_dropped
                                         (C.int32 (Z.of_nat (List.length rest)))
                                         (set_frame_ready 1 cd))))))
                          ft ld n hw' con2 rest
                          (m ++ (if pushed
                                 then if recording_active cd
                                         && negb (moviehandle cd =? -1)
                                         && C.has_flag (recordingflags cd) 16
                                      then [encoded env cd f] else []
                                 else []))%list).
    { destruct cd. world_norm.
      match goal with
      | |- context [if ?b then [_] else []] => destruct b
      end.
      - eapply wp_consequence; [apply push_frame_spec|].
        intros pushed w2 (con2 & ->). exists con2. world_norm.
        destruct pushed; [|now rewrite app_nil_r].
        unfold encoded, movie_bytes, preprocessed. world_norm. reflexivity.
      - wp_step. exists con'. now rewrite app_nil_r. }
    intros pushed w2 (con2 & ->).
    destruct pushed; cbn [negb].
    2:{ wp_step. world_norm.
        split; [destruct cd; kept_auto|].
        split; [intros ?; contradiction|discriminate]. }
    unfold enqueue.
    wp_run; world_norm.
    all: split; [destruct cd; kept_auto|].
    all: split; [intros ?; contradiction|].
    all: try discriminate.
    all: intros _; split; [exact Hrun|].
    all: destruct cd; world_norm; now repeat split.
Qed.

(** X14: one turn of the loop of the recorder thread.  On a stopped
    grabber the turn ends the loop and changes nothing.  A turn that goes
    on ran on an active grabber and either found the DMA ring empty and
    left the ring, the movie and the frame counter alone, or took the
    oldest frame out of the ring, counted it in [framecounter], set the
    ready flag and the dropped count (the frames still queued), and, when
    recording on the recorder thread is on (recording active, a movie
    open, recording flag 16), added that frame, preprocessed and copied,
    to the movie: one frame, at the end; the movie is unchanged when this
    recording is off.  In every case the settings that fix the conversion
    and the recording are kept. *)
Theorem recorder_turn_records_the_frame (env : Environment) w continue w' :
  recorder_cycle env w = (Returns continue, w') ->
  let cd := capdev w in
  capture_format_kept cd (capdev w')
  /\ (grabber_active cd = 0 -> continue = false /\ w' = w)
  /\ (continue = true ->
      grabber_active cd <> 0
      /\ match ring w with
         | [] =>
             ring w' = []
             /\ movie w' = movie w
             /\ framecounter (capdev w') = framecounter cd
         | f :: rest =>
             ring w' = rest
             /\ framecounter (capdev w') = framecounter cd + 1
             /\ frame_ready (capdev w') = 1
             /\ current_dropped (capdev w')
                = C.int32 (Z.of_nat (List.length rest))
             /\ movie w'
                = (movie w
                   ++ (if recording_active cd
                          && negb (moviehandle cd =? -1)
                          && C.has_flag (recordingflags cd) 16
                       then [encoded env cd f] else []))%list
         end).
Proof.
  intros Hrun.
  exact (wp_use _ _ _ _ _ (recorder_cycle_spec env w) Hrun).
Qed.

Lemma recorder_turn_witness :
  let w := with_ring [example_frame 10; example_frame 20]
             (example_started (Some "m.mov") 16 0) in
  exists w',
    recorder_cycle example_camera w = (Returns true, w')
    /\ ring w' = [example_frame 20]
    /\ List.length (movie w') = 1%nat.
Proof.
  cbv zeta.
  assert (Hrun : recorder_cycle example_camera
                   (with_ring [example_frame 10; example_frame 20]
                      (example_started (Some "m.mov") 16 0))
                 = (Returns true,
                    snd (recorder_cycle example_camera
                           (with_ring [example_frame 10; example_frame 20]
                              (example_started (Some "m.mov") 16 0)))))
    by (vm_compute; reflexivity).
  eexists. split; [exact Hrun|].
  destruct (recorder_turn_records_the_frame example_camera _ _ _ Hrun)
    as (_ & _ & Hon).
  destruct (Hon eq_refl) as (_ & Hring & _ & _ & _ & Hmovie).
  split; [exact Hring|].
  rewrite Hmovie. vm_compute. reflexivity.
Defined.

(** ** Recording on the recorder thread *)

Lemma get_vidcap_record_spec env capturehandle w :
  wp (PsychGetVidcapRecord env capturehandle)
     (fun cd w' => cd = capdev w /\ w' = w) w.
Proof.
  unfold PsychGetVidcapRecord. destruct w as [cd ft ld n h c r m].
  wp_run; world_norm; now split.
Qed.

(** With capture on the recorder thread a check for an image touches
    neither the ring nor the movie nor the frame counter. *)
Lemma check_async_spec env waitforframe w :
  C.has_flag (recordingflags (capdev w)) 16 = true ->
  wp (check_for_image env waitforframe)
     (fun _ w' =>
        capture_format_kept (capdev w) (capdev w')
        /\ ring w' = ring w
        /\ movie w' = movie w
        /\ framecounter (capdev w') = framecounter (capdev w)) w.
Proof.
  intros Hflag. unfold check_for_image.
  destruct w as [cd ft ld n h c r m]. cbn [capdev] in Hflag.
  wp_step. wp_step. world_norm. rewrite Hflag. cbn [negb].
  wp_run; world_norm;
    (split; [destruct cd; kept_auto|]); now repeat split.
Qed.

Lemma consumer_async_spec env capturehandle checkForImage outrawbuffer w :
  C.has_flag (recordingflags (capdev w)) 16 = true ->
  wp (PsychDCGetTextureFromCapture env capturehandle checkForImage outrawbuffer)
     (fun _ w' =>
        capture_format_kept (capdev w) (capdev w')
        /\ ring w' = ring w
        /\ movie w' = movie w
        /\ framecounter (capdev w') = framecounter (capdev w)) w.
Proof.
  intros Hflag. unfold PsychDCGetTextureFromCapture.
  apply wp_bind.
  eapply wp_consequence; [apply get_vidcap_record_spec|].
  intros cd w1 [-> ->]. cbv zeta.
  destruct (checkForImage =? 4).
  { apply wp_ret. split; [apply capture_format_kept_refl|]. now repeat split. }
  destruct (C.truthy checkForImage).
  - apply wp_bind.
    eapply wp_consequence; [apply (check_async_spec env _ w Hflag)|].
    intros r w1 H. apply wp_ret. exact H.
  - eapply wp_consequence; [apply retrieve_spec|].
    intros r w1 H. cbv zeta in H. rewrite Hflag in H.
    destruct H as (_ & _ & _ & _ & Hfc & Hring & Hkept & Hmovie & _).
    split; [exact Hkept|]. now repeat split.
Qed.

Lemma firstn_snoc_le {A : Type} (n : nat) (l : list A) (x : A) :
  (n <= List.length l)%nat ->
  firstn n (l ++ [x]) = firstn n l /\ skipn n (l ++ [x]) = (skipn n l ++ [x])%list.
Proof.
  intros Hle. split.
  - rewrite firstn_app.
    replace (n - List.length l)%nat with 0%nat by lia.
    cbn. apply app_nil_r.
  - rewrite skipn_app.
    replace (n - List.length l)%nat with 0%nat by lia. reflexivity.
Qed.

(** X15: recording on the recorder thread records every captured
    frame, in order.  In a run of the engine from a state in which
    recording on the recorder thread is on, made of turns of the recorder
    thread that go on, of calls of [PsychDCGetTextureFromCapture] that
    return (checks and retrievals, with or without [dropframes]) and of
    arrivals of frames in the DMA ring, the frames added to the movie are
    the frames taken out of the ring, in the order of capture, each one
    once, and their number is the increase of [framecounter]; the frames
    still in the ring are the ones that follow. *)
Theorem async_recording_records_every_frame (env : Environment)
    capturehandle w arrived w' :
  async_run env capturehandle w arrived w' ->
  async_recording (capdev w) ->
  exists n : nat,
    (n <= List.length (ring w ++ arrived))%nat
    /\ framecounter (capdev w') = framecounter (capdev w) + Z.of_nat n
    /\ movie w'
       = (movie w ++ map (encoded env (capdev w)) (firstn n (ring w ++ arrived)))%list
    /\ ring w' = skipn n (ring w ++ arrived)
    /\ capture_format_kept (capdev w) (capdev w').
Proof.
  intros Hrun. induction Hrun as
    [ w
    | w f arrived w' Hrun IH
    | w w1 arrived w' Hturn Hrun IH
    | w c raw r w1 arrived w' Hcall Hrun IH ]; intros Hrec.
  - exists 0%nat. cbn [firstn skipn map]. rewrite !app_nil_r, Z.add_0_r.
    split; [lia|]. split; [reflexivity|]. split; [reflexivity|].
    split; [reflexivity|apply capture_format_kept_refl].
  - destruct IH as (k & Hk & Hfc & Hmovie & Hring & Hkept).
    { destruct w as [cd ft ld n h c r m]. exact Hrec. }
    exists k.
    assert (Hsame : (ring (with_ring (ring w ++ [f]) w) ++ arrived
                     = ring w ++ f :: arrived)%list).
    { destruct w as [cd ft ld n h c r m]. cbn [ring with_ring].
      now rewrite <- app_assoc. }
    rewrite Hsame in Hk, Hmovie, Hring.
    destruct w as [cd ft ld n h c r m]. cbn [capdev with_ring ring movie] in *.
    exact (conj Hk (conj Hfc (conj Hmovie (conj Hring Hkept)))).
  - destruct (wp_use _ _ _ _ _ (recorder_cycle_spec env w) Hturn)
      as (Hkept1 & _ & Hon).
    cbv zeta in Hkept1, Hon.
    destruct (Hon eq_refl) as [_ Hstep].
    destruct Hrec as (Hactive & Hmovie & Hflag).
    pose proof Hkept1 as (_ & _ & _ & _ & _ & _ & _ & _ & _ & _ & Krec & Kmovie
                          & Kflags & _).
    destruct IH as (k & Hk & Hfc & Hm & Hr & Hkept).
    { unfold async_recording. now rewrite Krec, Kmovie, Kflags. }
    assert (Henc : forall x, encoded env (capdev w1) x = encoded env (capdev w) x)
      by (intros x; now apply encoded_kept).
    destruct (ring w) as [|f rest] eqn:Hringw.
    + destruct Hstep as (Hr1 & Hm1 & Hfc1).
      exists k. rewrite Hr1 in Hk, Hm, Hr. cbn [app] in *.
      rewrite Hfc, Hfc1, Hm, Hm1.
      split; [exact Hk|]. split; [reflexivity|].
      split; [now rewrite (map_ext _ _ Henc)|].
      split; [exact Hr|].
      exact (capture_format_kept_trans _ _ _ Hkept1 Hkept).
    + destruct Hstep as (Hr1 & Hfc1 & _ & _ & Hm1).
      rewrite Hactive, Hflag in Hm1.
      apply Z.eqb_neq in Hmovie. rewrite Hmovie in Hm1. cbn [negb andb] in Hm1.
      exists (S k). rewrite Hr1 in Hk, Hm, Hr.
      cbn [app firstn skipn map List.length].
      split; [lia|].
      split; [rewrite Hfc, Hfc1; lia|].
      split.
      * rewrite Hm, Hm1, <- app_assoc. cbn [app].
        now rewrite (map_ext _ _ Henc).
      * split; [exact Hr|].
        exact (capture_format_kept_trans _ _ _ Hkept1 Hkept).
  - destruct Hrec as (Hactive & Hmovie & Hflag).
    destruct (wp_use _ _ _ _ _
                (consumer_async_spec env capturehandle c raw w Hflag) Hcall)
      as (Hkept1 & Hr1 & Hm1 & Hfc1).
    pose proof Hkept1 as (_ & _ & _ & _ & _ & _ & _ & _ & _ & _ & Krec & Kmovie
                          & Kflags & _).
    destruct IH as (k & Hk & Hfc & Hm & Hr & Hkept).
    { unfold async_recording. now rewrite Krec, Kmovie, Kflags. }
    assert (Henc : forall x, encoded env (capdev w1) x = encoded env (capdev w) x)
      by (intros x; now apply encoded_kept).
    exists k. rewrite Hr1 in Hk, Hm, Hr. rewrite Hfc, Hfc1, Hm, Hm1.
    split; [exact Hk|]. split; [reflexivity|].
    split; [now rewrite (map_ext _ _ Henc)|].
    split; [exact Hr|].
    exact (capture_format_kept_trans _ _ _ Hkept1 Hkept).
Qed.

Lemma async_recording_witness :
  exists w',
    async_run example_camera 0 example_async_start
      [example_frame 10; example_frame 20] w'
    /\ exists n : nat,
         framecounter (capdev w')
         = framecounter (capdev example_async_start) + Z.of_nat n
         /\ movie w'
            = (movie example_async_start
               ++ map (encoded example_camera (capdev example_async_start))
                    (firstn n (ring example_async_start
                               ++ [example_frame 10; example_frame 20])))%list.
Proof.
  assert (Hrun : exists w',
             async_run example_camera 0 example_async_start
               [example_frame 10; example_frame 20] w').
  { eexists.
    (* two frames arrive, the recorder takes a turn, the consumer polls,
       the recorder takes another turn, the consumer retrieves the image *)
    eapply async_frame. eapply async_frame.
    eapply async_recorder; [vm_compute; reflexivity|].
    eapply (async_consumer _ _ _ 1 false); [vm_compute; reflexivity|].
    eapply async_recorder; [vm_compute; reflexivity|].
    eapply (async_consumer _ _ _ 0 false); [vm_compute; reflexivity|].
    apply async_done. }
  destruct Hrun as [w' Hrun]. exists w'. split; [exact Hrun|].
  destruct (async_recording_records_every_frame example_camera 0 _ _ _ Hrun)
    as (n & _ & Hfc & Hmovie & _).
  { vm_compute. split; [reflexivity|]. split; [discriminate|reflexivity]. }
  exists n. split; [exact Hfc|exact Hmovie].
Defined.

(** ** Starting and stopping capture *)

(** A rate above zero is not zero, and a rate that is zero is not above
    zero. *)
Lemma rate_above_zero capturerate :
  Flt.gt capturerate (Flt.double_of_int 0) = true ->
  Flt.ne capturerate (Flt.double_of_int 0) = true.
Proof.
  change (Flt.double_of_int 0) with (S754_zero false).
  destruct capturerate as [s|s| |s m e]; try destruct s;
    cbn; intros H; first [discriminate H | reflexivity].
Qed.

(** What a start of capture leaves besides the selected mode. *)
Lemma start_capture_state env capturehandle capturerate dropframes_ w :
  wp (start_capture env capturehandle capturerate dropframes_)
     (fun _ w' =>
        let cd := capdev w in
        let cd' := capdev w' in
        grabber_active cd = 0
        /\ grabber_active cd' = 1
        /\ dropframes cd' = (if dropframes_ >? 0 then 1 else 0)
        /\ nr_droppedframes cd' = 0
        /\ frame_ready cd' = 0
        /\ ring w' = []
        /\ width cd' = C.int32 (PsychGetWidthFromRect (roirect cd'))
        /\ height cd' = C.int32 (PsychGetHeightFromRect (roirect cd'))
        /\ valid cd' = valid cd
        /\ syncmode cd' = syncmode cd
        /\ nrframes cd' = nrframes cd
        /\ nrgfxframes cd' = nrgfxframes cd
        /\ framecounter cd' = framecounter cd) w.
Proof.
  unfold start_capture.
  wp_step. wp_step. wp_step. wp_step; [wp_step|wp_step].
  wp_step. wp_step. wp_step. wp_step. wp_step.
  (* mode selection *)
  apply wp_consequence with (R := fun _ w1 =>
    finder_changes
      (with_capdev (set_frame_ready 0 (set_nr_droppedframes 0 (capdev w))) w) w1).
  { destruct (_ || _).
    - wp_step.
      eapply wp_consequence; [apply format7_finder_changes|].
      intros ps w1 H1. wp_step.
      + wp_step.
        eapply wp_consequence; [apply nonformat7_finder_changes|].
        intros ? w2 H2. wp_step. exact (finder_changes_trans _ _ _ H1 H2).
      + wp_step. exact H1.
    - wp_step.
      eapply wp_consequence; [apply nonformat7_finder_changes|].
      intros ? w2 H2. wp_step. exact H2. }
  intros packetsize w1 H1.
  assert (Hstopped : grabber_active (capdev w) = 0).
  { match goal with
    | H : C.truthy _ = false |- _ => exact (truthy_false _ H)
    end. }
  destruct w as [cd ft ld n h c r m]. destruct cd.
  world_norm_in H1. world_norm_in Hstopped.
  destruct H1 as (fmt & rate & layers & req & roi & fps_ & hw1 & con1 & ->).
  world_norm.
  wp_auto. wp_run.
  all: world_norm.
  all: repeat match goal with
              | |- _ /\ _ => split
              end; try reflexivity; try assumption; try discriminate.
Qed.

(** X16: a call of [PsychDCVideoCaptureRate] with a rate above zero
    that returns has found the grabber stopped and leaves it active, with
    an empty DMA ring, the count of dropped frames and the ready flag
    reset, [dropframes] set to 1 for a positive argument and to 0
    otherwise, the width and height of the images set to the size of the
    ROI, and the counters of decoded and retrieved images reset; the
    total of captured frames is kept.  The value returned is the
    framerate estimate, [(int) (fps + 0.5)]. *)
Theorem start_capture_leaves_grabber_active (env : Environment)
    capturehandle capturerate dropframes_ w n w' :
  Flt.gt capturerate (Flt.double_of_int 0) = true ->
  PsychDCVideoCaptureRate env capturehandle capturerate dropframes_ w
  = (Returns n, w') ->
  let cd := capdev w in
  let cd' := capdev w' in
  grabber_active cd = 0
  /\ grabber_active cd' = 1
  /\ dropframes cd' = (if dropframes_ >? 0 then 1 else 0)
  /\ nr_droppedframes cd' = 0
  /\ frame_ready cd' = 0
  /\ ring w' = []
  /\ width cd' = C.int32 (PsychGetWidthFromRect (roirect cd'))
  /\ height cd' = C.int32 (PsychGetHeightFromRect (roirect cd'))
  /\ nrframes cd' = 0
  /\ nrgfxframes cd' = 0
  /\ framecounter cd' = framecounter cd
  /\ Flt.int_of (Flt.dadd (fps cd') Flt.d0_5) = Some n.
Proof.
  intros Hstart Hrun.
  revert n w' Hrun.
  change (wp (PsychDCVideoCaptureRate env capturehandle capturerate dropframes_)
            (fun n w' =>
               let cd := capdev w in
               let cd' := capdev w' in
               grabber_active cd = 0
               /\ grabber_active cd' = 1
               /\ dropframes cd' = (if dropframes_ >? 0 then 1 else 0)
               /\ nr_droppedframes cd' = 0
               /\ frame_ready cd' = 0
               /\ ring w' = []
               /\ width cd' = C.int32 (PsychGetWidthFromRect (roirect cd'))
               /\ height cd' = C.int32 (PsychGetHeightFromRect (roirect cd'))
               /\ nrframes cd' = 0
               /\ nrgfxframes cd' = 0
               /\ framecounter cd' = framecounter cd
               /\ Flt.int_of (Flt.dadd (fps cd') Flt.d0_5) = Some n) w).
  unfold PsychDCVideoCaptureRate.
  apply wp_bind.
  eapply wp_consequence; [apply get_vidcap_record_spec|].
  intros cd0 w0 [-> ->].
  rewrite Hstart.
  rewrite (rate_above_zero _ Hstart).
  wp_step. wp_step.
  eapply wp_consequence; [apply start_capture_state|].
  cbv beta zeta. intros [] w1 H1.
  destruct w1 as [cd1 ft1 ld1 n1 h1 c1 r1 m1]. destruct cd1.
  world_norm_in H1.
  destruct H1 as (S1 & S2 & S3 & S4 & S5 & S6 & S7 & S8 & S9 & S10 & S11 & S12 & S13).
  wp_run; world_norm; now repeat split.
Qed.

Lemma start_capture_example_run :
  PsychDCVideoCaptureRate example_camera 0 (fps_of 30) 1
    (example_opened (Some (PsychMakeRect 0 0 640 480)) None 0 8)
  = (Returns 30, example_started None 0 1).
Proof. vm_compute. reflexivity. Qed.

Lemma start_capture_leaves_grabber_active_witness :
  grabber_active (capdev (example_started None 0 1)) = 1
  /\ dropframes (capdev (example_started None 0 1)) = 1
  /\ ring (example_started None 0 1) = [].
Proof.
  destruct (start_capture_leaves_grabber_active example_camera 0 (fps_of 30) 1
              (example_opened (Some (PsychMakeRect 0 0 640 480)) None 0 8)
              30 (example_started None 0 1)
              ltac:(vm_compute; reflexivity) start_capture_example_run)
    as (_ & Hactive & Hdrop & _ & _ & Hring & _).
  split; [exact Hactive|]. split; [exact Hdrop|exact Hring].
Defined.

(** X17: a start of capture on a grabber that is already
    active leaves through the error "You tried to start video capture,
    but capture is already started!" and changes nothing. *)
Theorem start_on_active_grabber_is_an_error (env : Environment)
    capturehandle capturerate dropframes_ w :
  0 <= capturehandle < PSYCH_MAX_CAPTUREDEVICES env ->
  valid (capdev w) <> 0 ->
  Flt.gt capturerate (Flt.double_of_int 0) = true ->
  grabber_active (capdev w) <> 0 ->
  PsychDCVideoCaptureRate env capturehandle capturerate dropframes_ w
  = (ErrorExit "You tried to start video capture, but capture is already started!",
     w).
Proof.
  intros Hrange Hvalid Hstart Hactive.
  unfold PsychDCVideoCaptureRate.
  unfold bind at 1. rewrite (get_vidcap_record_valid env _ w Hrange Hvalid).
  rewrite Hstart. unfold start_capture.
  unfold bind, get_capdev. rewrite (truthy_true _ Hactive). reflexivity.
Qed.

Lemma start_on_active_grabber_witness :
  exists msg,
    PsychDCVideoCaptureRate example_camera 0 (fps_of 30) 1
      (example_started None 0 1)
    = (ErrorExit msg, example_started None 0 1).
Proof.
  eexists.
  apply (start_on_active_grabber_is_an_error example_camera 0 (fps_of 30) 1
           (example_started None 0 1)).
  - vm_compute. split; [discriminate | reflexivity].
  - vm_compute. discriminate.
  - vm_compute. reflexivity.
  - vm_compute. discriminate.
Defined.

(** What a stop of capture leaves. *)
Lemma stop_capture_state env capturehandle w :
  wp (stop_capture env capturehandle)
     (fun dropped w' =>
        let cd := capdev w in
        let cd' := capdev w' in
        if C.truthy (grabber_active cd) then
          dropped = (if verbosity env >? 2 then nr_droppedframes cd else 0)
          /\ grabber_active cd' = 0
          /\ ring w' = []
          /\ frame_ready cd' = 0
          /\ current_frame cd' = None
          /\ convframe cd' = None
          /\ moviehandle cd'
             = (if recording_active cd && (moviehandle cd >? -1)
                then -1 else moviehandle cd)
          /\ movie w' = movie w
          /\ valid cd' = valid cd
          /\ fps cd' = fps cd
          /\ framecounter cd' = framecounter cd
          /\ numCaptureRecords w' = numCaptureRecords w
        else dropped = 0 /\ w' = w) w.
Proof.
  unfold stop_capture.
  destruct w as [cd ft ld n h c r m]. destruct cd.
  wp_step. wp_step. world_norm.
  match goal with
  | |- wp (if ?b then _ else _) _ _ => destruct b eqn:Hactive
  end; [|wp_step; now split].
  wp_auto. wp_run.
  all: world_norm; repeat split; reflexivity.
Qed.

(** What a call of [PsychDCVideoCaptureRate] with a rate that is not
    above zero leaves. *)
Lemma capture_rate_stop_state (env : Environment)
    capturehandle capturerate dropframes_ w :
  Flt.gt capturerate (Flt.double_of_int 0) = false ->
  wp (PsychDCVideoCaptureRate env capturehandle capturerate dropframes_)
     (fun n w' =>
        let cd := capdev w in
        let cd' := capdev w' in
        (nrframes cd' = 0
         /\ nrgfxframes cd' = 0
         /\ framecounter cd' = framecounter cd
         /\ (if Flt.ne capturerate (Flt.double_of_int 0)
             then Flt.int_of (Flt.dadd (fps cd) Flt.d0_5) = Some n
             else n = (if C.truthy (grabber_active cd) && (verbosity env >? 2)
                       then nr_droppedframes cd else 0))
         /\ (grabber_active cd <> 0 ->
             grabber_active cd' = 0
             /\ ring w' = []
             /\ frame_ready cd' = 0
             /\ current_frame cd' = None
             /\ convframe cd' = None
             /\ moviehandle cd'
                = (if recording_active cd && (moviehandle cd >? -1)
                   then -1 else moviehandle cd)
             /\ movie w' = movie w)
         /\ (grabber_active cd = 0 ->
             w' = with_capdev (set_nrgfxframes 0 (set_nrframes 0 cd)) w))
        /\ grabber_active cd' = 0
        /\ valid cd' = valid cd
        /\ numCaptureRecords w' = numCaptureRecords w
        /\ movie w' = movie w) w.
Proof.
  intros Hstop.
  unfold PsychDCVideoCaptureRate.
  apply wp_bind.
  eapply wp_consequence; [apply get_vidcap_record_spec|].
  intros cd0 w0 [-> ->].
  rewrite Hstop.
  wp_step.
  eapply wp_consequence; [apply stop_capture_state|].
  cbv beta zeta. intros dropped w1 H1.
  destruct (C.truthy (grabber_active (capdev w))) eqn:Hactive.
  - assert (Hnz : grabber_active (capdev w) <> 0).
    { intros H0. rewrite H0 in Hactive. discriminate. }
    destruct w1 as [cd1 ft1 ld1 n1 h1 c1 r1 m1]. destruct cd1.
    world_norm_in H1.
    destruct H1
      as (-> & S2 & S3 & S4 & S5 & S6 & S7 & S8 & S9 & S10 & S11 & S12).
    cbn [andb].
    wp_run; world_norm;
      repeat match goal with
             | |- _ /\ _ => split
             | |- _ -> _ => intros ?
             end;
      try reflexivity; try assumption; try contradiction; try congruence.
  - destruct H1 as [-> ->].
    pose proof (truthy_false _ Hactive) as Hz.
    destruct w as [cd ft ld k h c r m]. destruct cd.
    world_norm_in Hz. cbn [andb].
    wp_run; world_norm;
      repeat match goal with
             | |- _ /\ _ => split
             | |- _ -> _ => intros ?
             end;
      try reflexivity; try assumption; try contradiction; try congruence.
Qed.

(** X18: a call of [PsychDCVideoCaptureRate] with a rate that is not
    above zero stops capture.  When it returns from an active grabber the
    grabber is stopped, the DMA ring is empty, no frame is ready, the
    frame buffer of the recorder thread and the scratch frame are
    released, the movie is closed (handle -1) when recording was active
    with a movie open, and the frames written to the movie are kept; on a
    stopped grabber nothing of this changes.  In both cases the counters
    of decoded and retrieved images are reset and the total of captured
    frames is kept.  For a rate of zero the value returned is the count
    of dropped frames only when the grabber was active and the verbosity
    is above 2, and 0 otherwise; for any other rate (negative, NaN) it is
    the framerate estimate [(int) (fps + 0.5)]. *)
Theorem stop_capture_releases_the_grabber (env : Environment)
    capturehandle capturerate dropframes_ w n w' :
  Flt.gt capturerate (Flt.double_of_int 0) = false ->
  PsychDCVideoCaptureRate env capturehandle capturerate dropframes_ w
  = (Returns n, w') ->
  let cd := capdev w in
  let cd' := capdev w' in
  nrframes cd' = 0
  /\ nrgfxframes cd' = 0
  /\ framecounter cd' = framecounter cd
  /\ (if Flt.ne capturerate (Flt.double_of_int 0)
      then Flt.int_of (Flt.dadd (fps cd) Flt.d0_5) = Some n
      else n = (if C.truthy (grabber_active cd) && (verbosity env >? 2)
                then nr_droppedframes cd else 0))
  /\ (grabber_active cd <> 0 ->
      grabber_active cd' = 0
      /\ ring w' = []
      /\ frame_ready cd' = 0
      /\ current_frame cd' = None
      /\ convframe cd' = None
      /\ moviehandle cd'
         = (if recording_active cd && (moviehandle cd >? -1)
            then -1 else moviehandle cd)
      /\ movie w' = movie w)
  /\ (grabber_active cd = 0 ->
      w' = with_capdev (set_nrgfxframes 0 (set_nrframes 0 cd)) w).
Proof.
  intros Hstop Hrun.
  exact (proj1 (wp_use _ _ _ _ _
                  (capture_rate_stop_state env capturehandle capturerate
                     dropframes_ w Hstop) Hrun)).
Qed.

Lemma stop_capture_example_run :
  PsychDCVideoCaptureRate example_camera 0 (fps_of 0) 0
    (example_started (Some "m.mov") 0 1)
  = (Returns 0,
     snd (PsychDCVideoCaptureRate example_camera 0 (fps_of 0) 0
            (example_started (Some "m.mov") 0 1))).
Proof. vm_compute. reflexivity. Qed.

Lemma stop_capture_releases_the_grabber_witness :
  let w' := snd (PsychDCVideoCaptureRate example_camera 0 (fps_of 0) 0
                   (example_started (Some "m.mov") 0 1)) in
  grabber_active (capdev w') = 0
  /\ convframe (capdev w') = None
  /\ moviehandle (capdev w') = -1.
Proof.
  cbv zeta.
  destruct (stop_capture_releases_the_grabber example_camera 0 (fps_of 0) 0
              (example_started (Some "m.mov") 0 1) 0 _
              ltac:(vm_compute; reflexivity) stop_capture_example_run)
    as (_ & _ & _ & _ & Hactive & _).
  destruct (Hactive ltac:(vm_compute; discriminate))
    as (H1 & _ & _ & _ & H5 & H6 & _).
  split; [exact H1|]. split; [exact H5|].
  rewrite H6. vm_compute. reflexivity.
Defined.

(** ** Closing a device *)

(** A lookup that returns has checked the handle. *)
Lemma get_vidcap_record_checks env capturehandle w :
  wp (PsychGetVidcapRecord env capturehandle)
     (fun cd w' =>
        cd = capdev w /\ w' = w
        /\ 0 <= capturehandle < PSYCH_MAX_CAPTUREDEVICES env
        /\ valid (capdev w) <> 0) w.
Proof.
  unfold PsychGetVidcapRecord.
  destruct (Z.ltb_spec capturehandle 0); [apply wp_exit|].
  destruct (Z.geb_spec capturehandle (PSYCH_MAX_CAPTUREDEVICES env));
    [apply wp_exit|].
  wp_step. wp_step.
  destruct (Z.eqb_spec (valid (capdev w)) 0); [apply wp_exit|].
  wp_step. repeat split; try assumption; lia.
Qed.

(** The lookup of a handle whose record is not valid. *)
Lemma get_vidcap_record_closed env capturehandle w :
  0 <= capturehandle < PSYCH_MAX_CAPTUREDEVICES env ->
  valid (capdev w) = 0 ->
  PsychGetVidcapRecord env capturehandle w
  = (ErrorExit "Invalid deviceIndex for video capture device passed. No such device open!",
     w).
Proof.
  intros Hrange Hvalid. unfold PsychGetVidcapRecord.
  destruct (Z.ltb_spec capturehandle 0); [lia|].
  destruct (Z.geb_spec capturehandle (PSYCH_MAX_CAPTUREDEVICES env)); [lia|].
  unfold bind, get_capdev. rewrite Hvalid. reflexivity.
Qed.

Lemma close_device_spec env capturehandle w :
  wp (PsychDCCloseVideoCaptureDevice env capturehandle)
     (fun _ w' =>
        let cd := capdev w in
        let cd' := capdev w' in
        0 <= capturehandle < PSYCH_MAX_CAPTUREDEVICES env
        /\ valid cd <> 0
        /\ valid cd' = 0
        /\ camera cd' = None
        /\ codecSpec cd' = None
        /\ targetmoviefilename cd' = None
        /\ grabber_active cd' = 0
        /\ numCaptureRecords w'
           = (if numCaptureRecords w >? 0 then numCaptureRecords w - 1
              else numCaptureRecords w)
        /\ movie w' = movie w
        /\ (grabber_active cd <> 0 ->
            ring w' = []
            /\ convframe cd' = None
            /\ current_frame cd' = None
            /\ frame_ready cd' = 0
            /\ moviehandle cd'
               = (if recording_active cd && (moviehandle cd >? -1)
                  then -1 else moviehandle cd))) w.
Proof.
  unfold PsychDCCloseVideoCaptureDevice.
  apply wp_bind.
  eapply wp_consequence; [apply get_vidcap_record_checks|].
  intros cd0 w0 (-> & -> & Hrange & Hvalid).
  apply wp_bind.
  eapply wp_consequence;
    [apply capture_rate_stop_state; vm_compute; reflexivity|].
  cbv beta zeta.
  intros n w1 ((_ & _ & _ & _ & Hwas & _) & Hoff & _ & Hcount & Hmovie).
  assert (Hfacts : grabber_active (capdev w) <> 0 ->
                   ring w1 = []
                   /\ convframe (capdev w1) = None
                   /\ current_frame (capdev w1) = None
                   /\ frame_ready (capdev w1) = 0
                   /\ moviehandle (capdev w1)
                      = (if recording_active (capdev w)
                            && (moviehandle (capdev w) >? -1)
                         then -1 else moviehandle (capdev w))).
  { intros Hactive.
    destruct (Hwas Hactive) as (_ & A2 & A3 & A4 & A5 & A6 & _).
    repeat split; assumption. }
  clear Hwas.
  destruct w1 as [cd1 ft1 ld1 n1 h1 c1 r1 m1]. destruct cd1.
  world_norm_in Hoff. world_norm_in Hcount. world_norm_in Hmovie.
  world_norm_in Hfacts.
  wp_run; world_norm;
    (split; [exact Hrange|]); (split; [exact Hvalid|]);
    repeat match goal with
           | |- _ /\ _ => split
           end;
    try reflexivity; try assumption;
    try match goal with
        | H : (numCaptureRecords _ >? 0) = _ |- _ =>
            world_norm_in H; rewrite <- Hcount, H; reflexivity
        end.
Qed.

(** X19: when [PsychDCCloseVideoCaptureDevice] returns, the handle
    was that of an open device, its record is released (not valid, no
    camera, no codec specification, no movie file name), capture is
    stopped, the count of open devices is one less unless it was not
    positive, and the frames written to the movie are kept.  A capture
    that was running has been stopped on the way: the DMA ring is empty
    and the scratch frame and the frame buffer are released.  Any later
    lookup of the handle ends in the error "No such device open!". *)
Theorem close_releases_the_device (env : Environment) capturehandle w w' :
  PsychDCCloseVideoCaptureDevice env capturehandle w = (Returns tt, w') ->
  let cd := capdev w in
  let cd' := capdev w' in
  valid cd <> 0
  /\ valid cd' = 0
  /\ camera cd' = None
  /\ codecSpec cd' = None
  /\ targetmoviefilename cd' = None
  /\ grabber_active cd' = 0
  /\ numCaptureRecords w'
     = (if numCaptureRecords w >? 0 then numCaptureRecords w - 1
        else numCaptureRecords w)
  /\ movie w' = movie w
  /\ (grabber_active cd <> 0 ->
      ring w' = [] /\ convframe cd' = None /\ current_frame cd' = None)
  /\ PsychGetVidcapRecord env capturehandle w'
     = (ErrorExit "Invalid deviceIndex for video capture device passed. No such device open!",
        w').
Proof.
  intros Hrun.
  destruct (wp_use _ _ _ _ _ (close_device_spec env capturehandle w) Hrun)
    as (Hrange & H1 & H2 & H3 & H4 & H5 & H6 & H7 & H8 & H9).
  cbv zeta.
  repeat match goal with
         | |- _ /\ _ => split
         end; try assumption.
  - intros Hactive. destruct (H9 Hactive) as (A1 & A2 & A3 & _).
    repeat split; assumption.
  - apply get_vidcap_record_closed; assumption.
Qed.

Lemma close_example_run :
  PsychDCCloseVideoCaptureDevice example_camera 0
    (example_started (Some "m.mov") 0 1)
  = (Returns tt,
     snd (PsychDCCloseVideoCaptureDevice example_camera 0
            (example_started (Some "m.mov") 0 1))).
Proof. vm_compute. reflexivity. Qed.

Lemma close_releases_the_device_witness :
  let w' := snd (PsychDCCloseVideoCaptureDevice example_camera 0
                   (example_started (Some "m.mov") 0 1)) in
  valid (capdev w') = 0 /\ numCaptureRecords w' = 0 /\ ring w' = [].
Proof.
  cbv zeta.
  destruct (close_releases_the_device example_camera 0 _ _ close_example_run)
    as (_ & Hvalid & _ & _ & _ & _ & Hcount & _ & Hwas & _).
  destruct (Hwas ltac:(vm_compute; discriminate)) as (Hring & _).
  split; [exact Hvalid|]. split; [|exact Hring].
  rewrite Hcount. vm_compute. reflexivity.
Defined.

(** The run of a stop on a stopped grabber. *)
Lemma stop_on_stopped_grabber_run env capturehandle w :
  0 <= capturehandle < PSYCH_MAX_CAPTUREDEVICES env ->
  valid (capdev w) <> 0 ->
  grabber_active (capdev w) = 0 ->
  PsychDCVideoCaptureRate env capturehandle (Flt.double_of_int 0) 0 w
  = (Returns 0, with_capdev (set_nrgfxframes 0 (set_nrframes 0 (capdev w))) w).
Proof.
  intros Hrange Hvalid Hoff.
  unfold PsychDCVideoCaptureRate.
  unfold bind at 1.
  rewrite (get_vidcap_record_valid env capturehandle w Hrange Hvalid).
  change (Flt.gt (Flt.double_of_int 0) (Flt.double_of_int 0)) with false.
  change (Flt.ne (Flt.double_of_int 0) (Flt.double_of_int 0)) with false.
  cbv iota. unfold stop_capture.
  unfold bind, get_capdev. rewrite Hoff.
  reflexivity.
Qed.

(** What a call of open that returns leaves. *)
Lemma open_device_spec (env : Environment) slotid deviceIndex rect reqdepth
    num_dma moviename flags bpc w :
  wp (PsychDCOpenVideoCaptureDevice env slotid deviceIndex rect reqdepth num_dma
        moviename flags bpc)
     (fun h w' =>
        h = slotid
        /\ 0 <= slotid < PSYCH_MAX_CAPTUREDEVICES env
        /\ valid (capdev w') = 1
        /\ grabber_active (capdev w') = 0
        /\ camera (capdev w') <> None
        /\ capturehandle (capdev w') = slotid
        /\ roirect (capdev w')
           = match rect with Some r => r | None => PsychMakeRect 0 0 1 1 end
        /\ reqlayers (capdev w') = reqdepth
        /\ framecounter (capdev w') = 0
        /\ syncmode (capdev w') = 0
        /\ numCaptureRecords w' = numCaptureRecords w + 1
        /\ firsttime w' = false
        /\ libdc w' = (if firsttime w then true else libdc w)
        /\ ring w' = ring w
        /\ movie w' = movie w) w.
Proof.
  unfold PsychDCOpenVideoCaptureDevice, PsychDCLibInit, PsychGetVidcapRecord,
    parse_codec_spec.
  destruct w as [cd ft ld n h c r m].
  wp_run; world_norm;
    repeat match goal with
           | |- _ /\ _ => split
           end;
    try reflexivity; try congruence; try lia;
    match goal with
    | H : firsttime _ = false |- _ => exact H
    end.
Qed.

(** X20: a device that was opened can always be closed: the
    call of [PsychDCCloseVideoCaptureDevice] on the handle that
    [PsychDCOpenVideoCaptureDevice] returned comes back, without an error
    and without stopping anything, the slot is free again, the count of
    open devices is what it was before the open, and the only call made
    to the camera is the power-down. *)
Theorem open_then_close_round_trip (env : Environment) slotid deviceIndex rect
    reqdepth num_dma moviename flags bpc w h w1 :
  0 <= numCaptureRecords w ->
  PsychDCOpenVideoCaptureDevice env slotid deviceIndex rect reqdepth num_dma
    moviename flags bpc w = (Returns h, w1) ->
  exists w2,
    PsychDCCloseVideoCaptureDevice env h w1 = (Returns tt, w2)
    /\ valid (capdev w2) = 0
    /\ camera (capdev w2) = None
    /\ numCaptureRecords w2 = numCaptureRecords w
    /\ hw w2 = (hw w1 ++ [camera_set_power false])%list
    /\ ring w2 = ring w
    /\ movie w2 = movie w.
Proof.
  intros Hcount Hopen.
  destruct (wp_use _ _ _ _ _
              (open_device_spec env slotid deviceIndex rect reqdepth num_dma
                 moviename flags bpc w) Hopen)
    as (-> & Hrange & Hvalid & Hoff & _ & _ & _ & _ & _ & _ & Hn & _ & _
        & Hring & Hmovie).
  clear Hopen.
  assert (Hvalid' : valid (capdev w1) <> 0) by (rewrite Hvalid; discriminate).
  assert (Hpos : (numCaptureRecords w1 >? 0) = true).
  { rewrite Hn. apply Z.gtb_lt. lia. }
  unfold PsychDCCloseVideoCaptureDevice.
  unfold bind at 1.
  rewrite (get_vidcap_record_valid env slotid w1 Hrange Hvalid').
  unfold bind at 1.
  rewrite (stop_on_stopped_grabber_run env slotid w1 Hrange Hvalid' Hoff).
  destruct w1 as [cd1 ft1 ld1 n1 h1 c1 r1 m1]. destruct cd1.
  world_norm_in Hpos. world_norm_in Hn. world_norm_in Hring.
  world_norm_in Hmovie.
  destruct (dc_succeeds env (camera_set_power false)) eqn:Hpower;
    unfold bind, dc, when, assign, printf, put_world, get_world, ret;
    rewrite Hpower; run_norm; rewrite Hpos; run_norm;
    eexists; (split; [reflexivity|]); world_norm;
    repeat split; try reflexivity; try assumption; lia.
Qed.

Lemma open_then_close_example_run :
  PsychDCOpenVideoCaptureDevice example_camera 0 (-1) None 3 0 None 0 8
    initial_world
  = (Returns 0, example_opened None None 0 8).
Proof. vm_compute. reflexivity. Qed.

Lemma open_then_close_round_trip_witness :
  exists w2,
    PsychDCCloseVideoCaptureDevice example_camera 0
      (example_opened None None 0 8) = (Returns tt, w2)
    /\ valid (capdev w2) = 0
    /\ numCaptureRecords w2 = numCaptureRecords initial_world.
Proof.
  destruct (open_then_close_round_trip example_camera 0 (-1) None 3 0 None 0 8
              initial_world 0 (example_opened None None 0 8)
              ltac:(vm_compute; discriminate) open_then_close_example_run)
    as (w2 & Hrun & Hvalid & _ & Hcount & _).
  exists w2. split; [exact Hrun|]. split; [exact Hvalid|exact Hcount].
Defined.

(** ** The recorder thread never leaves through an error exit *)

Lemma twp_bind {A B : Type} (c : M A) (k : A -> M B) Q w :
  twp c (fun a w1 => twp (k a) Q w1) w -> twp (bind c k) Q w.
Proof.
  unfold twp, bind. intros (a & w1 & Hc & b & w' & Hk & HQ).
  exists b, w'. rewrite Hc. now split.
Qed.

Lemma twp_ret {A : Type} (a : A) (Q : A -> World -> Prop) w :
  Q a w -> twp (ret a) Q w.
Proof. unfold twp, ret. intros H. now exists a, w. Qed.

Lemma twp_assign f (Q : unit -> World -> Prop) w :
  Q tt (with_capdev (f (capdev w)) w) -> twp (assign f) Q w.
Proof. unfold twp, assign. intros H. now eexists _, _. Qed.

Lemma twp_put_world f (Q : unit -> World -> Prop) w :
  Q tt (f w) -> twp (put_world f) Q w.
Proof. unfold twp, put_world. intros H. now eexists _, _. Qed.

Lemma twp_printf msg (Q : unit -> World -> Prop) w :
  Q tt (with_console (console w ++ [msg]) w) -> twp (printf msg) Q w.
Proof. apply twp_put_world. Qed.

Lemma twp_get_capdev (Q : PsychVidcapRecordType -> World -> Prop) w :
  Q (capdev w) w -> twp get_capdev Q w.
Proof. unfold twp, get_capdev. intros H. now eexists _, _. Qed.

Lemma twp_get_world (Q : World -> World -> Prop) w :
  Q w w -> twp get_world Q w.
Proof. unfold twp, get_world. intros H. now eexists _, _. Qed.

Lemma twp_dc env c (Q : bool -> World -> Prop) w :
  Q (dc_succeeds env c) (with_hw (hw w ++ [c]) w) -> twp (dc env c) Q w.
Proof. unfold twp, dc. intros H. now eexists _, _. Qed.

Lemma twp_increment field set n (Q : unit -> World -> Prop) w :
  in_int_range (field (capdev w) + n) = true ->
  Q tt (with_capdev (set (field (capdev w) + n) (capdev w)) w) ->
  twp (increment field set n) Q w.
Proof.
  unfold twp, increment, int_add. intros -> H. now eexists _, _.
Qed.

Lemma twp_returns {A : Type} (c : M A) (Q : A -> World -> Prop) w :
  twp c Q w -> exists a w', c w = (Returns a, w') /\ Q a w'.
Proof. intros H. exact H. Qed.

Lemma error_reported_printf w msg :
  String.prefix "PTB-ERROR" msg = true ->
  error_reported (with_console (console w ++ [msg]) w).
Proof.
  intros H. unfold error_reported. destruct w. world_norm.
  rewrite last_last. exact H.
Qed.

(** One step of a computation that has to return. *)
Ltac twp_step :=
  world_norm; cbv beta iota;
  lazymatch goal with
  | |- twp (bind _ _) _ _ => apply twp_bind
  | |- twp (ret _) _ _ => apply twp_ret; cbv beta
  | |- twp (assign _) _ _ => apply twp_assign; world_norm
  | |- twp (put_world _) _ _ => apply twp_put_world; world_norm
  | |- twp (printf _) _ _ => apply twp_printf; world_norm
  | |- twp get_capdev _ _ => apply twp_get_capdev; world_norm
  | |- twp get_world _ _ => apply twp_get_world
  | |- twp (dc _ _) _ _ => apply twp_dc; world_norm
  | |- twp (increment _ _ _) _ _ =>
      apply twp_increment; world_norm; [assumption|]
  | |- twp (when ?b _) _ _ => unfold when at 1
  | |- twp (if ?b then _ else _) _ _ => destruct b eqn:?
  | |- twp (match ?x with _ => _ end) _ _ => destruct x eqn:?
  | |- twp (let '(_, _) := ?x in _) _ _ => destruct x eqn:?
  end.



(** ** Opening a device: the codec specification and the failures *)

Lemma substring_whole s : substring 0 (String.length s) s = s.
Proof. induction s as [|c s IH]; cbn; [reflexivity|now rewrite IH]. Qed.

Lemma substring_split s : forall i,
  (i <= String.length s)%nat ->
  (substring 0 i s ++ substring i (String.length s - i) s)%string = s.
Proof.
  induction s as [|c s IH]; intros [|i] Hi; cbn in *; try reflexivity;
    try lia.
  - now rewrite substring_whole.
  - rewrite IH by lia. reflexivity.
Qed.

Lemma substring_add s : forall n k m,
  (n + k <= String.length s)%nat ->
  substring n (k + m) s
  = (substring n k s ++ substring (n + k) m s)%string.
Proof.
  induction s as [|c s IH]; intros n k m H.
  - cbn in H. assert (n = 0 /\ k = 0)%nat as [-> ->] by lia.
    destruct m; reflexivity.
  - destruct n as [|n].
    + destruct k as [|k].
      * reflexivity.
      * cbn in H. cbn [Nat.add substring append].
        rewrite (IH 0%nat k m) by lia. reflexivity.
    + cbn in H. cbn [Nat.add substring].
      apply IH. lia.
Qed.

Lemma substring_length s : forall n m,
  String.length (substring n m s) = Nat.min m (String.length s - n).
Proof.
  induction s as [|c s IH]; intros [|n] [|m]; cbn; try reflexivity.
  - now rewrite IH, Nat.sub_0_r.
  - apply IH.
  - apply IH.
Qed.

(** A name is made of the text before a tag found in it, the tag, and
    the text after the tag. *)
Lemma index_splits tag s i :
  String.length tag <> 0%nat ->
  String.index 0 tag s = Some i ->
  s = (str_before i s ++ tag ++ str_from (i + String.length tag) s)%string.
Proof.
  intros Htag Hindex. unfold str_before, str_from.
  pose proof (index_correct1 _ _ _ _ Hindex) as Hsub.
  assert (Hlen : (i + String.length tag <= String.length s)%nat).
  { pose proof (f_equal String.length Hsub) as H.
    rewrite substring_length in H. lia. }
  transitivity (substring 0 i s ++ substring i (String.length s - i) s)%string;
    [symmetry; apply substring_split; lia|].
  f_equal.
  replace (String.length s - i)%nat
    with (String.length tag + (String.length s - (i + String.length tag)))%nat
    by lia.
  rewrite substring_add by lia.
  rewrite Hsub. reflexivity.
Qed.

Lemma open_codec_spec (env : Environment) slotid deviceIndex rect reqdepth
    num_dma name flags bpc w :
  wp (PsychDCOpenVideoCaptureDevice env slotid deviceIndex rect reqdepth num_dma
        (Some name) flags bpc)
     (fun _ w' =>
        match String.index 0 ":CodecSettings=" name with
        | Some i =>
            targetmoviefilename (capdev w') = Some (str_before i name)
            /\ codecSpec (capdev w')
               = Some ("DEFAULTenc    " ++ str_from (i + 15) name)%string
        | None =>
            match String.index 0 ":CodecType=" name with
            | Some i =>
                targetmoviefilename (capdev w') = Some (str_before i name)
                /\ codecSpec (capdev w') = Some (str_from (i + 11) name)
                /\ str_from (i + 11) name <> ""
            | None =>
                targetmoviefilename (capdev w') = Some name
                /\ codecSpec (capdev w') = Some "DEFAULTenc"
            end
        end) w.
Proof.
  unfold PsychDCOpenVideoCaptureDevice, PsychDCLibInit, PsychGetVidcapRecord,
    parse_codec_spec.
  destruct w as [cd ft ld n h c r m].
  destruct (String.index 0 ":CodecSettings=" name) as [i|] eqn:Hsettings;
    [|destruct (String.index 0 ":CodecType=" name) as [i|] eqn:Htype].
  - wp_run; world_norm; split; reflexivity.
  - destruct (String.length (str_from (i + 11) name) =? 0)%nat eqn:Hempty.
    + wp_run.
    + assert (Hne : str_from (i + 11) name <> "").
      { intros H. rewrite H in Hempty. discriminate. }
      wp_run; world_norm; repeat split; try reflexivity; exact Hne.
  - wp_run; world_norm; split; reflexivity.
Qed.

(** X22: a call of open with a movie file name that returns has
    split the name at the first codec tag and lost nothing of it.  With
    a tag [:CodecSettings=] the name is the stored file name, the tag and
    a rest, and the stored codec specification is the keyword of the
    default codec followed by that rest; otherwise with a tag
    [:CodecType=] the name is the stored file name, the tag and the
    stored codec specification, which is not empty; without a tag the
    whole name is stored and the codec specification is ["DEFAULTenc"]. *)
Theorem open_splits_the_movie_name (env : Environment) slotid deviceIndex rect
    reqdepth num_dma name flags bpc w h w' :
  PsychDCOpenVideoCaptureDevice env slotid deviceIndex rect reqdepth num_dma
    (Some name) flags bpc w = (Returns h, w') ->
  exists file spec,
    targetmoviefilename (capdev w') = Some file
    /\ codecSpec (capdev w') = Some spec
    /\ ((exists rest,
           name = (file ++ ":CodecSettings=" ++ rest)%string
           /\ spec = ("DEFAULTenc    " ++ rest)%string)
        \/ (strstr name ":CodecSettings=" = false
            /\ name = (file ++ ":CodecType=" ++ spec)%string
            /\ spec <> "")
        \/ (strstr name ":CodecSettings=" = false
            /\ strstr name ":CodecType=" = false
            /\ file = name /\ spec = "DEFAULTenc")).
Proof.
  intros Hrun.
  pose proof (wp_use _ _ _ _ _
                (open_codec_spec env slotid deviceIndex rect reqdepth num_dma
                   name flags bpc w) Hrun) as H.
  cbv beta in H. unfold strstr.
  destruct (String.index 0 ":CodecSettings=" name) as [i|] eqn:Hsettings;
    [|destruct (String.index 0 ":CodecType=" name) as [i|] eqn:Htype].
  - destruct H as [Hfile Hspec].
    eexists _, _. split; [exact Hfile|]. split; [exact Hspec|].
    left. eexists. split; [|reflexivity].
    apply (index_splits ":CodecSettings=" name i); [discriminate|exact Hsettings].
  - destruct H as (Hfile & Hspec & Hne).
    eexists _, _. split; [exact Hfile|]. split; [exact Hspec|].
    right. left. split; [reflexivity|]. split; [|exact Hne].
    apply (index_splits ":CodecType=" name i); [discriminate|exact Htype].
  - destruct H as [Hfile Hspec].
    eexists _, _. split; [exact Hfile|]. split; [exact Hspec|].
    right. right. repeat split; reflexivity.
Qed.

Lemma open_splits_example_run :
  PsychDCOpenVideoCaptureDevice example_camera 0 (-1) None 3 0
    (Some "m.mov:CodecType=huffyuv") 0 8 initial_world
  = (Returns 0, example_opened None (Some "m.mov:CodecType=huffyuv") 0 8).
Proof. vm_compute. reflexivity. Qed.

Lemma open_splits_the_movie_name_witness :
  exists file spec,
    targetmoviefilename
      (capdev (example_opened None (Some "m.mov:CodecType=huffyuv") 0 8))
    = Some file
    /\ codecSpec
         (capdev (example_opened None (Some "m.mov:CodecType=huffyuv") 0 8))
       = Some spec.
Proof.
  destruct (open_splits_the_movie_name example_camera 0 (-1) None 3 0
              "m.mov:CodecType=huffyuv" 0 8 initial_world 0 _
              open_splits_example_run)
    as (file & spec & Hfile & Hspec & _).
  exists file, spec. split; [exact Hfile|exact Hspec].
Defined.

(** *** How a call ends *)

Lemma owp_bind {A B : Type} (c : M A) (k : A -> M B) Q w :
  owp c (owp_then k Q) w -> owp (bind c k) Q w.
Proof.
  unfold owp, owp_then, bind.
  destruct (c w) as [[a | msg | why | ] w1]; cbn; auto.
Qed.

Lemma owp_ret {A : Type} (a : A) (Q : outcome A -> World -> Prop) w :
  Q (Returns a) w -> owp (ret a) Q w.
Proof. intros H. exact H. Qed.

Lemma owp_assign f (Q : outcome unit -> World -> Prop) w :
  Q (Returns tt) (with_capdev (f (capdev w)) w) -> owp (assign f) Q w.
Proof. intros H. exact H. Qed.

Lemma owp_put_world f (Q : outcome unit -> World -> Prop) w :
  Q (Returns tt) (f w) -> owp (put_world f) Q w.
Proof. intros H. exact H. Qed.

Lemma owp_printf msg (Q : outcome unit -> World -> Prop) w :
  Q (Returns tt) (with_console (console w ++ [msg]) w) -> owp (printf msg) Q w.
Proof. intros H. exact H. Qed.

Lemma owp_get_capdev (Q : outcome PsychVidcapRecordType -> World -> Prop) w :
  Q (Returns (capdev w)) w -> owp get_capdev Q w.
Proof. intros H. exact H. Qed.

Lemma owp_get_world (Q : outcome World -> World -> Prop) w :
  Q (Returns w) w -> owp get_world Q w.
Proof. intros H. exact H. Qed.

Lemma owp_exit {A : Type} msg (Q : outcome A -> World -> Prop) w :
  Q (ErrorExit msg) w -> owp (PsychErrorExitMsg msg) Q w.
Proof. intros H. exact H. Qed.

Lemma owp_undefined {A : Type} why (Q : outcome A -> World -> Prop) w :
  Q (Undefined why) w -> owp (undefined why) Q w.
Proof. intros H. exact H. Qed.

Lemma owp_dc env c (Q : outcome bool -> World -> Prop) w :
  Q (Returns (dc_succeeds env c)) (with_hw (hw w ++ [c]) w) ->
  owp (dc env c) Q w.
Proof. intros H. exact H. Qed.

Lemma owp_use {A : Type} (c : M A) (Q : outcome A -> World -> Prop) w o w' :
  owp c Q w -> c w = (o, w') -> Q o w'.
Proof. unfold owp. intros H Hrun. rewrite Hrun in H. exact H. Qed.

Ltac owp_step :=
  world_norm; cbv beta iota delta [owp_then];
  lazymatch goal with
  | |- owp (bind _ _) _ _ => apply owp_bind
  | |- owp (ret _) _ _ => apply owp_ret
  | |- owp (assign _) _ _ => apply owp_assign
  | |- owp (put_world _) _ _ => apply owp_put_world
  | |- owp (printf _) _ _ => apply owp_printf
  | |- owp get_capdev _ _ => apply owp_get_capdev
  | |- owp get_world _ _ => apply owp_get_world
  | |- owp (PsychErrorExitMsg _) _ _ => apply owp_exit
  | |- owp (undefined _) _ _ => apply owp_undefined
  | |- owp (dc _ _) _ _ => apply owp_dc
  | |- owp (when ?b _) _ _ => unfold when at 1
  | |- owp (if ?b then _ else _) _ _ => destruct b eqn:?
  | |- owp (match ?x with _ => _ end) _ _ => destruct x eqn:?
  end.

Lemma open_failure_spec (env : Environment) slotid deviceIndex rect reqdepth
    num_dma moviename flags bpc w :
  0 <= slotid < PSYCH_MAX_CAPTUREDEVICES env ->
  owp (PsychDCOpenVideoCaptureDevice env slotid deviceIndex rect reqdepth
         num_dma moviename flags bpc)
      (fun o w' =>
         forall msg, o = ErrorExit msg ->
           numCaptureRecords w' = numCaptureRecords w
           /\ msg <> "Invalid (empty) :CodecSettings= parameter specified. Aborted."
           /\ (valid (capdev w') = 0
               \/ (msg = "Failed to initialize libDC1394 V2 Firewire video capture library! Capture engine unavailable."
                   /\ capdev w' = capdev w)
               \/ (msg = "Invalid (empty) :CodecType= parameter specified. Aborted."
                   /\ valid (capdev w') = 1
                   /\ exists file,
                        moviename = Some (file ++ ":CodecType=")%string))) w.
Proof.
  intros Hrange.
  unfold PsychDCOpenVideoCaptureDevice, PsychDCLibInit, PsychGetVidcapRecord,
    parse_codec_spec.
  destruct w as [cd ft ld n h c r m].
  repeat owp_step; world_norm; cbv beta iota delta [owp_then];
    intros msg Hmsg; try discriminate Hmsg; try lia;
    try match goal with
        | H : (String.length (_ ++ _) =? 0)%nat = true |- _ =>
            cbn in H; discriminate H
        end;
    injection Hmsg as <-;
    (split; [reflexivity|]);
    (split; [discriminate|]);
    first
      [ left; reflexivity
      | right; left; split; reflexivity
      | right; right; split; [reflexivity|]; split; [reflexivity|] ].
  all: match goal with
       | Hi : String.index 0 ":CodecType=" ?name = Some ?i,
         He : (String.length (str_from (?i + 11) ?name) =? 0)%nat = true |- _ =>
           exists (str_before i name);
           apply Nat.eqb_eq in He;
           destruct (str_from (i + 11) name) eqn:Hrest; [|discriminate He];
           rewrite (index_splits ":CodecType=" name i ltac:(discriminate) Hi)
             at 1;
           change (String.length ":CodecType=") with 11%nat;
           rewrite Hrest; reflexivity
       end.
Qed.

(** X23: a call of open that ends in an error exit has not
    counted the device as open, and has released the slot it was given
    (the record is not valid), with two exceptions: when the library
    could not be initialised the record was not touched at all, and when
    the movie file name ends in the tag [:CodecType=] with nothing
    behind it the record of the slot is left marked as valid.  The
    error for an empty [:CodecSettings=] is never raised: the codec
    specification tested there starts with the keyword of the default
    codec. *)
Theorem failed_open_releases_the_slot (env : Environment) slotid deviceIndex
    rect reqdepth num_dma moviename flags bpc w msg w' :
  0 <= slotid < PSYCH_MAX_CAPTUREDEVICES env ->
  PsychDCOpenVideoCaptureDevice env slotid deviceIndex rect reqdepth num_dma
    moviename flags bpc w = (ErrorExit msg, w') ->
  numCaptureRecords w' = numCaptureRecords w
  /\ msg <> "Invalid (empty) :CodecSettings= parameter specified. Aborted."
  /\ (valid (capdev w') = 0
      \/ (msg = "Failed to initialize libDC1394 V2 Firewire video capture library! Capture engine unavailable."
          /\ capdev w' = capdev w)
      \/ (msg = "Invalid (empty) :CodecType= parameter specified. Aborted."
          /\ valid (capdev w') = 1
          /\ exists file, moviename = Some (file ++ ":CodecType=")%string)).
Proof.
  intros Hrange Hrun.
  exact (owp_use _ _ _ _ _
           (open_failure_spec env slotid deviceIndex rect reqdepth num_dma
              moviename flags bpc w Hrange) Hrun msg eq_refl).
Qed.

Lemma failed_open_example_run :
  PsychDCOpenVideoCaptureDevice example_camera 0 (-1) None 3 0
    (Some "m.mov:CodecType=") 0 8 initial_world
  = (ErrorExit "Invalid (empty) :CodecType= parameter specified. Aborted.",
     snd (PsychDCOpenVideoCaptureDevice example_camera 0 (-1) None 3 0
            (Some "m.mov:CodecType=") 0 8 initial_world)).
Proof. vm_compute. reflexivity. Qed.

Lemma failed_open_releases_the_slot_witness :
  numCaptureRecords
    (snd (PsychDCOpenVideoCaptureDevice example_camera 0 (-1) None 3 0
            (Some "m.mov:CodecType=") 0 8 initial_world))
  = numCaptureRecords initial_world.
Proof.
  exact (proj1 (failed_open_releases_the_slot example_camera 0 (-1) None 3 0
                  (Some "m.mov:CodecType=") 0 8 initial_world _ _
                  ltac:(vm_compute; split; [discriminate|reflexivity])
                  failed_open_example_run)).
Defined.

(** ** Parameters of the conversion of raw sensor data *)

(** The image [PsychDCPreprocessFrame] returns is the one computed from
    the frame, the scratch frame and the settings of the record. *)
Lemma preprocess_image env w fr img w' :
  frame (capdev w) = Some fr ->
  PsychDCPreprocessFrame env w = (Returns (Some img), w') ->
  img = preprocessed env (capdev w) fr.
Proof.
  intros Hframe Hrun.
  destruct (wp_use _ _ _ _ _ (preprocess_spec env w) Hrun)
    as (fr0 & fr' & cf' & hw' & console' & Hfr & [Himg|Himg] & _).
  - rewrite Hframe in Hfr. injection Hfr as <-. now injection Himg.
  - discriminate Himg.
Qed.

Lemma small_value_roundtrip v :
  0 <= v < 32 ->
  Flt.ne (Flt.double_of_int v) Flt.DBL_MAX = true
  /\ Flt.int_of (Flt.dadd (Flt.double_of_int v) Flt.d0_5) = Some v.
Proof. apply syncmode_value_roundtrip. Qed.

Lemma debayer_method_set_run env capturehandle m w :
  0 <= m < 32 ->
  0 <= capturehandle < PSYCH_MAX_CAPTUREDEVICES env ->
  valid (capdev w) <> 0 ->
  PsychDCVideoCaptureSetParameter_DebayerMethod env capturehandle
    (Flt.double_of_int m) w
  = (Returns (Flt.double_of_int
                (C.uint32 (debayer_method (capdev w) - DC1394.BAYER_METHOD_MIN))),
     with_capdev (set_debayer_method (DC1394.BAYER_METHOD_MIN + m) (capdev w)) w).
Proof.
  intros Hm Hrange Hvalid.
  unfold PsychDCVideoCaptureSetParameter_DebayerMethod.
  destruct (Z.eqb_spec capturehandle (-1)); [lia|].
  unfold bind at 1.
  rewrite (get_vidcap_record_valid env capturehandle w Hrange Hvalid).
  destruct (small_value_roundtrip m Hm) as [-> ->].
  unfold DC1394.BAYER_METHOD_MIN.
  rewrite (C_uint32_small m) by lia.
  rewrite (C_uint32_small (m + 0)) by lia.
  replace (m + 0) with (0 + m) by lia.
  reflexivity.
Qed.

Lemma parameter_query_run_debayer env capturehandle w :
  0 <= capturehandle < PSYCH_MAX_CAPTUREDEVICES env ->
  valid (capdev w) <> 0 ->
  PsychDCVideoCaptureSetParameter_DebayerMethod env capturehandle Flt.DBL_MAX w
  = (Returns (Flt.double_of_int
                (C.uint32 (debayer_method (capdev w) - DC1394.BAYER_METHOD_MIN))),
     w).
Proof.
  intros Hrange Hvalid.
  unfold PsychDCVideoCaptureSetParameter_DebayerMethod.
  destruct (Z.eqb_spec capturehandle (-1)); [lia|].
  unfold bind at 1.
  rewrite (get_vidcap_record_valid env capturehandle w Hrange Hvalid).
  change (Flt.ne Flt.DBL_MAX Flt.DBL_MAX) with false.
  reflexivity.
Qed.

(** X24: the debayering method set with the parameter
    [DebayerMethod] is the one a query reports and the one the
    conversion of the next raw frame uses.  For each of the methods 0 to
    7 of libdc1394 and an open device, the call that sets the method
    returns the method set before and changes nothing else in the
    record; a query (value [DBL_MAX]) then returns the new method and
    changes nothing; and an image that [PsychDCPreprocessFrame] returns
    for a raw or mono frame is the result of debayering with that
    method. *)
Theorem debayer_method_is_set_and_used (env : Environment) capturehandle m w :
  0 <= m <= 7 ->
  0 <= capturehandle < PSYCH_MAX_CAPTUREDEVICES env ->
  valid (capdev w) <> 0 ->
  let old := Flt.double_of_int
               (C.uint32 (debayer_method (capdev w) - DC1394.BAYER_METHOD_MIN)) in
  let w1 := with_capdev (set_debayer_method m (capdev w)) w in
  PsychDCVideoCaptureSetParameter_DebayerMethod env capturehandle
    (Flt.double_of_int m) w = (Returns old, w1)
  /\ PsychDCVideoCaptureSetParameter_DebayerMethod env capturehandle
       Flt.DBL_MAX w1 = (Returns (Flt.double_of_int m), w1)
  /\ forall fr cf img w2,
       frame (capdev w) = Some fr ->
       convframe (capdev w) = Some cf ->
       is_raw_or_mono (colormode (capdev w)) = true ->
       PsychDCPreprocessFrame env w1 = (Returns (Some img), w2) ->
       img = debayer env (image fr)
               (if (color_filter fr <? DC1394.COLOR_FILTER_MIN)
                   || (color_filter fr >? DC1394.COLOR_FILTER_MAX)
                then color_filter_override (capdev w) else color_filter fr)
               m.
Proof.
  intros Hm Hrange Hvalid. cbv zeta.
  split; [|split].
  - rewrite (debayer_method_set_run env capturehandle m w) by (lia || assumption).
    reflexivity.
  - rewrite parameter_query_run_debayer.
    + destruct w as [cd ft ld n h c r k]. destruct cd. world_norm.
      unfold DC1394.BAYER_METHOD_MIN.
      rewrite Z.sub_0_r, C_uint32_small by lia. reflexivity.
    + exact Hrange.
    + destruct w as [cd ft ld n h c r k]. destruct cd. exact Hvalid.
  - intros fr cf img w2 Hframe Hconv Hraw Hrun.
    destruct w as [cd ft ld n h c r k]. destruct cd.
    world_norm_in Hframe. world_norm_in Hconv. world_norm_in Hraw. subst.
    match type of Hrun with
    | PsychDCPreprocessFrame _ ?W = _ =>
        rewrite (preprocess_image env W fr img w2 eq_refl Hrun)
    end.
    unfold preprocessed. world_norm.
    rewrite Hraw. reflexivity.
Qed.

Lemma debayer_method_witness :
  exists old w1,
    PsychDCVideoCaptureSetParameter_DebayerMethod example_camera 0
      (Flt.double_of_int 3) (example_opened None None 0 8) = (Returns old, w1)
    /\ PsychDCVideoCaptureSetParameter_DebayerMethod example_camera 0
         Flt.DBL_MAX w1 = (Returns (Flt.double_of_int 3), w1).
Proof.
  destruct (debayer_method_is_set_and_used example_camera 0 3
              (example_opened None None 0 8)
              ltac:(lia)
              ltac:(vm_compute; split; [discriminate|reflexivity])
              ltac:(vm_compute; discriminate))
    as (Hset & Hget & _).
  eexists _, _. split; [exact Hset|exact Hget].
Defined.

Lemma override_pattern_set_run env capturehandle p w :
  0 <= p < 32 ->
  0 <= capturehandle < PSYCH_MAX_CAPTUREDEVICES env ->
  valid (capdev w) <> 0 ->
  PsychDCVideoCaptureSetParameter_OverrideBayerPattern env capturehandle
    (Flt.double_of_int p) w
  = (Returns (Flt.double_of_int
                (C.uint32 (color_filter_override (capdev w)
                           - DC1394.COLOR_FILTER_MIN))),
     with_capdev
       (set_color_filter_override (DC1394.COLOR_FILTER_MIN + p) (capdev w)) w).
Proof.
  intros Hp Hrange Hvalid.
  unfold PsychDCVideoCaptureSetParameter_OverrideBayerPattern.
  destruct (Z.eqb_spec capturehandle (-1)); [lia|].
  unfold bind at 1.
  rewrite (get_vidcap_record_valid env capturehandle w Hrange Hvalid).
  destruct (small_value_roundtrip p Hp) as [-> ->].
  unfold DC1394.COLOR_FILTER_MIN.
  rewrite (C_uint32_small p) by lia.
  rewrite (C_uint32_small (p + 512)) by lia.
  replace (p + 512) with (512 + p) by lia.
  reflexivity.
Qed.

Lemma parameter_query_run_override env capturehandle w :
  0 <= capturehandle < PSYCH_MAX_CAPTUREDEVICES env ->
  valid (capdev w) <> 0 ->
  PsychDCVideoCaptureSetParameter_OverrideBayerPattern env capturehandle
    Flt.DBL_MAX w
  = (Returns (Flt.double_of_int
                (C.uint32 (color_filter_override (capdev w)
                           - DC1394.COLOR_FILTER_MIN))),
     w).
Proof.
  intros Hrange Hvalid.
  unfold PsychDCVideoCaptureSetParameter_OverrideBayerPattern.
  destruct (Z.eqb_spec capturehandle (-1)); [lia|].
  unfold bind at 1.
  rewrite (get_vidcap_record_valid env capturehandle w Hrange Hvalid).
  change (Flt.ne Flt.DBL_MAX Flt.DBL_MAX) with false.
  reflexivity.
Qed.

(** X25: the Bayer pattern set with the parameter
    [OverrideBayerPattern] is the one a query reports, and the one the
    conversion uses for exactly the frames that carry no valid pattern
    of their own.  For each of the four patterns (0 to 3) and an open
    device, the call that sets the pattern changes nothing else in the
    record; a query (value [DBL_MAX]) then returns the pattern and
    changes nothing; and an image that [PsychDCPreprocessFrame] returns
    for a raw or mono frame is debayered with the frame's own colour
    filter when that lies in the range of libdc1394, and with the
    pattern set otherwise. *)
Theorem override_bayer_pattern_is_set_and_used (env : Environment)
    capturehandle p w :
  0 <= p <= 3 ->
  0 <= capturehandle < PSYCH_MAX_CAPTUREDEVICES env ->
  valid (capdev w) <> 0 ->
  let old := Flt.double_of_int
               (C.uint32 (color_filter_override (capdev w)
                          - DC1394.COLOR_FILTER_MIN)) in
  let w1 := with_capdev
              (set_color_filter_override (DC1394.COLOR_FILTER_MIN + p)
                 (capdev w)) w in
  PsychDCVideoCaptureSetParameter_OverrideBayerPattern env capturehandle
    (Flt.double_of_int p) w = (Returns old, w1)
  /\ PsychDCVideoCaptureSetParameter_OverrideBayerPattern env capturehandle
       Flt.DBL_MAX w1 = (Returns (Flt.double_of_int p), w1)
  /\ forall fr cf img w2,
       frame (capdev w) = Some fr ->
       convframe (capdev w) = Some cf ->
       is_raw_or_mono (colormode (capdev w)) = true ->
       PsychDCPreprocessFrame env w1 = (Returns (Some img), w2) ->
       img = debayer env (image fr)
               (if (DC1394.COLOR_FILTER_MIN <=? color_filter fr)
                   && (color_filter fr <=? DC1394.COLOR_FILTER_MAX)
                then color_filter fr else DC1394.COLOR_FILTER_MIN + p)
               (debayer_method (capdev w)).
Proof.
  intros Hp Hrange Hvalid. cbv zeta.
  split; [|split].
  - rewrite (override_pattern_set_run env capturehandle p w)
      by (lia || assumption).
    reflexivity.
  - rewrite parameter_query_run_override.
    + destruct w as [cd ft ld n h c r k]. destruct cd.
      unfold set_color_filter_override. world_norm.
      unfold DC1394.COLOR_FILTER_MIN.
      replace (512 + p - 512) with p by lia.
      rewrite C_uint32_small by lia. reflexivity.
    + exact Hrange.
    + destruct w as [cd ft ld n h c r k]. destruct cd. exact Hvalid.
  - intros fr cf img w2 Hframe Hconv Hraw Hrun.
    destruct w as [cd ft ld n h c r k]. destruct cd.
    world_norm_in Hframe. world_norm_in Hconv. world_norm_in Hraw. subst.
    match type of Hrun with
    | PsychDCPreprocessFrame _ ?W = _ =>
        rewrite (preprocess_image env W fr img w2 eq_refl Hrun)
    end.
    unfold preprocessed, set_color_filter_override. world_norm.
    rewrite Hraw.
    unfold DC1394.COLOR_FILTER_MIN, DC1394.COLOR_FILTER_MAX.
    destruct (Z.ltb_spec (color_filter fr) 512);
      destruct (Z.gtb_spec (color_filter fr) 515);
      destruct (Z.leb_spec 512 (color_filter fr));
      destruct (Z.leb_spec (color_filter fr) 515);
      try lia; reflexivity.
Qed.

Lemma override_bayer_pattern_witness :
  exists old w1,
    PsychDCVideoCaptureSetParameter_OverrideBayerPattern example_camera 0
      (Flt.double_of_int 2) (example_opened None None 0 8) = (Returns old, w1)
    /\ PsychDCVideoCaptureSetParameter_OverrideBayerPattern example_camera 0
         Flt.DBL_MAX w1 = (Returns (Flt.double_of_int 2), w1).
Proof.
  destruct (override_bayer_pattern_is_set_and_used example_camera 0 2
              (example_opened None None 0 8)
              ltac:(lia)
              ltac:(vm_compute; split; [discriminate|reflexivity])
              ltac:(vm_compute; discriminate))
    as (Hset & Hget & _).
  eexists _, _. split; [exact Hset|exact Hget].
Defined.

(** ** A new name for the movie file *)

Lemma substring_of_prefix s : forall i p k,
  (p + k <= i)%nat ->
  substring p k (substring 0 i s) = substring p k s.
Proof.
  induction s as [|c s IH]; intros i p k H.
  - destruct i; reflexivity.
  - destruct i as [|i].
    + assert (p = 0 /\ k = 0)%nat as [-> ->] by lia. reflexivity.
    + cbn [substring]. destruct p as [|p].
      * destruct k as [|k]; [reflexivity|].
        cbn [substring]. rewrite IH by lia. reflexivity.
      * cbn [substring]. apply IH. lia.
Qed.

(** An occurrence of a tag in the text before position [i] is an
    occurrence in the whole text, before [i]. *)
Lemma occurrence_in_prefix tag s i p :
  String.length tag <> 0%nat ->
  String.index 0 tag (substring 0 i s) = Some p ->
  substring p (String.length tag) s = tag /\ (p < i)%nat.
Proof.
  intros Htag Hindex.
  pose proof (index_correct1 _ _ _ _ Hindex) as Hsub.
  assert (Hlen : (p + String.length tag <= i)%nat).
  { pose proof (f_equal String.length Hsub) as H.
    rewrite !substring_length in H. lia. }
  split; [|lia].
  rewrite <- (substring_of_prefix s i p (String.length tag) Hlen).
  exact Hsub.
Qed.

Lemma cut_before_removes tag s :
  String.length tag <> 0%nat ->
  strstr (cut_before tag s) tag = false.
Proof.
  intros Htag. unfold strstr, cut_before, str_before.
  destruct (String.index 0 tag s) as [i|] eqn:Hindex.
  - destruct (String.index 0 tag (substring 0 i s)) as [p|] eqn:Hp;
      [|reflexivity].
    destruct (occurrence_in_prefix tag s i p Htag Hp) as [Hsub Hlt].
    exfalso.
    exact (index_correct2 _ _ _ _ Hindex p (Nat.le_0_l p) Hlt Hsub).
  - rewrite Hindex. reflexivity.
Qed.

Lemma cut_before_keeps_absent tag other s :
  String.length other <> 0%nat ->
  strstr s other = false ->
  strstr (cut_before tag s) other = false.
Proof.
  intros Hother Habsent. unfold strstr, cut_before, str_before in *.
  destruct (String.index 0 tag s) as [i|]; [|exact Habsent].
  destruct (String.index 0 other s) eqn:Hs; [discriminate|].
  destruct (String.index 0 other (substring 0 i s)) as [p|] eqn:Hp;
    [|reflexivity].
  destruct (occurrence_in_prefix other s i p Hother Hp) as [Hsub _].
  exfalso.
  refine (index_correct3 _ _ _ _ Hs _ (Nat.le_0_l p) Hsub).
  intros ->. apply Hother. reflexivity.
Qed.

Lemma cut_before_is_prefix tag s :
  String.length tag <> 0%nat ->
  exists rest, s = (cut_before tag s ++ rest)%string.
Proof.
  intros Htag. unfold cut_before.
  destruct (String.index 0 tag s) as [i|] eqn:Hindex.
  - eexists. apply (index_splits tag s i Htag Hindex).
  - exists "". clear. induction s as [|c s IH]; [reflexivity|].
    cbn. now rewrite <- IH.
Qed.

Lemma append_assoc (a b c : string) :
  ((a ++ b) ++ c = a ++ b ++ c)%string.
Proof. induction a as [|x a IH]; cbn; [reflexivity|now rewrite IH]. Qed.

Lemma new_movie_name_spec (env : Environment) capturehandle pname w :
  capturehandle <> -1 ->
  wp (PsychDCVideoCaptureSetParameter_SetNewMoviename env capturehandle pname)
     (fun r w' =>
        exists i,
          String.index 0 "=" pname = Some i
          /\ if recording_active (capdev w) then
               r = Flt.double_of_int 0
               /\ capdev w'
                  = set_targetmoviefilename
                      (Some (cut_before ":CodecSettings="
                               (cut_before ":CodecType"
                                  (str_from (i + 1) pname))))
                      (capdev w)
             else r = Flt.double_of_int (-2) /\ capdev w' = capdev w) w.
Proof.
  intros Hhandle.
  unfold PsychDCVideoCaptureSetParameter_SetNewMoviename.
  destruct (Z.eqb_spec capturehandle (-1)); [contradiction|].
  apply wp_bind.
  eapply wp_consequence; [apply get_vidcap_record_spec|].
  intros cd0 w0 [-> ->].
  destruct (String.index 0 "=" pname) as [i|]; [|apply wp_undefined].
  destruct w as [cd ft ld n0 h c r m]. destruct cd.
  world_norm.
  match goal with
  | |- context [negb ?b] => destruct b
  end; cbn [negb];
    wp_run; world_norm; exists i; (split; [reflexivity|]);
    split; reflexivity.
Qed.

(** X26: the parameter [SetNewMoviename=] changes the name of
    the movie file only on a device opened for recording, and never the
    codec.  When the call returns from a device with recording enabled
    it returns 0, the new name is a prefix of the text behind the first
    ['='] of the parameter name, it contains neither the tag
    [:CodecType] nor the tag [:CodecSettings=], and nothing else in the
    record has changed, the codec specification included.  From a device
    without recording it returns -2 and the record is unchanged. *)
Theorem new_movie_name_carries_no_codec_tag (env : Environment) capturehandle
    pname w r w' :
  capturehandle <> -1 ->
  PsychDCVideoCaptureSetParameter_SetNewMoviename env capturehandle pname w
  = (Returns r, w') ->
  if recording_active (capdev w) then
    r = Flt.double_of_int 0
    /\ exists name i rest,
         capdev w' = set_targetmoviefilename (Some name) (capdev w)
         /\ String.index 0 "=" pname = Some i
         /\ str_from (i + 1) pname = (name ++ rest)%string
         /\ strstr name ":CodecType" = false
         /\ strstr name ":CodecSettings=" = false
  else r = Flt.double_of_int (-2) /\ capdev w' = capdev w.
Proof.
  intros Hhandle Hrun.
  destruct (wp_use _ _ _ _ _
              (new_movie_name_spec env capturehandle pname w Hhandle) Hrun)
    as (i & Hindex & H).
  destruct (recording_active (capdev w)); [|exact H].
  destruct H as [Hr Hcd]. split; [exact Hr|].
  destruct (cut_before_is_prefix ":CodecType" (str_from (i + 1) pname)
              ltac:(discriminate)) as [rest1 Hrest1].
  destruct (cut_before_is_prefix ":CodecSettings="
              (cut_before ":CodecType" (str_from (i + 1) pname))
              ltac:(discriminate)) as [rest2 Hrest2].
  eexists _, i, (rest2 ++ rest1)%string.
  split; [exact Hcd|]. split; [exact Hindex|]. split; [|split].
  - rewrite <- append_assoc, <- Hrest2. exact Hrest1.
  - apply cut_before_keeps_absent; [discriminate|].
    apply cut_before_removes. discriminate.
  - apply cut_before_removes. discriminate.
Qed.

Lemma new_movie_name_example_run :
  PsychDCVideoCaptureSetParameter_SetNewMoviename example_camera 0
    "SetNewMoviename=b.mov:CodecType=x264"
    (example_opened None (Some "a.mov") 0 8)
  = (Returns (Flt.double_of_int 0),
     snd (PsychDCVideoCaptureSetParameter_SetNewMoviename example_camera 0
            "SetNewMoviename=b.mov:CodecType=x264"
            (example_opened None (Some "a.mov") 0 8))).
Proof. vm_compute. reflexivity. Qed.

Lemma new_movie_name_witness :
  exists name,
    targetmoviefilename
      (capdev
         (snd (PsychDCVideoCaptureSetParameter_SetNewMoviename example_camera 0
                 "SetNewMoviename=b.mov:CodecType=x264"
                 (example_opened None (Some "a.mov") 0 8))))
    = Some name
    /\ strstr name ":CodecType" = false.
Proof.
  pose proof (new_movie_name_carries_no_codec_tag example_camera 0
                "SetNewMoviename=b.mov:CodecType=x264"
                (example_opened None (Some "a.mov") 0 8) _ _
                ltac:(discriminate) new_movie_name_example_run) as H.
  change (recording_active (capdev (example_opened None (Some "a.mov") 0 8)))
    with true in H.
  destruct H as (_ & name & i & rest & Hcd & _ & _ & Htype & _).
  exists name. split; [|exact Htype].
  rewrite Hcd. reflexivity.
Defined.

(** ** How a push of a frame into the movie ends *)

Lemma push_frame_outcome env input_image onMasterthread w :
  owp (PsychDCPushFrameToMovie env input_image onMasterthread)
      (fun o w' =>
         capdev w' = capdev w
         /\ match o with
            | Returns true =>
                movie w'
                = (movie w
                   ++ [copy_pixels (bitdepth (capdev w))
                         (movie_bytes env (capdev w)) input_image])%list
                /\ console w' = console w
            | Returns false =>
                onMasterthread = false /\ movie w' = movie w
                /\ error_reported w'
            | ErrorExit _ => onMasterthread = true /\ movie w' = movie w
            | Undefined _ | Waits => False
            end) w.
Proof.
  destruct w as [cd ft ld n h c r m].
  unfold PsychDCPushFrameToMovie, movie_bytes.
  destruct (movie_buffer env) as [framepixels [[[twidth theight] numChannels] bpc]].
  destruct onMasterthread;
    repeat owp_step; world_norm; cbv beta iota delta [owp_then];
    (split; [reflexivity|]);
    repeat split; try reflexivity;
    unfold error_reported; world_norm; rewrite last_last; reflexivity.
Qed.

(** X27: [PsychDCPushFrameToMovie] ends as the thread it runs on
    allows, and never touches the capture record.  When it returns TRUE
    it has added exactly one frame to the movie, the pixels of the input
    image copied (and shifted, for 9 to 15 bpc) in the size of the movie
    buffer, and printed nothing.  Every failure leaves the movie as it
    was; on the master thread a failure is always an error exit and the
    function never returns FALSE, and off the master thread it never
    takes the error exit: it returns FALSE after printing an error
    message. *)
Theorem push_frame_ends_as_its_thread_allows (env : Environment) input_image
    onMasterthread w o w' :
  PsychDCPushFrameToMovie env input_image onMasterthread w = (o, w') ->
  capdev w' = capdev w
  /\ match o with
     | Returns true =>
         movie w'
         = (movie w
            ++ [copy_pixels (bitdepth (capdev w))
                  (movie_bytes env (capdev w)) input_image])%list
         /\ console w' = console w
     | Returns false =>
         onMasterthread = false /\ movie w' = movie w /\ error_reported w'
     | ErrorExit _ => onMasterthread = true /\ movie w' = movie w
     | Undefined _ | Waits => False
     end.
Proof.
  intros Hrun.
  exact (owp_use _ _ _ _ _
           (push_frame_outcome env input_image onMasterthread w) Hrun).
Qed.

Lemma push_frame_example_run :
  PsychDCPushFrameToMovie example_camera [1; 2; 3] true
    (example_started (Some "m.mov") 0 1)
  = (Returns true,
     snd (PsychDCPushFrameToMovie example_camera [1; 2; 3] true
            (example_started (Some "m.mov") 0 1))).
Proof. vm_compute. reflexivity. Qed.

Lemma push_frame_witness :
  let w := example_started (Some "m.mov") 0 1 in
  let w' := snd (PsychDCPushFrameToMovie example_camera [1; 2; 3] true w) in
  capdev w' = capdev w /\ console w' = console w.
Proof.
  cbv zeta.
  destruct (push_frame_ends_as_its_thread_allows example_camera [1; 2; 3]
              true (example_started (Some "m.mov") 0 1) _ _
              push_frame_example_run) as (Hcd & _ & Hconsole).
  split; [exact Hcd|exact Hconsole].
Defined.
